(** * prl_fs: the guest side of Parallels shared folders

    A shallow embedding of [prl_fs/inode.c] and of the mount-option parser of
    [prl_fs/super.c].  Kernel objects live in an explicit store (dentries and
    inodes are addressed by pointers), every host round trip is logged, and a
    call either returns or stops on an invalid memory access. *)

From Stdlib Require Import ZArith String Ascii List Lia Bool.
From stdpp Require Import base gmap strings list.

Local Open Scope string_scope.
Local Open Scope Z_scope.

(** ** Constants of the Linux headers *)

Definition ENOENT : Z := 2.
Definition EIO : Z := 5.
Definition ENOMEM : Z := 12.
Definition EINVAL : Z := 22.
Definition ENOSPC : Z := 28.
Definition ENAMETOOLONG : Z := 36.
Definition ESTALE : Z := 116.

Definition PATH_MAX : Z := 4096.
Definition NAME_MAX : Z := 255.

Definition S_IFMT : Z := 61440.   (* 0170000 *)
Definition S_IFDIR : Z := 16384.  (* 0040000 *)
Definition S_IFREG : Z := 32768.  (* 0100000 *)
Definition S_IFLNK : Z := 40960.  (* 0120000 *)
Definition O_RDWR : Z := 2.
Definition O_CREAT : Z := 64.     (* 0100 *)

Definition ATTR_MODE : Z := 1.
Definition ATTR_UID : Z := 2.
Definition ATTR_GID : Z := 4.
Definition ATTR_SIZE : Z := 8.
Definition ATTR_ATIME : Z := 16.
Definition ATTR_MTIME : Z := 32.
Definition ATTR_CTIME : Z := 64.

Definition PRLFS_UID_NOBODY : Z := 65534.
Definition PRLFS_GID_NOGROUP : Z := 65534.

Definition KERNEL_VERSION (a b c : Z) : Z := Z.shiftl a 16 + Z.shiftl b 8 + c.

(** Wrap-around of the C integer types. *)
Definition u32 (x : Z) : Z := x mod 2 ^ 32.
Definition u64 (x : Z) : Z := x mod 2 ^ 64.
(** Conversion of an unsigned value to [int]. *)
Definition to_int (x : Z) : Z := (x + 2 ^ 31) mod 2 ^ 32 - 2 ^ 31.

(** ** Build configuration *)

(** What the kernel the module is built for fixes. *)
Record kconfig := {
  kc_version : Z;        (* LINUX_VERSION_CODE of <linux/version.h> *)
  HZ : Z;
  PAGE_SIZE : Z;
  CONFIG_64BIT : bool;
  uaccess_kernel : bool  (* uaccess_kernel(), segment_eq(get_fs(), KERNEL_DS) *)
}.

Definition BITS_PER_LONG (cfg : kconfig) : Z :=
  if CONFIG_64BIT cfg then 64 else 32.

(** Modelled from the spec: [prlfs.h] is not among the sources.  Its
    constants are taken as parameters; the spec only says that every
    attribute field has a validity bit of its own and that a flag on the
    path entry marks it as unlinked. *)
Record prlfs_h := {
  _PATTR_SIZE : Z;
  _PATTR_ATIME : Z;
  _PATTR_MTIME : Z;
  _PATTR_CTIME : Z;
  _PATTR_MODE : Z;
  _PATTR_UID : Z;
  _PATTR_GID : Z;
  _PATTR2_INO : Z;
  PRL_DFL_UNLINKED : Z;
  PATTR_STRUCT_SIZE : Z;
  TG_REQ_COMMON : Z;
  SB_NAME_SIZE : Z;      (* sizeof(sbi->name) *)
  LOCALE_NAME_LEN : Z
}.

(** ** Data *)

Abbreviation dptr := positive (only parsing).  (* struct dentry * *)
Abbreviation iptr := positive (only parsing).  (* struct inode * *)

(** [inode->i_op]. *)
Inductive inode_operations :=
| empty_iops | prlfs_file_iops | prlfs_dir_iops | prlfs_symlink_iops
| bad_inode_ops.

Record inode := {
  i_mode : Z;
  i_size : Z;
  i_blocks : Z;
  i_atime : Z;
  i_mtime : Z;
  i_ctime : Z;
  i_uid : Z;
  i_gid : Z;
  i_ino : Z;
  i_op : inode_operations;
  i_pfd : Z              (* 0: a zeroed prlfs_fd, otherwise ERR_PTR *)
}.

Record dentry := {
  d_name : string;
  d_parent : dptr;
  d_inode : option iptr;
  d_time : Z;
  d_fsdata : Z
}.

Record prlfs_sb_info := {
  sbi_name : string;
  sbi_ttl : Z;
  sbi_uid : Z;
  sbi_gid : Z;
  sbi_share : Z;
  sbi_plain : Z;
  sbi_host_inodes : Z;
  sbi_nls : string
}.

(** struct prlfs_attr, the attribute structure of the wire. *)
Record prlfs_attr := {
  pa_size : Z;
  pa_atime : Z;
  pa_mtime : Z;
  pa_ctime : Z;
  pa_mode : Z;
  pa_uid : Z;
  pa_gid : Z;
  pa_valid : Z;
  pa_ino : Z
}.

(** struct iattr; of the times only [tv_sec] is read. *)
Record iattr := {
  ia_valid : Z;
  ia_mode : Z;
  ia_uid : Z;
  ia_gid : Z;
  ia_size : Z;
  ia_atime : Z;
  ia_mtime : Z;
  ia_ctime : Z
}.

Record kstat := {
  st_ino : Z;
  st_mode : Z;
  st_uid : Z;
  st_gid : Z;
  st_size : Z;
  st_atime : Z;
  st_mtime : Z;
  st_ctime : Z;
  st_blocks : Z
}.

(** current->cred *)
Record cred := {
  cr_uid : Z;
  cr_gid : Z;
  cr_fsuid : Z;
  cr_fsgid : Z
}.

Record buffer_descriptor := {
  bd_len : Z;
  bd_write : Z;
  bd_user : Z;
  bd_flags : Z
}.

(** ** The host channel *)

(** One constructor per [host_request_*] entry point used by inode.c; the
    arguments are what the call passes. *)
Inductive host_req :=
| req_open (path : string) (plen : Z) (mode flags : Z)
| req_remove (path : string) (plen : Z)
| req_attr (path : string) (plen : Z) (bd : buffer_descriptor)
           (buf : prlfs_attr)
| req_rename (path : string) (plen : Z) (npath : string) (nplen : Z)
| req_symlink (path : string) (plen : Z) (symname : string) (slen : Z).

Record host_reply := {
  hr_ret : Z;            (* the int the call returns *)
  hr_attr : prlfs_attr   (* what the host stores through a writable buffer *)
}.

(** What lies outside the module: the host, the allocator and the kernel
    helpers that inode.c calls.  The host answers a request knowing how many
    requests came before; an allocation succeeds or not by its rank. *)
Record environment := {
  host : nat -> host_req -> host_reply;
  kmalloc_ok : nat -> bool;
  kmalloc_attr : nat -> prlfs_attr;  (* what a fresh prlfs_attr holds *)
  inode_newsize_ok : inode -> Z -> Z;
  truncate_setsize : inode -> Z -> inode;
  setattr_copy : inode -> iattr -> inode;
  inode_setattr : inode -> iattr -> Z * inode
}.

Record world := {
  dcache : gmap positive dentry;
  icache : gmap positive inode;
  sbi : prlfs_sb_info;
  jiffies : Z;
  current_time : Z;
  current_cred : cred;
  last_ino : Z;
  allocs : nat;              (* allocations attempted so far *)
  host_log : list host_req   (* requests sent so far, latest first *)
}.

Definition set_dcache (f : gmap positive dentry -> gmap positive dentry)
    (w : world) : world :=
  {| dcache := f (dcache w); icache := icache w; sbi := sbi w;
     jiffies := jiffies w; current_time := current_time w;
     current_cred := current_cred w; last_ino := last_ino w;
     allocs := allocs w; host_log := host_log w |}.

Definition set_icache (f : gmap positive inode -> gmap positive inode)
    (w : world) : world :=
  {| dcache := dcache w; icache := f (icache w); sbi := sbi w;
     jiffies := jiffies w; current_time := current_time w;
     current_cred := current_cred w; last_ino := last_ino w;
     allocs := allocs w; host_log := host_log w |}.

Definition set_jiffies (j : Z) (w : world) : world :=
  {| dcache := dcache w; icache := icache w; sbi := sbi w;
     jiffies := j; current_time := current_time w;
     current_cred := current_cred w; last_ino := last_ino w;
     allocs := allocs w; host_log := host_log w |}.

Definition set_last_ino (n : Z) (w : world) : world :=
  {| dcache := dcache w; icache := icache w; sbi := sbi w;
     jiffies := jiffies w; current_time := current_time w;
     current_cred := current_cred w; last_ino := n;
     allocs := allocs w; host_log := host_log w |}.

Definition set_allocs (n : nat) (w : world) : world :=
  {| dcache := dcache w; icache := icache w; sbi := sbi w;
     jiffies := jiffies w; current_time := current_time w;
     current_cred := current_cred w; last_ino := last_ino w;
     allocs := n; host_log := host_log w |}.

Definition set_host_log (l : list host_req) (w : world) : world :=
  {| dcache := dcache w; icache := icache w; sbi := sbi w;
     jiffies := jiffies w; current_time := current_time w;
     current_cred := current_cred w; last_ino := last_ino w;
     allocs := allocs w; host_log := l |}.

(** ** Calls into the module *)

(** A call returns a value in a new state, or it stops at an access through
    an invalid pointer; [Oops] keeps the state reached at that access. *)
Inductive outcome (A : Type) :=
| Ret (a : A) (w : world)
| Oops (w : world).
Arguments Ret {A} a w.
Arguments Oops {A} w.

Definition kernel (A : Type) : Type := world -> outcome A.

Definition ret {A} (a : A) : kernel A := fun w => Ret a w.

Definition bind {A B} (m : kernel A) (k : A -> kernel B) : kernel B :=
  fun w => match m w with
           | Ret a w' => k a w'
           | Oops w' => Oops w'
           end.

Notation "x <- m ;; k" := (bind m (fun x => k))
  (at level 100, m at next level, right associativity).
Notation "m ;;; k" := (bind m (fun _ => k))
  (at level 100, right associativity).

Definition final_world {A} (o : outcome A) : world :=
  match o with Ret _ w => w | Oops w => w end.

Definition returned {A} (o : outcome A) : option A :=
  match o with Ret a _ => Some a | Oops _ => None end.

(** [m] keeps [P]: from a state with [P] it ends, by return or stop, in a
    state with [P]. *)
Definition preserves {A} (P : world -> Prop) (m : kernel A) : Prop :=
  forall w, P w -> P (final_world (m w)).

(** ** Path buffers *)

(** The path is built from the end of a zero-filled buffer of [buflen] bytes
    towards its start.  A [char *] into it is its offset from [buf]; the bytes
    from that offset up to the terminating NUL are kept as a string.  A
    pointer made by [ERR_PTR] is an address outside every buffer. *)
Inductive cptr :=
| buf_at (off : Z)
| ERR_PTR (e : Z).

Definition IS_ERR (p : cptr) : bool :=
  match p with ERR_PTR _ => true | buf_at _ => false end.

(** A computation on a buffer ends normally or at a store outside it. *)
Inductive access (A : Type) :=
| Done (a : A)
| Fault.
Arguments Done {A} a.
Arguments Fault {A}.

Definition strlen (s : string) : Z := Z.of_nat (String.length s).

(** [memcpy(dst, src, n)] towards the front of the buffer. *)
Definition memcpy (dst : cptr) (text src : string) (n : Z) : access string :=
  if n =? 0 then Done text
  else match dst with
       | buf_at off =>
           if off <? 0 then Fault
           else Done (String.substring 0 (Z.to_nat n) src ++ text)
       | ERR_PTR _ => Fault
       end.

Definition ptr_sub (p : cptr) (n : Z) : cptr :=
  match p with
  | buf_at off => buf_at (off - n)
  | ERR_PTR e => ERR_PTR (e - n)
  end.

(** static int prepend(char **buffer, int *buflen, const char *str,
    int namelen): the result is the returned int, [*buffer], the text at
    [*buffer] and [*buflen]. *)
Definition prepend (buffer : cptr) (text : string) (buflen : Z)
    (str : string) (namelen : Z) : access (Z * cptr * string * Z) :=
  let buflen := buflen - namelen in
  if buflen <? 0 then Done (- ENAMETOOLONG, buffer, text, buflen)
  else
    let buffer := ptr_sub buffer namelen in
    match memcpy buffer text str namelen with
    | Done text => Done (0, buffer, text, buflen)
    | Fault => Fault
    end.

Definition IS_ROOT (x : dptr) (de : dentry) : bool := Pos.eqb x (d_parent de).

(** The ancestry loop of [prlfs_get_path] for kernels before 2.6.38:
    [while (!IS_ROOT(dentry)) { ... }].  Every turn takes at least one byte
    of [len], so [len] turns are enough; [None] is a loop cut short. *)
Fixpoint walk_up (fuel : nat) (dc : gmap positive dentry) (dentry : dptr)
    (p len : Z) (text : string) : option (access (cptr * Z * string)) :=
  match dc !! dentry with
  | None => Some Fault
  | Some de =>
      if IS_ROOT dentry de then Some (Done (buf_at p, len, text))
      else
        let nlen := strlen (d_name de) in
        if len <? nlen + 1
        then Some (Done (ERR_PTR (- ENAMETOOLONG), len, text))
        else
          match fuel with
          | O => None
          | S fuel =>
              walk_up fuel dc (d_parent de) (p - nlen - 1) (len - (nlen + 1))
                ("/" ++ d_name de ++ text)
          end
  end.

Definition starts_with_slash (text : string) : bool :=
  match text with
  | String c _ => Ascii.eqb c "/"%char
  | EmptyString => false
  end.

(** [dentry_path_raw] of the kernel (fs/d_path.c), which is not part of the
    module: the path of the dentry below its root, stored at the end of the
    buffer, or [ERR_PTR(-ENAMETOOLONG)] when it does not fit. *)
Definition dentry_path_raw (dc : gmap positive dentry) (dentry : dptr)
    (buflen : Z) : access (cptr * string) :=
  if buflen <? 1 then Done (ERR_PTR (- ENAMETOOLONG), "")
  else
    match walk_up (Z.to_nat buflen) dc dentry (buflen - 1) (buflen - 1) "" with
    | None | Some Fault => Fault
    | Some (Done (ERR_PTR e, _, _)) => Done (ERR_PTR e, "")
    | Some (Done (buf_at p, len, text)) =>
        if starts_with_slash text then Done (buf_at p, text)
        else if len <? 1 then Done (ERR_PTR (- ENAMETOOLONG), "")
        else Done (buf_at (p - 1), "/" ++ text)
    end.

Section Prlfs.

Variable cfg : kconfig.
Variable hdr : prlfs_h.
Variable env : environment.

(** [LINUX_VERSION_CODE] as inode.c tests it: the block at the top of the
    file renumbers Fedora 15's 2.6.4x kernels; the minor it names there is
    not defined and counts as 0. *)
Definition LINUX_VERSION_CODE : Z :=
  if (KERNEL_VERSION 2 6 40 <=? kc_version cfg)
     && (kc_version cfg <? KERNEL_VERSION 3 0 0)
  then KERNEL_VERSION 3 0 0
  else kc_version cfg.

Definition strnlen (s : string) (n : Z) : Z := Z.min (strlen s) n.

(** The end of [prlfs_get_path], after the version-dependent part: the
    share name and a '/' are put in front of what [p] points to. *)
Definition prlfs_get_path_end (sb : prlfs_sb_info) (p : cptr) (text : string)
    (len plen : Z) : access (cptr * string * Z) :=
  match prepend p text len (sbi_name sb) (strlen (sbi_name sb)) with
  | Fault => Fault
  | Done (r, p, text, len) =>
      match (if r =? 0 then prepend p text len "/" 1
             else Done (r, p, text, len)) with
      | Fault => Fault
      | Done (r, p, text, len) =>
          if r =? 0
          then Done (p, text, strnlen text (PAGE_SIZE cfg - 1) + 1)
          else Done (ERR_PTR r, text, plen)
      end
  end.

(** void *prlfs_get_path(struct dentry *dentry, void *buf, int *plen): the
    returned pointer, the text it points to and [*plen]; [sb] is
    [PRLFS_SB(dentry->d_sb)] and [dc] holds the dentries. *)
Definition prlfs_get_path (sb : prlfs_sb_info) (dc : gmap positive dentry)
    (dentry : dptr) (plen : Z) : access (cptr * string * Z) :=
  let len := plen in
  if LINUX_VERSION_CODE <? KERNEL_VERSION 2 6 38 then
    match dc !! dentry with
    | None => Fault
    | Some de =>
        if (NAME_MAX <? strlen (d_name de)) || (len <? 2)
        then Done (ERR_PTR (- ENAMETOOLONG), "", plen)
        else
          let len := len - 1 in
          match walk_up (Z.to_nat len) dc dentry len len "" with
          | None | Some Fault => Fault
          | Some (Done (ERR_PTR e, len, text)) =>
              prlfs_get_path_end sb (ERR_PTR e) text len plen
          | Some (Done (buf_at p, len, text)) =>
              if starts_with_slash text
              then prlfs_get_path_end sb (buf_at p) text len (plen - len)
              else prlfs_get_path_end sb (buf_at (p - 1)) ("/" ++ text)
                     (len - 1) (plen - (len - 1))
          end
    end
  else
    match dentry_path_raw dc dentry len with
    | Fault => Fault
    | Done (p, text) => prlfs_get_path_end sb p text len plen
    end.

(** *** Field updates and primitives *)

Definition with_d_time (t : Z) (de : dentry) : dentry :=
  {| d_name := d_name de; d_parent := d_parent de; d_inode := d_inode de;
     d_time := t; d_fsdata := d_fsdata de |}.

Definition with_d_fsdata (f : Z) (de : dentry) : dentry :=
  {| d_name := d_name de; d_parent := d_parent de; d_inode := d_inode de;
     d_time := d_time de; d_fsdata := f |}.

Definition with_d_inode (i : option iptr) (de : dentry) : dentry :=
  {| d_name := d_name de; d_parent := d_parent de; d_inode := i;
     d_time := d_time de; d_fsdata := d_fsdata de |}.

(** kmalloc and new_inode: NULL or memory. *)
Definition kmalloc : kernel bool :=
  fun w => Ret (kmalloc_ok env (allocs w)) (set_allocs (S (allocs w)) w).

(** One round trip to the host. *)
Definition host_request (r : host_req) : kernel host_reply :=
  fun w => Ret (host env (List.length (host_log w)) r)
               (set_host_log (r :: host_log w) w).

(** A read through a dentry pointer. *)
Definition read_dentry (d : dptr) : kernel dentry :=
  fun w => match dcache w !! d with
           | Some de => Ret de w
           | None => Oops w
           end.

(** A store through a dentry pointer. *)
Definition modify_dentry (d : dptr) (f : dentry -> dentry) : kernel unit :=
  fun w => match dcache w !! d with
           | Some de => Ret tt (set_dcache (insert d (f de)) w)
           | None => Oops w
           end.

Definition read_inode (i : iptr) : kernel inode :=
  fun w => match icache w !! i with
           | Some ino => Ret ino w
           | None => Oops w
           end.

(** A store through an inode pointer. *)
Definition modify_inode (i : iptr) (f : inode -> inode) : kernel unit :=
  fun w => match icache w !! i with
           | Some ino => Ret tt (set_icache (insert i (f ino)) w)
           | None => Oops w
           end.

(** A null pointer is followed. *)
Definition oops {A} : kernel A := fun w => Oops w.

Definition get_world : kernel world := fun w => Ret w w.

Definition test (x mask : Z) : bool := negb (Z.land x mask =? 0).

(** *** inode.c *)

Definition prlfs_uid_valid (uid : Z) : bool := negb (uid =? PRLFS_UID_NOBODY).
Definition prlfs_gid_valid (gid : Z) : bool := negb (gid =? PRLFS_GID_NOGROUP).

(** unsigned long *prlfs_dfl(struct dentry *de): the word it points to is
    [d_fsdata]. *)
Definition prlfs_dfl (de : dentry) : Z := d_fsdata de.

Definition prl_uaccess_kernel : bool :=
  if KERNEL_VERSION 5 11 0 <=? LINUX_VERSION_CODE then false
  else uaccess_kernel cfg.

Definition init_buffer_descriptor (len write user : Z) : buffer_descriptor :=
  {| bd_len := len;
     bd_write := if write =? 0 then 0 else 1;
     bd_user := if user =? 0 then 0
                else if prl_uaccess_kernel then 0 else 1;
     bd_flags := TG_REQ_COMMON hdr |}.

(** [p = prlfs_get_path(d, buf, &buflen)] on a fresh buffer of PATH_MAX
    bytes. *)
Definition get_path (d : dptr) : kernel (cptr * string * Z) :=
  fun w => match prlfs_get_path (sbi w) (dcache w) d PATH_MAX with
           | Done r => Ret r w
           | Fault => Oops w
           end.

(** PRLFS_STD_INODE_HEAD(d) ... PRLFS_STD_INODE_TAIL around [body]; [out]
    is what the function returns when it leaves with [ret] before [body]. *)
Definition PRLFS_STD_INODE {A} (d : dptr) (out : Z -> kernel A)
    (body : string -> Z -> kernel A) : kernel A :=
  buf <- kmalloc ;;
  if negb buf then out (- ENOMEM)
  else
    r <- get_path d ;;
    match r with
    | (ERR_PTR e, _, _) => out e               (* IS_ERR(p): PTR_ERR(p) *)
    | (buf_at _, p, buflen) => body p buflen
    end.

Definition prlfs_inode_open (dentry : dptr) (mode : Z) : kernel Z :=
  PRLFS_STD_INODE dentry ret (fun p buflen =>
    r <- host_request (req_open p buflen mode (Z.lor O_CREAT O_RDWR)) ;;
    ret (hr_ret r)).

Definition prlfs_delete (dentry : dptr) : kernel Z :=
  PRLFS_STD_INODE dentry ret (fun p buflen =>
    r <- host_request (req_remove p buflen) ;;
    ret (hr_ret r)).

(** [attr] is the buffer as the caller allocated it; the result carries it
    as the host left it. *)
Definition do_prlfs_getattr (dentry : dptr) (attr : prlfs_attr)
    : kernel (Z * prlfs_attr) :=
  PRLFS_STD_INODE dentry (fun e => ret (e, attr)) (fun p buflen =>
    let bd := init_buffer_descriptor (PATTR_STRUCT_SIZE hdr) 1 0 in
    r <- host_request (req_attr p buflen bd attr) ;;
    ret (hr_ret r, hr_attr r)).

Definition prlfs_change_attributes (sb : prlfs_sb_info) (i : inode)
    (attr : prlfs_attr) : inode :=
  let valid := pa_valid attr in
  let sized := test valid (_PATTR_SIZE hdr) in
  let uid :=
    if test valid (_PATTR_UID hdr) then
      if u32 (pa_uid attr) =? u32 (-1) then PRLFS_UID_NOBODY
      else if negb (sbi_plain sb =? 0) then pa_uid attr
      else i_uid i
    else i_uid i in
  let gid :=
    if test valid (_PATTR_GID hdr) then
      if u32 (pa_gid attr) =? u32 (-1) then PRLFS_GID_NOGROUP
      else if negb (sbi_plain sb =? 0) then pa_gid attr
      else i_gid i
    else i_gid i in
  {| i_mode := if test valid (_PATTR_MODE hdr)
               then Z.lor (Z.land (i_mode i) S_IFMT) (Z.land (pa_mode attr) 4095)
               else i_mode i;
     i_size := if sized then pa_size attr else i_size i;
     i_blocks := if sized
                 then u64 (u64 (pa_size attr + PAGE_SIZE cfg - 1)
                           / PAGE_SIZE cfg * 8)
                 else i_blocks i;
     i_atime := if test valid (_PATTR_ATIME hdr) then pa_atime attr
                else i_atime i;
     i_mtime := if test valid (_PATTR_MTIME hdr) then pa_mtime attr
                else i_mtime i;
     i_ctime := if test valid (_PATTR_CTIME hdr) then pa_ctime attr
                else i_ctime i;
     i_uid := uid;
     i_gid := gid;
     i_ino := if negb (sbi_host_inodes sb =? 0)
                 && test valid (_PATTR2_INO hdr)
                 && negb (LINUX_VERSION_CODE <? KERNEL_VERSION 2 6 37)
              then pa_ino attr else i_ino i;
     i_op := i_op i;
     i_pfd := i_pfd i |}.

(** memset(pattr, 0, sizeof(struct prlfs_attr)) *)
Definition zero_attr : prlfs_attr :=
  {| pa_size := 0; pa_atime := 0; pa_mtime := 0; pa_ctime := 0; pa_mode := 0;
     pa_uid := 0; pa_gid := 0; pa_valid := 0; pa_ino := 0 |}.

Definition with_pa_valid (v : Z) (a : prlfs_attr) : prlfs_attr :=
  {| pa_size := pa_size a; pa_atime := pa_atime a; pa_mtime := pa_mtime a;
     pa_ctime := pa_ctime a; pa_mode := pa_mode a; pa_uid := pa_uid a;
     pa_gid := pa_gid a; pa_valid := v; pa_ino := pa_ino a |}.

Definition with_pa_size (x : Z) (a : prlfs_attr) : prlfs_attr :=
  {| pa_size := x; pa_atime := pa_atime a; pa_mtime := pa_mtime a;
     pa_ctime := pa_ctime a; pa_mode := pa_mode a; pa_uid := pa_uid a;
     pa_gid := pa_gid a; pa_valid := pa_valid a; pa_ino := pa_ino a |}.

Definition with_pa_times (at_ mt : Z) (a : prlfs_attr) : prlfs_attr :=
  {| pa_size := pa_size a; pa_atime := at_; pa_mtime := mt;
     pa_ctime := pa_ctime a; pa_mode := pa_mode a; pa_uid := pa_uid a;
     pa_gid := pa_gid a; pa_valid := pa_valid a; pa_ino := pa_ino a |}.

Definition with_pa_ctime (x : Z) (a : prlfs_attr) : prlfs_attr :=
  {| pa_size := pa_size a; pa_atime := pa_atime a; pa_mtime := pa_mtime a;
     pa_ctime := x; pa_mode := pa_mode a; pa_uid := pa_uid a;
     pa_gid := pa_gid a; pa_valid := pa_valid a; pa_ino := pa_ino a |}.

Definition with_pa_mode (x : Z) (a : prlfs_attr) : prlfs_attr :=
  {| pa_size := pa_size a; pa_atime := pa_atime a; pa_mtime := pa_mtime a;
     pa_ctime := pa_ctime a; pa_mode := x; pa_uid := pa_uid a;
     pa_gid := pa_gid a; pa_valid := pa_valid a; pa_ino := pa_ino a |}.

Definition with_pa_uid (x : Z) (a : prlfs_attr) : prlfs_attr :=
  {| pa_size := pa_size a; pa_atime := pa_atime a; pa_mtime := pa_mtime a;
     pa_ctime := pa_ctime a; pa_mode := pa_mode a; pa_uid := x;
     pa_gid := pa_gid a; pa_valid := pa_valid a; pa_ino := pa_ino a |}.

Definition with_pa_gid (x : Z) (a : prlfs_attr) : prlfs_attr :=
  {| pa_size := pa_size a; pa_atime := pa_atime a; pa_mtime := pa_mtime a;
     pa_ctime := pa_ctime a; pa_mode := pa_mode a; pa_uid := pa_uid a;
     pa_gid := x; pa_valid := pa_valid a; pa_ino := pa_ino a |}.

(** static int attr_to_pattr(struct iattr *attr, struct prlfs_attr *pattr):
    the returned int and [*pattr]. *)
Definition attr_to_pattr (attr : iattr) : Z * prlfs_attr :=
  let pattr := zero_attr in
  let pattr :=
    if test (ia_valid attr) ATTR_SIZE
    then with_pa_valid (Z.lor (pa_valid pattr) (_PATTR_SIZE hdr))
           (with_pa_size (ia_size attr) pattr)
    else pattr in
  let pattr :=
    if Z.land (ia_valid attr) (Z.lor ATTR_ATIME ATTR_MTIME)
       =? Z.lor ATTR_ATIME ATTR_MTIME
    then with_pa_valid
           (Z.lor (pa_valid pattr)
                  (Z.lor (_PATTR_ATIME hdr) (_PATTR_MTIME hdr)))
           (with_pa_times (ia_atime attr) (ia_mtime attr) pattr)
    else pattr in
  let pattr :=
    if test (ia_valid attr) ATTR_CTIME
    then with_pa_valid (Z.lor (pa_valid pattr) (_PATTR_CTIME hdr))
           (with_pa_ctime (ia_ctime attr) pattr)
    else pattr in
  let pattr :=
    if test (ia_valid attr) ATTR_MODE
    then with_pa_valid (Z.lor (pa_valid pattr) (_PATTR_MODE hdr))
           (with_pa_mode (Z.land (ia_mode attr) 4095) pattr)
    else pattr in
  let pattr :=
    if test (ia_valid attr) ATTR_UID
    then with_pa_valid (_PATTR_UID hdr) (with_pa_uid (ia_uid attr) pattr)
    else pattr in
  let pattr :=
    if test (ia_valid attr) ATTR_GID
    then with_pa_valid (_PATTR_GID hdr) (with_pa_gid (ia_gid attr) pattr)
    else pattr in
  (0, pattr).

Definition umode_t (m : Z) : Z := m mod 2 ^ 16.

(** static struct inode *prlfs_get_inode(struct super_block *sb,
    prl_umode_t mode): NULL or the new inode. *)
Definition prlfs_get_inode (mode : Z) : kernel (option iptr) :=
  inode <- kmalloc ;;                         (* new_inode(sb) *)
  if negb inode then ret None
  else
    pfd <- kmalloc ;;
    fun w =>
      let sb := sbi w in
      let share := negb (sbi_share sb =? 0) in
      let ino := u32 (last_ino w + 1) in      (* new_inode, get_next_ino() *)
      let fmt := Z.land mode S_IFMT in
      let i :=
        {| i_mode := umode_t mode;
           i_size := 0;
           i_blocks := 0;
           i_atime := current_time w;
           i_mtime := current_time w;
           i_ctime := current_time w;
           i_uid := if share then cr_uid (current_cred w) else sbi_uid sb;
           i_gid := if share then cr_gid (current_cred w) else sbi_gid sb;
           i_ino := ino;
           i_op := if fmt =? S_IFDIR then prlfs_dir_iops
                   else if (fmt =? 0) || (fmt =? S_IFREG) then prlfs_file_iops
                   else if fmt =? S_IFLNK then prlfs_symlink_iops
                   else empty_iops;
           i_pfd := if pfd then 0 else - ENOMEM |} in
      let p := fresh (dom (icache w)) in
      Ret (Some p) (set_icache (insert p i) (set_last_ino ino w)).

Definition prlfs_mknod (dentry : dptr) (mode : Z) : kernel Z :=
  modify_dentry dentry (with_d_time 0) ;;;
  inode <- prlfs_get_inode mode ;;
  match inode with
  | Some i =>
      modify_dentry dentry (with_d_inode (Some i)) ;;;  (* d_instantiate *)
      ret 0
  | None => ret (- ENOSPC)
  end.

Definition prlfs_create (dentry : dptr) (mode : Z) : kernel Z :=
  r <- prlfs_inode_open dentry (Z.lor mode S_IFREG) ;;
  if r =? 0 then prlfs_mknod dentry (Z.lor mode S_IFREG) else ret r.

(** kmalloc(sizeof(struct prlfs_attr), GFP_KERNEL) *)
Definition kmalloc_prlfs_attr : kernel (option prlfs_attr) :=
  fun w => Ret (if kmalloc_ok env (allocs w)
                then Some (kmalloc_attr env (allocs w)) else None)
               (set_allocs (S (allocs w)) w).

(** The result is the int behind the returned ERR_PTR. *)
Definition prlfs_lookup (dentry : dptr) : kernel Z :=
  attr <- kmalloc_prlfs_attr ;;
  match attr with
  | None => ret (- ENOMEM)
  | Some attr =>
      ra <- do_prlfs_getattr dentry attr ;;
      let '(r, attr) := ra in
      if (r <? 0) && negb (r =? - ENOENT) then ret r
      else
        ri <- (if r <? 0 then ret (0, None)
               else
                 inode <- prlfs_get_inode (pa_mode attr) ;;
                 match inode with
                 | Some i =>
                     w <- get_world ;;
                     modify_inode i (fun ino =>
                       prlfs_change_attributes (sbi w) ino attr) ;;;
                     ret (r, inode)
                 | None => ret (r, None)
                 end) ;;
        let '(r, inode) := ri in
        w <- get_world ;;
        modify_dentry dentry (with_d_time (jiffies w)) ;;;
        modify_dentry dentry (with_d_inode inode) ;;;     (* d_add *)
        ret r
  end.

Definition prlfs_unlink (dentry : dptr) : kernel Z :=
  r <- prlfs_delete dentry ;;
  if r =? 0
  then modify_dentry dentry (fun de =>
         with_d_fsdata (Z.lor (prlfs_dfl de) (PRL_DFL_UNLINKED hdr)) de) ;;;
       ret r
  else ret r.

Definition prlfs_mkdir (dentry : dptr) (mode : Z) : kernel Z :=
  r <- prlfs_inode_open dentry (Z.lor mode S_IFDIR) ;;
  if r =? 0 then prlfs_mknod dentry (Z.lor mode S_IFDIR) else ret r.

Definition prlfs_rmdir (dentry : dptr) : kernel Z :=
  r <- prlfs_delete dentry ;;
  if r =? 0
  then modify_dentry dentry (fun de =>
         with_d_fsdata (Z.lor (prlfs_dfl de) (PRL_DFL_UNLINKED hdr)) de) ;;;
       ret r
  else ret r.

Definition __prlfs_rename (old_de new_de : dptr) : kernel Z :=
  PRLFS_STD_INODE old_de ret (fun p buflen =>
    nbuf <- kmalloc ;;
    if negb nbuf then ret (- ENOMEM)
    else
      r <- get_path new_de ;;
      match r with
      | (ERR_PTR e, _, _) => ret e
      | (buf_at _, np, nbuflen) =>
          h <- host_request (req_rename p buflen np nbuflen) ;;
          modify_dentry old_de (with_d_time 0) ;;;
          modify_dentry new_de (with_d_time 0) ;;;
          ret (hr_ret h)
      end).

(** Kernels before 4.9 pass no [flags]. *)
Definition prlfs_rename (old_de new_de : dptr) (flags : Z) : kernel Z :=
  if (KERNEL_VERSION 4 9 0 <=? LINUX_VERSION_CODE) && negb (flags =? 0)
  then ret (- EINVAL)
  else __prlfs_rename old_de new_de.

Definition check_dentry (de : dentry) : Z :=
  to_int (Z.land (prlfs_dfl de) (PRL_DFL_UNLINKED hdr)).

Definition prlfs_inode_setattr (inode : option iptr) (attr : iattr)
    : kernel Z :=
  match inode with
  | None => oops
  | Some i =>
      ino <- read_inode i ;;
      if LINUX_VERSION_CODE <? KERNEL_VERSION 2 6 36 then
        modify_inode i (fun ino => snd (inode_setattr env ino attr)) ;;;
        ret (fst (inode_setattr env ino attr))
      else if test (ia_valid attr) ATTR_SIZE
              && negb (ia_size attr =? i_size ino) then
        let r := inode_newsize_ok env ino (ia_size attr) in
        if negb (r =? 0) then ret r
        else
          modify_inode i (fun ino =>
            setattr_copy env (truncate_setsize env ino (ia_size attr)) attr) ;;;
          ret 0
      else
        modify_inode i (fun ino => setattr_copy env ino attr) ;;;
        ret 0
  end.

Definition prlfs_setattr (dentry : dptr) (attr : iattr) : kernel Z :=
  PRLFS_STD_INODE dentry ret (fun p buflen =>
    pattr <- kmalloc ;;
    if negb pattr then ret (- ENOMEM)
    else
      let '(r, pattr) := attr_to_pattr attr in
      if r <? 0 then ret r
      else
        de <- read_dentry dentry ;;
        if negb (check_dentry de =? 0) then ret (- ESTALE)
        else
          let bd := init_buffer_descriptor (PATTR_STRUCT_SIZE hdr) 0 0 in
          h <- host_request (req_attr p buflen bd pattr) ;;
          r <- (if hr_ret h =? 0 then prlfs_inode_setattr (d_inode de) attr
                else ret (hr_ret h)) ;;
          modify_dentry dentry (with_d_time 0) ;;;
          ret r).

Definition ulong (x : Z) : Z := x mod 2 ^ BITS_PER_LONG cfg.

(** [make_bad_inode] of the kernel (fs/bad_inode.c). *)
Definition make_bad_inode (now : Z) (i : inode) : inode :=
  {| i_mode := S_IFREG; i_size := i_size i; i_blocks := i_blocks i;
     i_atime := now; i_mtime := now; i_ctime := now;
     i_uid := i_uid i; i_gid := i_gid i; i_ino := i_ino i;
     i_op := bad_inode_ops; i_pfd := i_pfd i |}.

(** The test at the head of [prlfs_i_revalidate] that answers from the
    cache. *)
Definition within_ttl (w : world) (de : dentry) : bool :=
  negb (d_time de =? 0)
  && (ulong (jiffies w - d_time de) <? sbi_ttl (sbi w)).

Definition prlfs_i_revalidate (dentry : option dptr) : kernel Z :=
  match dentry with
  | None => ret (- ENOENT)
  | Some d =>
      de <- read_dentry d ;;
      match d_inode de with
      | None => ret (- ENOENT)
      | Some inode =>
          w <- get_world ;;
          if within_ttl w de then ret 0
          else
            attr <- kmalloc_prlfs_attr ;;
            match attr with
            | None => ret (- ENOMEM)
            | Some attr =>
                ra <- do_prlfs_getattr d attr ;;
                let '(r, attr) := ra in
                if r <? 0 then ret r
                else
                  ino <- read_inode inode ;;
                  w <- get_world ;;
                  r <- (if test (Z.lxor (i_mode ino) (pa_mode attr)) S_IFMT
                        then modify_inode inode
                               (make_bad_inode (current_time w)) ;;;
                             ret (- EIO)
                        else modify_inode inode (fun ino =>
                               prlfs_change_attributes (sbi w) ino attr) ;;;
                             ret r) ;;
                  modify_dentry d (with_d_time (jiffies w)) ;;;
                  ret r
            end
      end
  end.

Definition prlfs_d_revalidate (dentry : option dptr) : kernel Z :=
  r <- prlfs_i_revalidate dentry ;;
  ret (if r =? 0 then 1 else 0).

(** [generic_fillattr] of the kernel. *)
Definition generic_fillattr (i : inode) : kstat :=
  {| st_ino := i_ino i; st_mode := i_mode i; st_uid := i_uid i;
     st_gid := i_gid i; st_size := i_size i; st_atime := i_atime i;
     st_mtime := i_mtime i; st_ctime := i_ctime i; st_blocks := i_blocks i |}.

Definition with_st_uid (u : Z) (st : kstat) : kstat :=
  {| st_ino := st_ino st; st_mode := st_mode st; st_uid := u;
     st_gid := st_gid st; st_size := st_size st; st_atime := st_atime st;
     st_mtime := st_mtime st; st_ctime := st_ctime st;
     st_blocks := st_blocks st |}.

Definition with_st_gid (g : Z) (st : kstat) : kstat :=
  {| st_ino := st_ino st; st_mode := st_mode st; st_uid := st_uid st;
     st_gid := g; st_size := st_size st; st_atime := st_atime st;
     st_mtime := st_mtime st; st_ctime := st_ctime st;
     st_blocks := st_blocks st |}.

(** What [__prlfs_getattr] stores in [*stat] from a cached inode. *)
Definition fill_stat (w : world) (i : inode) : kstat :=
  let stat := generic_fillattr i in
  if negb (sbi_share (sbi w) =? 0) then
    let stat := if prlfs_uid_valid (st_uid stat)
                then with_st_uid (cr_fsuid (current_cred w)) stat else stat in
    if prlfs_gid_valid (st_gid stat)
    then with_st_gid (cr_fsgid (current_cred w)) stat else stat
  else stat.

(** inline int __prlfs_getattr(struct dentry *dentry, struct kstat *stat):
    the returned int and [*stat]. *)
Definition __prlfs_getattr (dentry : dptr) (stat : kstat)
    : kernel (Z * kstat) :=
  de <- read_dentry dentry ;;
  if negb (check_dentry de =? 0) then ret (- ESTALE, stat)
  else
    r <- prlfs_i_revalidate (Some dentry) ;;
    if r <? 0 then ret (r, stat)
    else
      match d_inode de with
      | None => oops
      | Some inode =>
          ino <- read_inode inode ;;
          w <- get_world ;;
          ret (r, fill_stat w ino)
      end.

Definition prlfs_getattr (dentry : dptr) (stat : kstat) : kernel (Z * kstat) :=
  __prlfs_getattr dentry stat.

Definition prlfs_symlink (dentry : dptr) (symname : string) : kernel Z :=
  PRLFS_STD_INODE dentry ret (fun p buflen =>
    r <- host_request (req_symlink p buflen symname (strlen symname + 1)) ;;
    if hr_ret r =? 0 then prlfs_mknod dentry S_IFLNK else ret (hr_ret r)).

(** *** The operations the dispatch layer calls *)

Inductive op :=
| op_lookup (dentry : dptr)
| op_create (dentry : dptr) (mode : Z)
| op_mkdir (dentry : dptr) (mode : Z)
| op_symlink (dentry : dptr) (symname : string)
| op_unlink (dentry : dptr)
| op_rmdir (dentry : dptr)
| op_rename (old_de new_de : dptr) (flags : Z)
| op_setattr (dentry : dptr) (attr : iattr)
| op_getattr (dentry : dptr) (stat : kstat)
| op_d_revalidate (dentry : option dptr)
| op_tick (n : Z).               (* the clock advances by n jiffies *)

Definition run_op (o : op) : kernel Z :=
  match o with
  | op_lookup d => prlfs_lookup d
  | op_create d mode => prlfs_create d mode
  | op_mkdir d mode => prlfs_mkdir d mode
  | op_symlink d symname => prlfs_symlink d symname
  | op_unlink d => prlfs_unlink d
  | op_rmdir d => prlfs_rmdir d
  | op_rename o n flags => prlfs_rename o n flags
  | op_setattr d attr => prlfs_setattr d attr
  | op_getattr d stat => r <- prlfs_getattr d stat ;; ret (fst r)
  | op_d_revalidate d => prlfs_d_revalidate d
  | op_tick n => fun w => Ret 0 (set_jiffies (ulong (jiffies w + n)) w)
  end.

(** Operations one after the other, up to the first that stops. *)
Fixpoint run_ops (l : list op) : kernel unit :=
  match l with
  | [] => ret tt
  | o :: l => run_op o ;;; run_ops l
  end.

(** *** super.c: mount options *)

Definition isdigit (c : ascii) : bool :=
  (48 <=? Z.of_N (N_of_ascii c)) && (Z.of_N (N_of_ascii c) <=? 57).

(** The loop of [prlfs_strtoui] from [cp] with the value read so far. *)
Fixpoint strtoui_digits (cp : string) (ui : Z) : Z * Z :=
  match cp with
  | EmptyString => (0, ui)
  | String c cp =>
      if isdigit c then
        let digit := Z.of_N (N_of_ascii c) - 48 in
        if u32 (ui * 10 + digit) <? ui then (- EINVAL, ui)
        else strtoui_digits cp (u32 (ui * 10 + digit))
      else (- EINVAL, ui)
  end.

(** static int prlfs_strtoui(char *cp, unsigned *result): the returned int
    and [*result]. *)
Definition prlfs_strtoui (cp : option string) (result : Z) : Z * Z :=
  match cp with
  | None | Some EmptyString => (- EINVAL, result)
  | Some cp =>
      let '(r, ui) := strtoui_digits cp 0 in
      if r =? 0 then (0, ui) else (r, result)
  end.

(** The strings that successive [strsep(&options, ",")] return. *)
Fixpoint strsep_commas (options : string) : list string :=
  match options with
  | EmptyString => [EmptyString]
  | String c rest =>
      if Ascii.eqb c ","%char then EmptyString :: strsep_commas rest
      else match strsep_commas rest with
           | t :: ts => String c t :: ts
           | [] => [String c EmptyString]
           end
  end.

(** [val = strchr(opt, '='); if (val) *(val++) = 0;]: the option name and
    what follows the first '='. *)
Fixpoint strchr_eq (opt : string) : string * option string :=
  match opt with
  | EmptyString => (EmptyString, None)
  | String c rest =>
      if Ascii.eqb c "="%char then (EmptyString, Some rest)
      else let '(o, v) := strchr_eq rest in (String c o, v)
  end.

(** strncpy into a zeroed array. *)
Definition strncpy (src : string) (n : Z) : string :=
  String.substring 0 (Z.to_nat n) src.

Definition with_sbi_ttl (t : Z) (s : prlfs_sb_info) : prlfs_sb_info :=
  {| sbi_name := sbi_name s; sbi_ttl := t; sbi_uid := sbi_uid s;
     sbi_gid := sbi_gid s; sbi_share := sbi_share s; sbi_plain := sbi_plain s;
     sbi_host_inodes := sbi_host_inodes s; sbi_nls := sbi_nls s |}.

Definition with_sbi_ids (u g : Z) (s : prlfs_sb_info) : prlfs_sb_info :=
  {| sbi_name := sbi_name s; sbi_ttl := sbi_ttl s; sbi_uid := u;
     sbi_gid := g; sbi_share := sbi_share s; sbi_plain := sbi_plain s;
     sbi_host_inodes := sbi_host_inodes s; sbi_nls := sbi_nls s |}.

Definition with_sbi_flags (share plain host_inodes : Z) (s : prlfs_sb_info)
    : prlfs_sb_info :=
  {| sbi_name := sbi_name s; sbi_ttl := sbi_ttl s; sbi_uid := sbi_uid s;
     sbi_gid := sbi_gid s; sbi_share := share; sbi_plain := plain;
     sbi_host_inodes := host_inodes; sbi_nls := sbi_nls s |}.

Definition with_sbi_strings (name nls : string) (s : prlfs_sb_info)
    : prlfs_sb_info :=
  {| sbi_name := name; sbi_ttl := sbi_ttl s; sbi_uid := sbi_uid s;
     sbi_gid := sbi_gid s; sbi_share := sbi_share s; sbi_plain := sbi_plain s;
     sbi_host_inodes := sbi_host_inodes s; sbi_nls := nls |}.

(** One turn of the loop of [prlfs_parse_mount_options] on a non-empty
    [opt]. *)
Definition parse_mount_option (opt : string) (s : prlfs_sb_info)
    : Z * prlfs_sb_info :=
  let '(opt, val) := strchr_eq opt in
  let val := match val with
             | Some EmptyString => None
             | v => v
             end in
  let has_val := match val with Some _ => true | None => false end in
  if String.eqb opt "ttl" && has_val then
    let '(r, ttl) := prlfs_strtoui val (sbi_ttl s) in (r, with_sbi_ttl ttl s)
  else if String.eqb opt "uid" && has_val then
    let '(r, uid_arg) := prlfs_strtoui val (u32 (-1)) in
    (r, with_sbi_ids uid_arg (sbi_gid s) s)
  else if String.eqb opt "gid" && has_val then
    let '(r, gid_arg) := prlfs_strtoui val (u32 (-1)) in
    (r, with_sbi_ids (sbi_uid s) gid_arg s)
  else if String.eqb opt "nls" && has_val then
    (0, with_sbi_strings (sbi_name s)
          (strncpy (default EmptyString val) (LOCALE_NAME_LEN hdr - 1)) s)
  else if String.eqb opt "share" then
    (0, with_sbi_flags 1 (sbi_plain s) (sbi_host_inodes s) s)
  else if String.eqb opt "plain" then
    (0, with_sbi_flags (sbi_share s) 1 (sbi_host_inodes s) s)
  else if String.eqb opt "host_inodes" then
    (0, with_sbi_flags (sbi_share s) (sbi_plain s) 1 s)
  else if String.eqb opt "sf" && has_val then
    (0, with_sbi_strings
          (strncpy (default EmptyString val) (SB_NAME_SIZE hdr)) (sbi_nls s) s)
  else (- EINVAL, s).

(** [while (!ret && (opt = strsep(&options, ",")) != NULL)] *)
Fixpoint parse_mount_loop (opts : list string) (r : Z) (s : prlfs_sb_info)
    : Z * prlfs_sb_info :=
  match opts with
  | [] => (r, s)
  | opt :: opts =>
      if negb (r =? 0) then (r, s)
      else if String.eqb opt EmptyString then parse_mount_loop opts r s
      else let '(r, s) := parse_mount_option opt s in
           parse_mount_loop opts r s
  end.

(** static int prlfs_parse_mount_options(char *options,
    struct prlfs_sb_info *sbi): the returned int and [*sbi]; [options] is
    [None] for a null pointer. *)
Definition prlfs_parse_mount_options (current : cred)
    (options : option string) (s : prlfs_sb_info) : Z * prlfs_sb_info :=
  let s := with_sbi_ttl (HZ cfg) (with_sbi_ids (cr_uid current)
                                     (cr_gid current) s) in
  match options with
  | None => (0, s)
  | Some options => parse_mount_loop (strsep_commas options) 0 s
  end.

(** *** Path as the specification words it *)

(** The names from the mount root down to [d], root excluded. *)
Fixpoint ancestor_names (fuel : nat) (dc : gmap positive dentry) (d : dptr)
    (below : list string) : option (list string) :=
  match fuel with
  | O => None
  | S fuel =>
      match dc !! d with
      | None => None
      | Some de =>
          if IS_ROOT d de then Some below
          else ancestor_names fuel dc (d_parent de) (d_name de :: below)
      end
  end.

(** Every name with a '/' before it. *)
Fixpoint slashed (names : list string) : string :=
  match names with
  | [] => EmptyString
  | n :: names => "/" ++ n ++ slashed names
  end.

Fixpoint join_slash (names : list string) : string :=
  match names with
  | [] => EmptyString
  | [n] => n
  | n :: names => n ++ "/" ++ join_slash names
  end.

(** "/" + shared_folder_name + "/" + the '/'-joined ancestor names. *)
Definition host_path (sb : prlfs_sb_info) (names : list string) : string :=
  "/" ++ sbi_name sb ++ "/" ++ join_slash names.

(** *** Assumptions on what lies outside *)

(** The kernel's attribute helpers leave [i_op] alone. *)
Definition kernel_keeps_i_op : Prop :=
  forall ino attr size,
    i_op (snd (inode_setattr env ino attr)) = i_op ino
    /\ i_op (setattr_copy env ino attr) = i_op ino
    /\ i_op (truncate_setsize env ino size) = i_op ino.

(** The validity bits of the two times are bits of no other field. *)
Definition time_bits_apart : Prop :=
  let times := Z.lor (_PATTR_ATIME hdr) (_PATTR_MTIME hdr) in
  Z.land (_PATTR_SIZE hdr) times = 0
  /\ Z.land (_PATTR_CTIME hdr) times = 0
  /\ Z.land (_PATTR_MODE hdr) times = 0
  /\ Z.land (_PATTR_UID hdr) times = 0
  /\ Z.land (_PATTR_GID hdr) times = 0.


(** *** States of a path entry *)

(** The entry behind [d] carries the unlinked mark. *)
Definition tombstoned (w : world) (d : dptr) : Prop :=
  exists de, dcache w !! d = Some de /\ check_dentry de <> 0.

(** The inode behind [i] has been made bad. *)
Definition is_bad_inode (w : world) (i : iptr) : Prop :=
  exists ino, icache w !! i = Some ino /\ i_op ino = bad_inode_ops.

End Prlfs.

(** * The rest of inode.c and super.c *)

Definition ECHILD : Z := 10.
Definition EACCES : Z := 13.

Definition MAY_EXEC : Z := 1.
Definition MAY_WRITE : Z := 2.
Definition MAY_READ : Z := 4.
Definition MAY_NOT_BLOCK : Z := 128.
Definition IPERM_FLAG_RCU : Z := 1.
Definition S_IXUGO : Z := 73.     (* 0111 *)
Definition CAP_DAC_OVERRIDE : Z := 1.
Definition CAP_DAC_READ_SEARCH : Z := 2.

Definition MS_RDONLY : Z := 1.
Definition MS_SYNCHRONOUS : Z := 16.
Definition MS_MANDLOCK : Z := 64.

Definition S_ISDIR (m : Z) : bool := Z.land m S_IFMT =? S_IFDIR.

Section PrlfsRest.

Variable cfg : kconfig.
Variable hdr : prlfs_h.
Variable env : environment.

(** [capable()] for the calling task, and the kernel's
    [generic_permission] on an inode, a mask and, where the kernel passes
    them, flags. *)
Variable capable : Z -> bool.
Variable generic_permission : inode -> Z -> Z -> Z.

(** static int __prlfs_permission(struct inode *inode, int mask) *)
Definition __prlfs_permission (i : inode) (mask : Z) : Z :=
  let mode := i_mode i in
  let isdir := S_ISDIR mode in
  let mode := if prlfs_uid_valid (i_uid i) then Z.shiftr mode 6
              else if prlfs_gid_valid (i_gid i) then Z.shiftr mode 3
              else mode in
  let mode := Z.land mode 7 in
  let mask := Z.land mask (Z.lor MAY_READ (Z.lor MAY_WRITE MAY_EXEC)) in
  if Z.land mask (Z.lnot mode) =? 0 then 0
  else if (negb (test mask MAY_EXEC) || (isdir || test mode S_IXUGO))
          && capable CAP_DAC_OVERRIDE then 0
  else if ((mask =? MAY_READ) || (isdir && negb (test mask MAY_WRITE)))
          && capable CAP_DAC_READ_SEARCH then 0
  else - EACCES.

(** The four versions of [prlfs_permission]; [flags] is the third argument
    that kernels from 2.6.38 up to 3.0 pass. *)
Definition prlfs_permission (sb : prlfs_sb_info) (i : inode)
    (mask flags : Z) : Z :=
  let v := LINUX_VERSION_CODE cfg in
  if (KERNEL_VERSION 3 1 0 <=? v) && test mask MAY_NOT_BLOCK then - ECHILD
  else if (KERNEL_VERSION 2 6 38 <=? v) && (v <? KERNEL_VERSION 3 1 0)
          && test flags IPERM_FLAG_RCU then - ECHILD
  else if sbi_share sb =? 0 then generic_permission i mask flags
  else __prlfs_permission i mask.

(** static int prlfs_remount(struct super_block *sb, int *flags,
    char *data): the returned int and [*flags]; [readonly] is
    [PRLFS_SB(sb)->readonly]. *)
Definition prlfs_remount (readonly flags : Z) : Z * Z :=
  (if (negb (test flags MS_RDONLY) && negb (readonly =? 0))
      || test flags MS_MANDLOCK
   then - EINVAL else 0,
   Z.lor flags MS_SYNCHRONOUS).

(** [strrchr(dev_name, '/') + 1], or [None] when there is no '/'. *)
Fixpoint after_last_slash (s : string) : option string :=
  match s with
  | EmptyString => None
  | String c rest =>
      match after_last_slash rest with
      | Some t => Some t
      | None => if Ascii.eqb c "/"%char then Some rest else None
      end
  end.

(** static void *extend_mount_data(void *data, const char *dev_name):
    NULL, or the new option string. *)
Definition extend_mount_data (data : option string) (dev_name : string)
    : kernel (option string) :=
  let dev_name := default dev_name (after_last_slash dev_name) in
  ext_data <- kmalloc env ;;
  if negb ext_data then ret None
  else ret (Some ("sf=" ++ dev_name ++
                  match data with
                  | Some data => "," ++ data
                  | None => EmptyString
                  end)).

(** memset(prlfs_sb, 0, sizeof(struct prlfs_sb_info)) in
    [prlfs_fill_super]. *)
Definition zero_sbi : prlfs_sb_info :=
  {| sbi_name := EmptyString; sbi_ttl := 0; sbi_uid := 0; sbi_gid := 0;
     sbi_share := 0; sbi_plain := 0; sbi_host_inodes := 0;
     sbi_nls := EmptyString |}.

(** What [%u] of the kernel's [seq_printf] writes for [n]: its decimal
    digits, most significant first, before [acc]; ten digits hold an
    unsigned int. *)
Fixpoint print_digits (fuel : nat) (n : Z) (acc : string) : string :=
  match fuel with
  | O => acc
  | S fuel =>
      let acc := String (ascii_of_N (Z.to_N (48 + n mod 10))) acc in
      if n / 10 =? 0 then acc else print_digits fuel (n / 10) acc
  end.

Definition print_u (n : Z) : string := print_digits 10 n EmptyString.

(** int prlfs_show_options(struct seq_file *seq, ...): what it appends to
    [seq]; it returns 0. *)
Definition prlfs_show_options (sb : prlfs_sb_info) (seq : string) : string :=
  let seq := seq ++ ",ttl=" ++ print_u (sbi_ttl sb) in
  let seq := match sbi_nls sb with
             | EmptyString => seq
             | nls => seq ++ ",nls=" ++ nls
             end in
  if negb (sbi_share sb =? 0) then seq ++ ",share"
  else if negb (sbi_plain sb =? 0) then seq ++ ",plain"
  else
    let seq := seq ++ ",uid=" ++ print_u (sbi_uid sb) in
    seq ++ ",gid=" ++ print_u (sbi_gid sb).

(** *** Words for the statements *)

(** Every character is a decimal digit. *)
Fixpoint all_digits (s : string) : bool :=
  match s with
  | EmptyString => true
  | String c s => isdigit c && all_digits s
  end.

(** The number that the digits [s] write after the digits of [acc]. *)
Fixpoint decimal_value (s : string) (acc : Z) : Z :=
  match s with
  | EmptyString => acc
  | String c s => decimal_value s (acc * 10 + (Z.of_N (N_of_ascii c) - 48))
  end.

Fixpoint has_char (c : ascii) (s : string) : bool :=
  match s with
  | EmptyString => false
  | String x s => Ascii.eqb x c || has_char c s
  end.

(** [m] adds at most [n] requests to the log of requests and removes
    none. *)
Definition sends_at_most {A} (n : nat) (m : kernel A) : Prop :=
  forall w, exists l,
    host_log (final_world (m w)) = (l ++ host_log w)%list
    /\ (List.length l <= n)%nat.

(** Two dentry stores hold the same names under the same parents. *)
Definition same_names (dc dc' : gmap positive dentry) : Prop :=
  forall d,
    (fun de => (d_name de, d_parent de)) <$> dc !! d
    = (fun de => (d_name de, d_parent de)) <$> dc' !! d.

(** [w'] differs from [w] in nothing but the count of allocations and the
    log of requests. *)
Definition only_bookkeeping (w w' : world) : Prop :=
  dcache w' = dcache w /\ icache w' = icache w /\ sbi w' = sbi w
  /\ jiffies w' = jiffies w /\ current_time w' = current_time w
  /\ current_cred w' = current_cred w /\ last_ino w' = last_ino w.

(** The file-type bits of a mode. *)
Definition kind_of (mode : Z) : Z := Z.land mode S_IFMT.

(** [m] makes a node of mode [mode] behind the entry [d]: when it returns
    0 a new inode of that mode and of size 0, with the operations of its
    kind, is attached to the entry, whose stamp is reset; when it returns
    anything else no inode is created and no entry gets another inode. *)
Definition makes_node (m : kernel Z) (d : dptr) (mode : Z) : Prop :=
  forall w r w', m w = Ret r w' ->
    (r = 0 ->
     exists de i ino,
       dcache w !! d = Some de /\ icache w !! i = None
       /\ dcache w'
          = <[d := with_d_inode (Some i) (with_d_time 0 de)]> (dcache w)
       /\ icache w' = <[i := ino]> (icache w)
       /\ i_mode ino = umode_t mode /\ i_size ino = 0
       /\ (kind_of mode = S_IFDIR -> i_op ino = prlfs_dir_iops)
       /\ (kind_of mode = S_IFREG -> i_op ino = prlfs_file_iops)
       /\ (kind_of mode = S_IFLNK -> i_op ino = prlfs_symlink_iops))
    /\ (r <> 0 ->
        icache w' = icache w
        /\ forall x, d_inode <$> dcache w' !! x = d_inode <$> dcache w !! x).

(** What the VFS sees to before it calls [->setattr] (fs/open.c,
    fs/attr.c): a request that sets the mode carries the file-type bits of
    the inode it is for, [chmod] having filled [ia_mode] with
    [(mode & S_IALLUGO) | (inode->i_mode & ~S_IALLUGO)]. *)
Definition mode_fits (ino : inode) (attr : iattr) : bool :=
  negb (test (ia_valid attr) ATTR_MODE)
  || (kind_of (ia_mode attr) =? kind_of (i_mode ino)).

(** The request of [o], when [o] is a set-attributes on an entry with an
    inode, fits that inode as it is in [w]. *)
Definition vfs_request_fits (w : world) (o : op) : bool :=
  match o with
  | op_setattr d attr =>
      match dcache w !! d with
      | Some de =>
          match d_inode de with
          | Some i =>
              match icache w !! i with
              | Some ino => mode_fits ino attr
              | None => true
              end
          | None => true
          end
      | None => true
      end
  | _ => true
  end.

(** Every set-attributes of the run [l] from [w] fits the inode it
    finds. *)
Fixpoint vfs_requests_fit (l : list op) (w : world) : bool :=
  match l with
  | [] => true
  | o :: l =>
      vfs_request_fits w o
      && match run_op cfg hdr env o w with
         | Ret _ w' => vfs_requests_fit l w'
         | Oops _ => true
         end
  end.

(** The kernel's attribute helpers leave the file-type bits of [i_mode]
    alone when the request fits the inode: [setattr_copy] and
    [inode_setattr] store [ia_mode] whole when the request sets the mode and
    leave [i_mode] alone otherwise; [truncate_setsize] changes the size
    only. *)
Definition kernel_keeps_kind : Prop :=
  forall ino attr size,
    (mode_fits ino attr = true ->
     kind_of (i_mode (snd (inode_setattr env ino attr)))
     = kind_of (i_mode ino)
     /\ kind_of (i_mode (setattr_copy env ino attr)) = kind_of (i_mode ino))
    /\ kind_of (i_mode (truncate_setsize env ino size))
       = kind_of (i_mode ino).

End PrlfsRest.

(** ** Concrete kernels, header and worlds *)

Definition linux_5_15 : kconfig :=
  {| kc_version := KERNEL_VERSION 5 15 0; HZ := 250; PAGE_SIZE := 4096;
     CONFIG_64BIT := true; uaccess_kernel := false |}.

Definition linux_2_6_32 : kconfig :=
  {| kc_version := KERNEL_VERSION 2 6 32; HZ := 1000; PAGE_SIZE := 4096;
     CONFIG_64BIT := false; uaccess_kernel := true |}.

(** Modelled from the spec: one validity bit per attribute field, in the
    order in which the spec lists the fields, and the lowest bit of the
    path-entry word for the unlinked mark. *)
Definition prlfs_h_bits : prlfs_h :=
  {| _PATTR_SIZE := 1; _PATTR_ATIME := 2; _PATTR_MTIME := 4;
     _PATTR_CTIME := 8; _PATTR_MODE := 16; _PATTR_UID := 32;
     _PATTR_GID := 64; _PATTR2_INO := 128; PRL_DFL_UNLINKED := 1;
     PATTR_STRUCT_SIZE := 56; TG_REQ_COMMON := 0; SB_NAME_SIZE := 256;
     LOCALE_NAME_LEN := 40 |}.

Definition attr_of_mode (mode : Z) : prlfs_attr :=
  {| pa_size := 0; pa_atime := 0; pa_mtime := 0; pa_ctime := 0;
     pa_mode := mode; pa_uid := 0; pa_gid := 0; pa_valid := 16; pa_ino := 0 |}.

(** A host that accepts every request and reports a regular file. *)
Definition host_accepts : nat -> host_req -> host_reply :=
  fun _ _ => {| hr_ret := 0; hr_attr := attr_of_mode (Z.lor S_IFREG 420) |}.

Definition env_of (h : nat -> host_req -> host_reply) (mem : nat -> bool)
    : environment :=
  {| host := h; kmalloc_ok := mem;
     kmalloc_attr := fun _ => attr_of_mode 0;
     inode_newsize_ok := fun _ _ => 0;
     truncate_setsize := fun i _ => i;
     setattr_copy := fun i _ => i;
     inode_setattr := fun i _ => (0, i) |}.

Definition env_accepts : environment := env_of host_accepts (fun _ => true).
Definition env_no_memory : environment := env_of host_accepts (fun _ => false).

(** A host that knows no file, and a host that fails every request. *)
Definition host_enoent : nat -> host_req -> host_reply :=
  fun _ _ => {| hr_ret := - ENOENT; hr_attr := attr_of_mode 0 |}.

Definition host_refuses : nat -> host_req -> host_reply :=
  fun _ _ => {| hr_ret := - EIO; hr_attr := attr_of_mode 0 |}.

Definition env_enoent : environment := env_of host_enoent (fun _ => true).
Definition env_refuses : environment := env_of host_refuses (fun _ => true).

Definition dir_inode : inode :=
  {| i_mode := Z.lor S_IFDIR 493; i_size := 0; i_blocks := 0; i_atime := 0;
     i_mtime := 0; i_ctime := 0; i_uid := 0; i_gid := 0; i_ino := 7;
     i_op := prlfs_dir_iops; i_pfd := 0 |}.

Definition file_inode : inode :=
  {| i_mode := Z.lor S_IFREG 420; i_size := 10; i_blocks := 8; i_atime := 1;
     i_mtime := 2; i_ctime := 3; i_uid := 0; i_gid := 0; i_ino := 8;
     i_op := prlfs_file_iops; i_pfd := 0 |}.

Definition share_sbi (ttl : Z) : prlfs_sb_info :=
  {| sbi_name := "share"; sbi_ttl := ttl; sbi_uid := 0; sbi_gid := 0;
     sbi_share := 0; sbi_plain := 0; sbi_host_inodes := 0; sbi_nls := "" |}.

Definition root_cred : cred :=
  {| cr_uid := 0; cr_gid := 0; cr_fsuid := 0; cr_fsgid := 0 |}.

Definition entry_root : dentry :=
  {| d_name := "/"; d_parent := 1%positive; d_inode := Some 1%positive;
     d_time := 0; d_fsdata := 0 |}.

Definition entry_a (time : Z) : dentry :=
  {| d_name := "a"; d_parent := 1%positive; d_inode := Some 2%positive;
     d_time := time; d_fsdata := 0 |}.

Definition entry_x (time fsdata : Z) : dentry :=
  {| d_name := "x"; d_parent := 2%positive; d_inode := Some 3%positive;
     d_time := time; d_fsdata := fsdata |}.

(** The root (1), a directory "a" (2) below it, and a file "x" (3) below
    "a" with the path-entry word [fsdata]; both were stamped at [time]. *)
Definition small_world (ttl time fsdata : Z) : world :=
  {| dcache := <[3%positive := entry_x time fsdata]>
               (<[2%positive := entry_a time]>
               (<[1%positive := entry_root]> ∅));
     icache := <[3%positive := file_inode]>
               (<[2%positive := dir_inode]> (<[1%positive := dir_inode]> ∅));
     sbi := share_sbi ttl;
     jiffies := 1000;
     current_time := 1700000000;
     current_cred := root_cred;
     last_ino := 8;
     allocs := 0;
     host_log := [] |}.

(** [setattr_copy] of the kernel (fs/attr.c) for a caller in the group of
    the file: the fields that [ia_valid] names are copied from the request,
    the mode whole. *)
Definition kernel_setattr_copy (i : inode) (attr : iattr) : inode :=
  {| i_mode := if test (ia_valid attr) ATTR_MODE then ia_mode attr
               else i_mode i;
     i_size := i_size i; i_blocks := i_blocks i;
     i_atime := if test (ia_valid attr) ATTR_ATIME then ia_atime attr
                else i_atime i;
     i_mtime := if test (ia_valid attr) ATTR_MTIME then ia_mtime attr
                else i_mtime i;
     i_ctime := if test (ia_valid attr) ATTR_CTIME then ia_ctime attr
                else i_ctime i;
     i_uid := if test (ia_valid attr) ATTR_UID then ia_uid attr else i_uid i;
     i_gid := if test (ia_valid attr) ATTR_GID then ia_gid attr else i_gid i;
     i_ino := i_ino i; i_op := i_op i; i_pfd := i_pfd i |}.

(** [truncate_setsize] of the kernel (mm/truncate.c), of which the inode
    sees the new [i_size]. *)
Definition kernel_truncate_setsize (i : inode) (size : Z) : inode :=
  {| i_mode := i_mode i; i_size := size; i_blocks := i_blocks i;
     i_atime := i_atime i; i_mtime := i_mtime i; i_ctime := i_ctime i;
     i_uid := i_uid i; i_gid := i_gid i; i_ino := i_ino i; i_op := i_op i;
     i_pfd := i_pfd i |}.

(** The accepting host under a kernel with these helpers. *)
Definition env_kernel : environment :=
  {| host := host_accepts; kmalloc_ok := fun _ => true;
     kmalloc_attr := fun _ => attr_of_mode 0;
     inode_newsize_ok := fun _ _ => 0;
     truncate_setsize := kernel_truncate_setsize;
     setattr_copy := kernel_setattr_copy;
     inode_setattr := fun i attr =>
       (0, kernel_setattr_copy
             (if test (ia_valid attr) ATTR_SIZE
              then kernel_truncate_setsize i (ia_size attr) else i) attr) |}.

(** The request that [chmod 0600] makes of the VFS for a regular file. *)
Definition chmod_file_attr : iattr :=
  {| ia_valid := ATTR_MODE; ia_mode := Z.lor S_IFREG 384; ia_uid := 0;
     ia_gid := 0; ia_size := 0; ia_atime := 0; ia_mtime := 0;
     ia_ctime := 0 |}.

(** A request that changes the mode only, one that changes owner, group
    and size, and one that changes the access time only. *)
Definition chmod_attr : iattr :=
  {| ia_valid := ATTR_MODE; ia_mode := 384; ia_uid := 0; ia_gid := 0;
     ia_size := 0; ia_atime := 0; ia_mtime := 0; ia_ctime := 0 |}.

Definition chown_attr : iattr :=
  {| ia_valid := Z.lor ATTR_SIZE (Z.lor ATTR_UID ATTR_GID); ia_mode := 0;
     ia_uid := 1000; ia_gid := 100; ia_size := 42; ia_atime := 0;
     ia_mtime := 0; ia_ctime := 0 |}.

Definition atime_attr : iattr :=
  {| ia_valid := ATTR_ATIME; ia_mode := 0; ia_uid := 0; ia_gid := 0;
     ia_size := 0; ia_atime := 77; ia_mtime := 0; ia_ctime := 0 |}.

Definition empty_stat : kstat :=
  {| st_ino := 0; st_mode := 0; st_uid := 0; st_gid := 0; st_size := 0;
     st_atime := 0; st_mtime := 0; st_ctime := 0; st_blocks := 0 |}.

Fixpoint letters (n : nat) : string :=
  match n with
  | O => EmptyString
  | S n => String "a"%char (letters n)
  end.

(** A chain of [n] directories with names of [k] letters below the root
    (1): the dentry [S i] is the child of [i]. *)
Fixpoint chain (n : nat) (k : nat) : gmap positive dentry :=
  match n with
  | O => {[ 1%positive := {| d_name := "/"; d_parent := 1%positive;
                             d_inode := Some 1%positive; d_time := 0;
                             d_fsdata := 0 |} ]}
  | S n' =>
      <[Pos.of_nat (S n) := {| d_name := letters k;
                               d_parent := Pos.of_nat n;
                               d_inode := Some 2%positive; d_time := 5;
                               d_fsdata := 1 |}]> (chain n' k)
  end.

Definition entry_leaf (parent : nat) (leaf : string) : dentry :=
  {| d_name := leaf; d_parent := Pos.of_nat parent;
     d_inode := Some 3%positive; d_time := 5; d_fsdata := 1 |}.

(** A file [leaf] at the bottom of such a chain; it carries the unlinked
    mark. *)
Definition deep_world (n k : nat) (leaf : string) : world :=
  {| dcache := <[Pos.of_nat (S (S n)) := entry_leaf (S n) leaf]> (chain n k);
     icache := <[3%positive := file_inode]>
               (<[2%positive := dir_inode]> (<[1%positive := dir_inode]> ∅));
     sbi := share_sbi 250;
     jiffies := 1000;
     current_time := 1700000000;
     current_cred := root_cred;
     last_ino := 8;
     allocs := 0;
     host_log := [] |}.

(** * Properties *)

Section Claims.

Variable cfg : kconfig.
Variable hdr : prlfs_h.
Variable env : environment.

Lemma to_int_zero (x : Z) : to_int x = 0 <-> x mod 2 ^ 32 = 0.
Proof.
  unfold to_int. split; intros H.
  - assert (Hm : (x + 2 ^ 31) mod 2 ^ 32 = 2 ^ 31) by lia.
    rewrite <- (Z.mod_small (2 ^ 31) (2 ^ 32)) in Hm at 2 by lia.
    apply Z.cong_iff_ex in Hm as [k Hk].
    assert (Hx : x = k * 2 ^ 32) by lia.
    rewrite Hx. apply Z.mod_mul. lia.
  - apply Z.mod_divide in H; [|lia]. destruct H as [k ->].
    replace (k * 2 ^ 32 + 2 ^ 31) with (2 ^ 31 + k * 2 ^ 32) by lia.
    rewrite Z.mod_add by lia. rewrite Z.mod_small; lia.
Qed.

(** C9: on a kernel that passes rename flags (4.9 and later), a rename with
    a nonzero [flags] returns -EINVAL at once: the state is the one it was
    called in, so no path was resolved, no buffer allocated, no request
    sent to the host, and no timestamp or unlinked mark touched. *)
Theorem prlfs_rename_flags_einval (old_de new_de : dptr) (flags : Z)
    (w : world) :
  KERNEL_VERSION 4 9 0 <= LINUX_VERSION_CODE cfg ->
  flags <> 0 ->
  prlfs_rename cfg env old_de new_de flags w = Ret (- EINVAL) w.
Proof.
  intros Hv Hf. unfold prlfs_rename.
  apply Z.leb_le in Hv. rewrite Hv.
  apply Z.eqb_neq in Hf. rewrite Hf. reflexivity.
Qed.

(** The standard head, unfolded. *)
Lemma PRLFS_STD_INODE_eq {A} (d : dptr) (out : Z -> kernel A)
    (body : string -> Z -> kernel A) (w : world) :
  PRLFS_STD_INODE cfg env d out body w =
    let w' := set_allocs (S (allocs w)) w in
    if kmalloc_ok env (allocs w) then
      match prlfs_get_path cfg (sbi w) (dcache w) d PATH_MAX with
      | Fault => Oops w'
      | Done (ERR_PTR e, _, _) => out e w'
      | Done (buf_at _, p, buflen) => body p buflen w'
      end
    else out (- ENOMEM) w'.
Proof.
  unfold PRLFS_STD_INODE, bind, kmalloc, get_path.
  destruct (kmalloc_ok env (allocs w)); [|reflexivity].
  cbn [negb sbi dcache set_allocs].
  destruct (prlfs_get_path cfg (sbi w) (dcache w) d PATH_MAX)
    as [[[[p|e] text] buflen]|]; reflexivity.
Qed.

Lemma attr_to_pattr_ret (attr : iattr) : fst (attr_to_pattr hdr attr) = 0.
Proof. reflexivity. Qed.

(** What set-attributes does on an entry that carries the unlinked mark. *)
Lemma prlfs_setattr_tombstoned (w : world) (d : dptr) (attr : iattr) :
  tombstoned hdr w d ->
  prlfs_setattr cfg hdr env d attr w =
    if kmalloc_ok env (allocs w) then
      match prlfs_get_path cfg (sbi w) (dcache w) d PATH_MAX with
      | Fault => Oops (set_allocs (S (allocs w)) w)
      | Done (ERR_PTR e, _, _) => Ret e (set_allocs (S (allocs w)) w)
      | Done (buf_at _, _, _) =>
          Ret (if kmalloc_ok env (S (allocs w)) then - ESTALE else - ENOMEM)
              (set_allocs (S (S (allocs w))) w)
      end
    else Ret (- ENOMEM) (set_allocs (S (allocs w)) w).
Proof.
  intros (de & Hde & Hm). apply Z.eqb_neq in Hm.
  unfold prlfs_setattr. rewrite PRLFS_STD_INODE_eq. cbv zeta.
  destruct (kmalloc_ok env (allocs w)); [|reflexivity].
  destruct (prlfs_get_path cfg (sbi w) (dcache w) d PATH_MAX)
    as [[[[p|e] text] buflen]|]; try reflexivity.
  unfold bind at 1, kmalloc. cbn [allocs set_allocs].
  destruct (kmalloc_ok env (S (allocs w))); cbn [negb]; [|reflexivity].
  destruct (attr_to_pattr hdr attr) as [r pattr] eqn:Hat.
  pose proof (attr_to_pattr_ret attr) as Hr. rewrite Hat in Hr.
  cbn in Hr. subst r. cbn [Z.ltb Z.compare].
  unfold bind, read_dentry. cbn [dcache set_allocs].
  rewrite Hde, Hm. reflexivity.
Qed.

(** ** Properties that every operation keeps *)

Lemma preserves_ret {A} (P : world -> Prop) (a : A) : preserves P (ret a).
Proof. intros w H. exact H. Qed.

Lemma preserves_bind {A B} (P : world -> Prop) (m : kernel A)
    (k : A -> kernel B) :
  preserves P m -> (forall a, preserves P (k a)) -> preserves P (bind m k).
Proof.
  intros Hm Hk w H. unfold bind. specialize (Hm w H).
  destruct (m w) as [a w'|w']; cbn in Hm; [apply Hk|]; exact Hm.
Qed.

Lemma preserves_oops {A} (P : world -> Prop) : preserves P (@oops A).
Proof. intros w H. exact H. Qed.

Lemma preserves_get_world (P : world -> Prop) : preserves P get_world.
Proof. intros w H. exact H. Qed.

Lemma preserves_read_dentry (P : world -> Prop) d :
  preserves P (read_dentry d).
Proof. intros w H. unfold read_dentry. destruct (dcache w !! d); exact H. Qed.

Lemma preserves_read_inode (P : world -> Prop) i :
  preserves P (read_inode i).
Proof. intros w H. unfold read_inode. destruct (icache w !! i); exact H. Qed.

Lemma preserves_get_path (P : world -> Prop) d :
  preserves P (get_path cfg d).
Proof.
  intros w H. unfold get_path.
  destruct (prlfs_get_path cfg (sbi w) (dcache w) d PATH_MAX); exact H.
Qed.

Section Invariant.

Variable P : world -> Prop.
Variable okd : (dentry -> dentry) -> Prop.
Variable oki : (inode -> inode) -> Prop.

Hypothesis P_allocs : forall n w, P w -> P (set_allocs n w).
Hypothesis P_host_log : forall l w, P w -> P (set_host_log l w).
Hypothesis P_jiffies : forall j w, P w -> P (set_jiffies j w).
Hypothesis P_last_ino : forall n w, P w -> P (set_last_ino n w).
Hypothesis P_dentry : forall f d de w,
  okd f -> dcache w !! d = Some de -> P w ->
  P (set_dcache (insert d (f de)) w).
Hypothesis P_inode : forall f i ino w,
  oki f -> icache w !! i = Some ino -> P w ->
  P (set_icache (insert i (f ino)) w).
Hypothesis P_new_inode : forall i ino w,
  icache w !! i = None -> P w -> P (set_icache (insert i ino) w).

Hypothesis okd_time : forall t, okd (with_d_time t).
Hypothesis okd_inode : forall i, okd (with_d_inode i).
Hypothesis okd_unlinked :
  okd (fun de =>
         with_d_fsdata (Z.lor (prlfs_dfl de) (PRL_DFL_UNLINKED hdr)) de).
Hypothesis oki_bad : forall now, oki (make_bad_inode now).
Hypothesis oki_change : forall sb attr,
  oki (fun ino => prlfs_change_attributes cfg hdr sb ino attr).
Hypothesis oki_inode_setattr : forall attr,
  oki (fun ino => snd (inode_setattr env ino attr)).
Hypothesis oki_setattr_copy : forall attr,
  oki (fun ino => setattr_copy env ino attr).
Hypothesis oki_truncate : forall attr size,
  oki (fun ino => setattr_copy env (truncate_setsize env ino size) attr).

Lemma preserves_kmalloc : preserves P (kmalloc env).
Proof. intros w H. apply P_allocs, H. Qed.

Lemma preserves_kmalloc_prlfs_attr : preserves P (kmalloc_prlfs_attr env).
Proof. intros w H. apply P_allocs, H. Qed.

Lemma preserves_host_request r : preserves P (host_request env r).
Proof. intros w H. apply P_host_log, H. Qed.

Lemma preserves_modify_dentry d f : okd f -> preserves P (modify_dentry d f).
Proof.
  intros Hf w H. unfold modify_dentry.
  destruct (dcache w !! d) eqn:Hd; cbn; [|exact H]. now apply P_dentry.
Qed.

Lemma preserves_modify_inode i f : oki f -> preserves P (modify_inode i f).
Proof.
  intros Hf w H. unfold modify_inode.
  destruct (icache w !! i) eqn:Hi; cbn; [|exact H]. now apply P_inode.
Qed.

Ltac keep_step :=
  match goal with
  | |- preserves _ (ret _) => apply preserves_ret
  | |- preserves _ oops => apply preserves_oops
  | |- preserves _ get_world => apply preserves_get_world
  | |- preserves _ (read_dentry _) => apply preserves_read_dentry
  | |- preserves _ (read_inode _) => apply preserves_read_inode
  | |- preserves _ (get_path _ _) => apply preserves_get_path
  | |- preserves _ (kmalloc _) => apply preserves_kmalloc
  | |- preserves _ (kmalloc_prlfs_attr _) =>
      apply preserves_kmalloc_prlfs_attr
  | |- preserves _ (host_request _ _) => apply preserves_host_request
  | |- preserves _ (modify_dentry _ _) =>
      apply preserves_modify_dentry; solve [auto]
  | |- preserves _ (modify_inode _ _) =>
      apply preserves_modify_inode; solve [auto]
  | |- preserves _ (bind _ _) => apply preserves_bind; [|intros]
  | |- preserves _ (if ?b then _ else _) => destruct b
  | |- preserves _ (match ?x with _ => _ end) => destruct x
  end.

Lemma preserves_STD_INODE {A} d (out : Z -> kernel A) body :
  (forall e, preserves P (out e)) ->
  (forall p buflen, preserves P (body p buflen)) ->
  preserves P (PRLFS_STD_INODE cfg env d out body).
Proof. intros Ho Hb. unfold PRLFS_STD_INODE. repeat keep_step; auto. Qed.

Lemma preserves_get_inode mode : preserves P (prlfs_get_inode env mode).
Proof.
  unfold prlfs_get_inode. repeat keep_step.
  intros w H. cbn. apply P_new_inode; [|apply P_last_ino, H].
  cbn. apply not_elem_of_dom, is_fresh.
Qed.

Ltac keep :=
  repeat first
    [ keep_step
    | match goal with
      | |- preserves _ (PRLFS_STD_INODE _ _ _ _ _) =>
          apply preserves_STD_INODE; intros
      | |- preserves _ (prlfs_get_inode _ _) => apply preserves_get_inode
      end ].

Lemma preserves_mknod d mode : preserves P (prlfs_mknod env d mode).
Proof. unfold prlfs_mknod. keep. Qed.

Lemma preserves_i_revalidate d :
  preserves P (prlfs_i_revalidate cfg hdr env d).
Proof. unfold prlfs_i_revalidate, do_prlfs_getattr. keep. Qed.

Lemma preserves_run_op o : preserves P (run_op cfg hdr env o).
Proof.
  destruct o; cbn [run_op].
  - unfold prlfs_lookup, do_prlfs_getattr. keep.
  - unfold prlfs_create, prlfs_inode_open. keep. apply preserves_mknod.
  - unfold prlfs_mkdir, prlfs_inode_open. keep. apply preserves_mknod.
  - unfold prlfs_symlink. keep. apply preserves_mknod.
  - unfold prlfs_unlink, prlfs_delete. keep.
  - unfold prlfs_rmdir, prlfs_delete. keep.
  - unfold prlfs_rename, __prlfs_rename. keep.
  - unfold prlfs_setattr, prlfs_inode_setattr. keep.
  - unfold prlfs_getattr, __prlfs_getattr. keep.
    apply preserves_i_revalidate.
  - unfold prlfs_d_revalidate. keep. apply preserves_i_revalidate.
  - intros w H. cbn. apply P_jiffies, H.
Qed.

Lemma preserves_rename old_de new_de :
  preserves P (__prlfs_rename cfg env old_de new_de).
Proof. unfold __prlfs_rename. keep. Qed.

Lemma preserves_run_ops l : preserves P (run_ops cfg hdr env l).
Proof.
  induction l as [|o l IH]; cbn [run_ops].
  - apply preserves_ret.
  - apply preserves_bind; [apply preserves_run_op | intros; exact IH].
Qed.

End Invariant.

(** ** The unlinked mark *)

Lemma land_lor_mask (f m : Z) : Z.land (Z.lor f m) m = m.
Proof.
  apply Z.bits_inj'. intros n Hn. rewrite Z.land_spec, Z.lor_spec.
  destruct (Z.testbit f n), (Z.testbit m n); reflexivity.
Qed.

Lemma check_dentry_mask (de : dentry) :
  check_dentry hdr de <> 0 -> to_int (PRL_DFL_UNLINKED hdr) <> 0.
Proof.
  unfold check_dentry. rewrite !to_int_zero. intros H Hm. apply H.
  rewrite <- Z.land_ones in * by lia.
  rewrite <- Z.land_assoc, Hm. apply Z.land_0_r.
Qed.

Lemma check_dentry_unlinked (de : dentry) :
  check_dentry hdr de <> 0 ->
  check_dentry hdr
    (with_d_fsdata (Z.lor (prlfs_dfl de) (PRL_DFL_UNLINKED hdr)) de) <> 0.
Proof.
  intros H. unfold check_dentry, prlfs_dfl. cbn [d_fsdata with_d_fsdata].
  rewrite land_lor_mask. exact (check_dentry_mask de H).
Qed.

Lemma tombstoned_insert (w : world) (d d' : dptr) (de' : dentry)
    (f : dentry -> dentry) :
  (forall de, check_dentry hdr de <> 0 -> check_dentry hdr (f de) <> 0) ->
  dcache w !! d' = Some de' ->
  tombstoned hdr w d ->
  tombstoned hdr (set_dcache (insert d' (f de')) w) d.
Proof.
  intros Hf Hd' (de & Hd & Hm). unfold tombstoned. cbn [dcache set_dcache].
  destruct (decide (d' = d)) as [->|Hne].
  - rewrite lookup_insert_eq. exists (f de'). split; [reflexivity|].
    apply Hf. rewrite Hd in Hd'. injection Hd' as <-. exact Hm.
  - rewrite lookup_insert_ne by exact Hne. eauto.
Qed.

Lemma run_op_keeps_tombstone (o : op) (d : dptr) :
  preserves (fun w => tombstoned hdr w d) (run_op cfg hdr env o).
Proof.
  apply (preserves_run_op (fun w => tombstoned hdr w d)
           (fun f => forall de, check_dentry hdr de <> 0 ->
                                check_dentry hdr (f de) <> 0)
           (fun _ => True)); try (intros; exact I); try (intros; assumption).
  - intros f d' de' w' Hf Hd' H. now apply tombstoned_insert.
  - exact check_dentry_unlinked.
Qed.

(** C7: the unlinked mark of a path entry survives every sequence of
    operations of the module (lookup, create, mkdir, symlink, unlink,
    rmdir, rename, set-attributes, get-attributes, revalidation) and the
    passing of time between them. *)
Theorem tombstone_never_cleared (l : list op) (w : world) (d : dptr) :
  tombstoned hdr w d ->
  tombstoned hdr (final_world (run_ops cfg hdr env l w)) d.
Proof.
  revert w. induction l as [|o l IH]; intros w H; cbn [run_ops].
  - exact H.
  - unfold bind. pose proof (run_op_keeps_tombstone o d w H) as Ho.
    destruct (run_op cfg hdr env o w) as [r w'|w']; cbn in Ho.
    + apply IH, Ho.
    + exact Ho.
Qed.

(** The path-entry word of every dentry is the same after a rename. *)
Lemma rename_keeps_fsdata (w : world) (old_de new_de d : dptr) (x : Z) :
  (exists de, dcache w !! d = Some de /\ d_fsdata de = x) ->
  exists de,
    dcache (final_world (__prlfs_rename cfg env old_de new_de w)) !! d
      = Some de /\ d_fsdata de = x.
Proof.
  apply (preserves_rename
           (fun w => exists de, dcache w !! d = Some de /\ d_fsdata de = x)
           (fun f => forall de, d_fsdata (f de) = d_fsdata de));
    try (intros; assumption).
  - intros f d' de' w' Hf Hd' (de & Hd & Hx). cbn [dcache set_dcache].
    destruct (decide (d' = d)) as [->|Hne].
    + rewrite lookup_insert_eq. exists (f de'). split; [reflexivity|].
      rewrite Hf. rewrite Hd in Hd'. injection Hd' as <-. exact Hx.
    + rewrite lookup_insert_ne by exact Hne. eauto.
  - intros t de. reflexivity.
Qed.

(** ** Remove and rename *)

Lemma prlfs_delete_resolved (w : world) (d : dptr) (p : Z) (text : string)
    (buflen : Z) :
  kmalloc_ok env (allocs w) = true ->
  prlfs_get_path cfg (sbi w) (dcache w) d PATH_MAX
    = Done (buf_at p, text, buflen) ->
  prlfs_delete cfg env d w =
    Ret (hr_ret (host env (List.length (host_log w))
                   (req_remove text buflen)))
        (set_host_log (req_remove text buflen :: host_log w)
           (set_allocs (S (allocs w)) w)).
Proof.
  intros Hk Hp. unfold prlfs_delete.
  rewrite PRLFS_STD_INODE_eq, Hk, Hp. reflexivity.
Qed.

(** C2 (amended): a second remove through a path entry that already
    carries the unlinked mark is not answered locally.  Once its path is
    resolved it sends one more remove request for that path to the host and
    returns the host's status, success included; the mark stays, and rmdir
    does the same as unlink. *)
Theorem remove_again_asks_host (w : world) (d : dptr) (p : Z)
    (text : string) (buflen : Z) :
  tombstoned hdr w d ->
  kmalloc_ok env (allocs w) = true ->
  prlfs_get_path cfg (sbi w) (dcache w) d PATH_MAX
    = Done (buf_at p, text, buflen) ->
  let o := prlfs_unlink cfg hdr env d w in
  returned o
    = Some (hr_ret (host env (List.length (host_log w))
                      (req_remove text buflen)))
  /\ host_log (final_world o) = req_remove text buflen :: host_log w
  /\ tombstoned hdr (final_world o) d
  /\ prlfs_rmdir cfg hdr env d w = o.
Proof.
  intros Ht Hk Hp o.
  assert (Hkeep : tombstoned hdr (final_world o) d)
    by exact (run_op_keeps_tombstone (op_unlink d) d w Ht).
  split; [|split; [|split; [exact Hkeep | reflexivity]]]; clear Hkeep;
    subst o; unfold prlfs_unlink, bind;
    rewrite (prlfs_delete_resolved _ _ _ _ _ Hk Hp);
    destruct Ht as (de & Hde & _);
    destruct (hr_ret _ =? 0) eqn:Hr; try reflexivity;
    unfold modify_dentry; cbn [dcache set_host_log set_allocs];
    rewrite Hde; reflexivity.
Qed.

Lemma prlfs_rename_resolved (w : world) (old_de new_de : dptr)
    (p np : Z) (text ntext : string) (buflen nbuflen : Z) :
  kmalloc_ok env (allocs w) = true ->
  kmalloc_ok env (S (allocs w)) = true ->
  prlfs_get_path cfg (sbi w) (dcache w) old_de PATH_MAX
    = Done (buf_at p, text, buflen) ->
  prlfs_get_path cfg (sbi w) (dcache w) new_de PATH_MAX
    = Done (buf_at np, ntext, nbuflen) ->
  __prlfs_rename cfg env old_de new_de w =
    (modify_dentry old_de (with_d_time 0) ;;;
     modify_dentry new_de (with_d_time 0) ;;;
     ret (hr_ret (host env (List.length (host_log w))
                    (req_rename text buflen ntext nbuflen))))
      (set_host_log (req_rename text buflen ntext nbuflen :: host_log w)
         (set_allocs (S (S (allocs w))) w)).
Proof.
  intros Hk1 Hk2 Hp Hnp. unfold __prlfs_rename.
  rewrite PRLFS_STD_INODE_eq, Hk1, Hp. cbv zeta.
  unfold bind at 1, kmalloc. cbn [allocs set_allocs]. rewrite Hk2.
  cbn [negb]. unfold bind at 1, get_path. cbn [sbi dcache set_allocs].
  rewrite Hnp. reflexivity.
Qed.

(** C6 (amended): a rename that gets as far as its request to the host
    (both path buffers allocated, both paths resolved) sends that one
    request and, whatever the host answers, leaves the timestamp of the
    source and of the destination entry at 0, the unknown state.  A rename
    that fails before that (a path buffer that cannot be allocated, a path
    that does not resolve) sends nothing and leaves every dentry, so both
    timestamps, and every inode as they were.  No rename, wherever it ends,
    changes the path-entry word that holds the unlinked mark of any
    entry. *)
Theorem rename_invalidates_freshness (w : world) (old_de new_de : dptr) :
  (forall ode nde p np text ntext buflen nbuflen,
      dcache w !! old_de = Some ode ->
      dcache w !! new_de = Some nde ->
      kmalloc_ok env (allocs w) = true ->
      kmalloc_ok env (S (allocs w)) = true ->
      prlfs_get_path cfg (sbi w) (dcache w) old_de PATH_MAX
        = Done (buf_at p, text, buflen) ->
      prlfs_get_path cfg (sbi w) (dcache w) new_de PATH_MAX
        = Done (buf_at np, ntext, nbuflen) ->
      let o := __prlfs_rename cfg env old_de new_de w in
      returned o
        = Some (hr_ret (host env (List.length (host_log w))
                          (req_rename text buflen ntext nbuflen)))
      /\ host_log (final_world o)
           = req_rename text buflen ntext nbuflen :: host_log w
      /\ d_time <$> dcache (final_world o) !! old_de = Some 0
      /\ d_time <$> dcache (final_world o) !! new_de = Some 0)
  /\ (kmalloc_ok env (allocs w) = false
      \/ (exists e text buflen,
            prlfs_get_path cfg (sbi w) (dcache w) old_de PATH_MAX
            = Done (ERR_PTR e, text, buflen))
      \/ kmalloc_ok env (S (allocs w)) = false
      \/ (exists e text buflen,
            prlfs_get_path cfg (sbi w) (dcache w) new_de PATH_MAX
            = Done (ERR_PTR e, text, buflen)) ->
      let o := __prlfs_rename cfg env old_de new_de w in
      host_log (final_world o) = host_log w
      /\ dcache (final_world o) = dcache w
      /\ icache (final_world o) = icache w)
  /\ (forall d de,
        dcache w !! d = Some de ->
        d_fsdata
          <$> dcache (final_world (__prlfs_rename cfg env old_de new_de w))
                !! d
        = Some (d_fsdata de)).
Proof.
  split; [|split].
  2:{ intros Hfail o.
      assert (Ho : o = __prlfs_rename cfg env old_de new_de w) by reflexivity.
      clearbody o. unfold __prlfs_rename in Ho.
      rewrite PRLFS_STD_INODE_eq in Ho. cbv zeta in Ho.
      destruct (kmalloc_ok env (allocs w)) eqn:Hk1;
        [|subst o; repeat split].
      destruct (prlfs_get_path cfg (sbi w) (dcache w) old_de PATH_MAX)
        as [[[[p|e] text] buflen]|] eqn:Hp;
        [|subst o; repeat split|subst o; repeat split].
      unfold bind at 1, kmalloc in Ho. cbn [allocs set_allocs] in Ho.
      destruct (kmalloc_ok env (S (allocs w))) eqn:Hk2; cbn [negb] in Ho;
        [|subst o; repeat split].
      unfold bind at 1, get_path in Ho. cbn [sbi dcache set_allocs] in Ho.
      destruct (prlfs_get_path cfg (sbi w) (dcache w) new_de PATH_MAX)
        as [[[[np|ne] ntext] nbuflen]|] eqn:Hnp;
        [|subst o; repeat split|subst o; repeat split].
      exfalso.
      destruct Hfail as [H|[(e & t & n & H)|[H|(e & t & n & H)]]];
        congruence. }
  - intros ode nde p np text ntext buflen nbuflen Ho Hn Hk1 Hk2 Hp Hnp o.
    subst o. rewrite (prlfs_rename_resolved _ _ _ _ _ _ _ _ _ Hk1 Hk2 Hp Hnp).
    unfold bind, modify_dentry, ret.
    cbn [dcache set_host_log set_allocs]. rewrite Ho.
    cbn [dcache set_dcache set_host_log set_allocs].
    destruct (decide (old_de = new_de)) as [->|Hne].
    + rewrite lookup_insert_eq. cbn. rewrite lookup_insert_eq.
      repeat split; reflexivity.
    + rewrite lookup_insert_ne, Hn by exact Hne. cbn.
      rewrite lookup_insert_eq, lookup_insert_ne, lookup_insert_eq by auto.
      repeat split; reflexivity.
  - intros d de Hd.
    destruct (rename_keeps_fsdata w old_de new_de d (d_fsdata de))
      as (de' & Hd' & Hx); [eauto|].
    rewrite Hd'. cbn. now rewrite Hx.
Qed.

(** ** Revalidation *)

Lemma do_prlfs_getattr_resolved (w : world) (d : dptr) (attr : prlfs_attr)
    (p : Z) (text : string) (buflen : Z) :
  kmalloc_ok env (allocs w) = true ->
  prlfs_get_path cfg (sbi w) (dcache w) d PATH_MAX
    = Done (buf_at p, text, buflen) ->
  let req := req_attr text buflen
               (init_buffer_descriptor cfg hdr (PATTR_STRUCT_SIZE hdr) 1 0)
               attr in
  let reply := host env (List.length (host_log w)) req in
  do_prlfs_getattr cfg hdr env d attr w =
    Ret (hr_ret reply, hr_attr reply)
        (set_host_log (req :: host_log w) (set_allocs (S (allocs w)) w)).
Proof.
  intros Hk Hp. unfold do_prlfs_getattr.
  rewrite PRLFS_STD_INODE_eq, Hk, Hp. reflexivity.
Qed.

(** A revalidation within the time to live answers 0 from the cache. *)
Lemma prlfs_i_revalidate_fresh (w : world) (d : dptr) (de : dentry)
    (inode : iptr) :
  dcache w !! d = Some de ->
  d_inode de = Some inode ->
  within_ttl cfg w de = true ->
  prlfs_i_revalidate cfg hdr env (Some d) w = Ret 0 w.
Proof.
  intros Hd Hi Ht. unfold prlfs_i_revalidate, bind, read_dentry, get_world.
  rewrite Hd, Hi, Ht. reflexivity.
Qed.

Lemma is_bad_inode_kept (l : list op) (i : iptr) :
  kernel_keeps_i_op env ->
  preserves (fun w => is_bad_inode w i) (run_ops cfg hdr env l).
Proof.
  intros Hk.
  apply (preserves_run_ops (fun w => is_bad_inode w i) (fun _ => True)
           (fun f => forall ino, i_op ino = bad_inode_ops ->
                                 i_op (f ino) = bad_inode_ops));
    try (intros; exact I); try (intros; assumption).
  - intros f i' ino' w' Hf Hi' (ino & Hi & Hb). unfold is_bad_inode.
    cbn [icache set_icache]. destruct (decide (i' = i)) as [->|Hne].
    + rewrite lookup_insert_eq. exists (f ino'). split; [reflexivity|].
      apply Hf. rewrite Hi in Hi'. injection Hi' as <-. exact Hb.
    + rewrite lookup_insert_ne by exact Hne. eauto.
  - intros i' ino' w' Hi' (ino & Hi & Hb). unfold is_bad_inode.
    cbn [icache set_icache]. rewrite lookup_insert_ne by congruence. eauto.
  - intros now ino _. reflexivity.
  - intros attr ino H. destruct (Hk ino attr 0) as (-> & _). exact H.
  - intros attr ino H. destruct (Hk ino attr 0) as (_ & -> & _). exact H.
  - intros attr size ino H.
    destruct (Hk (truncate_setsize env ino size) attr 0) as (_ & -> & _).
    destruct (Hk ino attr size) as (_ & _ & ->). exact H.
Qed.

(** C3 (amended): a revalidation that fetches attributes of another kind
    than the cached one returns -EIO after its one request to the host and
    makes the inode bad; no operation of the module undoes that (the
    kernel's attribute helpers leaving [i_op] alone).  It also stamps the
    entry with the current time, so that the next revalidation, as long as
    the time to live lasts, returns 0 without asking the host. *)
Theorem kind_mismatch_marks_bad (w : world) (d : dptr) (de : dentry)
    (i : iptr) (ino : inode) (p : Z) (text : string) (buflen : Z) :
  dcache w !! d = Some de ->
  d_inode de = Some i ->
  icache w !! i = Some ino ->
  within_ttl cfg w de = false ->
  kmalloc_ok env (allocs w) = true ->
  kmalloc_ok env (S (allocs w)) = true ->
  prlfs_get_path cfg (sbi w) (dcache w) d PATH_MAX
    = Done (buf_at p, text, buflen) ->
  let req := req_attr text buflen
               (init_buffer_descriptor cfg hdr (PATTR_STRUCT_SIZE hdr) 1 0)
               (kmalloc_attr env (allocs w)) in
  let reply := host env (List.length (host_log w)) req in
  0 <= hr_ret reply ->
  test (Z.lxor (i_mode ino) (pa_mode (hr_attr reply))) S_IFMT = true ->
  let o := prlfs_i_revalidate cfg hdr env (Some d) w in
  let w' := final_world o in
  returned o = Some (- EIO)
  /\ host_log w' = req :: host_log w
  /\ icache w' !! i = Some (make_bad_inode (current_time w) ino)
  /\ dcache w' !! d = Some (with_d_time (jiffies w) de)
  /\ (forall l,
        kernel_keeps_i_op env ->
        is_bad_inode (final_world (run_ops cfg hdr env l w')) i)
  /\ (jiffies w <> 0 -> 0 < sbi_ttl (sbi w) ->
      prlfs_i_revalidate cfg hdr env (Some d) w' = Ret 0 w').
Proof.
  intros Hd Hi Hino Ht Hk1 Hk2 Hp req reply Hr Hkind o w'.
  assert (Ho : o = Ret (- EIO)
                 (set_dcache (insert d (with_d_time (jiffies w) de))
                    (set_icache
                       (insert i (make_bad_inode (current_time w) ino))
                       (set_host_log (req :: host_log w)
                          (set_allocs (S (S (allocs w))) w))))).
  { subst o. unfold prlfs_i_revalidate.
    unfold bind at 1, read_dentry. rewrite Hd, Hi.
    unfold bind at 1, get_world. rewrite Ht.
    unfold bind at 1, kmalloc_prlfs_attr. rewrite Hk1.
    unfold bind at 1.
    rewrite (do_prlfs_getattr_resolved _ d _ p text buflen) by assumption.
    cbn [allocs set_allocs host_log]. fold req. fold reply.
    apply Z.ltb_ge in Hr. rewrite Hr.
    unfold bind at 1, read_inode. cbn [icache set_host_log set_allocs].
    rewrite Hino. unfold bind at 1, get_world. rewrite Hkind.
    unfold bind, modify_inode, modify_dentry, ret.
    cbn [icache dcache set_icache set_host_log set_allocs jiffies
         current_time].
    rewrite Hino. cbn [dcache set_icache set_host_log set_allocs].
    rewrite Hd. reflexivity. }
  subst w'. rewrite Ho. cbn [returned final_world].
  split; [reflexivity|]. split; [reflexivity|].
  split; [apply lookup_insert_eq|]. split; [apply lookup_insert_eq|]. split.
  - intros l Hkeep. apply is_bad_inode_kept; [exact Hkeep|].
    eexists. split; [apply lookup_insert_eq | reflexivity].
  - intros Hj Httl.
    apply (prlfs_i_revalidate_fresh _ d (with_d_time (jiffies w) de) i).
    + apply lookup_insert_eq.
    + exact Hi.
    + unfold within_ttl, ulong. cbn.
      apply Z.eqb_neq in Hj. rewrite Hj, Z.sub_diag, Z.mod_0_l
        by (unfold BITS_PER_LONG; destruct (CONFIG_64BIT cfg); lia).
      apply Z.ltb_lt in Httl. exact Httl.
Qed.

(** ** The time to live *)



Lemma prepend_ret (p : cptr) (text : string) (len : Z) (str : string)
    (n : Z) r p' text' len' :
  prepend p text len str n = Done (r, p', text', len') ->
  r = 0 \/ r = - ENAMETOOLONG.
Proof.
  unfold prepend. destruct (len - n <? 0).
  - intros H. injection H as <- _ _ _. now right.
  - destruct (memcpy _ _ _ _); [|discriminate].
    intros H. injection H as <- _ _ _. now left.
Qed.

(** A [prepend] of at least one byte that returns 0 has stored it in the
    buffer. *)
Lemma prepend_stores (p : cptr) (text : string) (len : Z) (str : string)
    (n : Z) p' text' len' :
  prepend p text len str n = Done (0, p', text', len') ->
  n <> 0 ->
  exists off, p' = buf_at off.
Proof.
  unfold prepend, memcpy. intros H Hn. apply Z.eqb_neq in Hn.
  destruct (len - n <? 0); [discriminate|]. rewrite Hn in H.
  destruct p as [off|e]; cbn in H; [|discriminate].
  destruct (off - n <? 0); [discriminate|].
  injection H as <- _ _. eauto.
Qed.

(** The only error [prlfs_get_path] encodes in its result is
    -ENAMETOOLONG. *)
Lemma prlfs_get_path_end_err sb p t len pl e text n :
  prlfs_get_path_end cfg sb p t len pl = Done (ERR_PTR e, text, n) ->
  e = - ENAMETOOLONG.
Proof.
  unfold prlfs_get_path_end.
  destruct (prepend p t len _ _) as [[[[r1 p1] t1] l1]|] eqn:H1;
    [|discriminate].
  apply prepend_ret in H1 as [->| ->]; cbn [Z.eqb ENAMETOOLONG Z.opp].
  - destruct (prepend p1 t1 l1 "/" 1) as [[[[r2 p2] t2] l2]|] eqn:H2;
      [|discriminate].
    pose proof H2 as H2'. apply prepend_ret in H2' as [->| ->].
    + apply prepend_stores in H2 as [off ->]; [|lia].
      cbn. discriminate.
    + cbn. intros H. now injection H as <- _ _.
  - intros H. now injection H as <- _ _.
Qed.

Lemma prlfs_get_path_err sb dc d plen e text n :
  prlfs_get_path cfg sb dc d plen = Done (ERR_PTR e, text, n) ->
  e = - ENAMETOOLONG.
Proof.
  unfold prlfs_get_path.
  destruct (LINUX_VERSION_CODE cfg <? KERNEL_VERSION 2 6 38).
  - destruct (dc !! d) as [de|]; [|discriminate].
    destruct (_ || _).
    + intros H. now injection H as <- _ _.
    + destruct (walk_up _ _ _ _ _ _) as [[[[[p|e'] l] t]|]|];
        try discriminate.
      * destruct (starts_with_slash t); apply prlfs_get_path_end_err.
      * apply prlfs_get_path_end_err.
  - destruct (dentry_path_raw dc d plen) as [[p t]|]; [|discriminate].
    apply prlfs_get_path_end_err.
Qed.

(** C1 (amended): through a path entry that carries the unlinked mark,
    get-attributes returns -ESTALE in the state it was called in, and
    set-attributes never sends a request to the host nor touches a dentry
    or an inode.  Set-attributes reports a failure of its setup first:
    -ENOMEM when the path buffer cannot be allocated, -ENAMETOOLONG when the
    path does not resolve (the only error the resolver reports), -ENOMEM
    when the wire structure cannot be allocated; once all three have
    succeeded it returns -ESTALE. *)
Theorem tombstoned_attr_ops_stale (w : world) (d : dptr) :
  tombstoned hdr w d ->
  (forall stat,
      __prlfs_getattr cfg hdr env d stat w = Ret (- ESTALE, stat) w)
  /\ (forall attr,
        let o := prlfs_setattr cfg hdr env d attr w in
        host_log (final_world o) = host_log w
        /\ dcache (final_world o) = dcache w
        /\ icache (final_world o) = icache w
        /\ (forall p text buflen,
              kmalloc_ok env (allocs w) = true ->
              prlfs_get_path cfg (sbi w) (dcache w) d PATH_MAX
                = Done (buf_at p, text, buflen) ->
              kmalloc_ok env (S (allocs w)) = true ->
              o = Ret (- ESTALE) (set_allocs (S (S (allocs w))) w))
        /\ (kmalloc_ok env (allocs w) = false ->
            o = Ret (- ENOMEM) (set_allocs (S (allocs w)) w))
        /\ (forall e text buflen,
              kmalloc_ok env (allocs w) = true ->
              prlfs_get_path cfg (sbi w) (dcache w) d PATH_MAX
                = Done (ERR_PTR e, text, buflen) ->
              e = - ENAMETOOLONG
              /\ o = Ret (- ENAMETOOLONG) (set_allocs (S (allocs w)) w))
        /\ (forall p text buflen,
              kmalloc_ok env (allocs w) = true ->
              prlfs_get_path cfg (sbi w) (dcache w) d PATH_MAX
                = Done (buf_at p, text, buflen) ->
              kmalloc_ok env (S (allocs w)) = false ->
              o = Ret (- ENOMEM) (set_allocs (S (S (allocs w))) w))).
Proof.
  intros Ht. split.
  - destruct Ht as (de & Hde & Hm). apply Z.eqb_neq in Hm.
    intros stat. unfold __prlfs_getattr, bind, read_dentry.
    rewrite Hde, Hm. reflexivity.
  - intros attr o. subst o. rewrite (prlfs_setattr_tombstoned _ _ _ Ht).
    destruct (kmalloc_ok env (allocs w)).
    + destruct (prlfs_get_path cfg (sbi w) (dcache w) d PATH_MAX)
        as [[[[p|e] text] buflen]|] eqn:Hp;
        repeat split; try reflexivity; intros; try congruence.
      * match goal with H : _ = true |- _ => rewrite H end. reflexivity.
      * match goal with H : _ = false |- _ => rewrite H end. reflexivity.
      * apply prlfs_get_path_err in Hp.
        match goal with H : Done _ = Done _ |- _ => injection H as <- _ _ end.
        exact Hp.
      * apply prlfs_get_path_err in Hp.
        match goal with H : Done _ = Done _ |- _ => injection H as <- _ _ end.
        now rewrite Hp.
    + repeat split; try reflexivity; intros; congruence.
Qed.



(** ** Translation of attributes to the wire *)

(** C8 (amended): when a set-attributes request changes the owner id, the
    validity mask is assigned, not OR-ed: the bits collected before for
    size, atime/mtime, ctime and mode are dropped and the mask is the UID
    bit alone.  A gid changed in the same call is assigned in turn, so the
    mask sent is then the GID bit alone: the uid value is in the structure
    but its validity bit is dropped as well. *)
Theorem attr_to_pattr_uid_mask (attr : iattr) :
  test (ia_valid attr) ATTR_UID = true ->
  let pattr := snd (attr_to_pattr hdr attr) in
  pa_uid pattr = ia_uid attr
  /\ pa_valid pattr = (if test (ia_valid attr) ATTR_GID
                       then _PATTR_GID hdr else _PATTR_UID hdr).
Proof.
  intros Hu. unfold attr_to_pattr. rewrite Hu.
  destruct (test (ia_valid attr) ATTR_GID); split; reflexivity.
Qed.

Lemma land_lor_zero (a b m : Z) :
  Z.land a m = 0 -> Z.land b m = 0 -> Z.land (Z.lor a b) m = 0.
Proof. intros Ha Hb. now rewrite Z.land_lor_distr_l, Ha, Hb. Qed.

Lemma land_lor_covers (a m : Z) : Z.land (Z.lor a m) m = m.
Proof. apply land_lor_mask. Qed.

Lemma land_lor_keeps (a b m : Z) :
  Z.land a m = m -> Z.land (Z.lor a b) m = m.
Proof.
  intros Ha. rewrite Z.land_lor_distr_l, Ha.
  apply Z.bits_inj'. intros n Hn. rewrite Z.lor_spec, Z.land_spec.
  destruct (Z.testbit m n), (Z.testbit b n); reflexivity.
Qed.

(** C10: the translation to the wire carries the access and the modify
    time only when the request changes both.  If it does not, neither
    validity bit is set and both time fields stay zero; if it does, both
    values are copied, and both bits are set unless an owner or group
    change replaces the mask. *)
Theorem attr_to_pattr_times (attr : iattr) :
  time_bits_apart hdr ->
  let pattr := snd (attr_to_pattr hdr attr) in
  let both := Z.lor ATTR_ATIME ATTR_MTIME in
  let times := Z.lor (_PATTR_ATIME hdr) (_PATTR_MTIME hdr) in
  (Z.land (ia_valid attr) both <> both ->
   Z.land (pa_valid pattr) times = 0
   /\ pa_atime pattr = 0 /\ pa_mtime pattr = 0)
  /\ (Z.land (ia_valid attr) both = both ->
      pa_atime pattr = ia_atime attr
      /\ pa_mtime pattr = ia_mtime attr
      /\ (test (ia_valid attr) ATTR_UID = false ->
          test (ia_valid attr) ATTR_GID = false ->
          Z.land (pa_valid pattr) times = times)).
Proof.
  intros (Hs & Hc & Hm & Hu & Hg) pattr both times.
  subst pattr both. unfold attr_to_pattr. fold times in Hs, Hc, Hm, Hu, Hg.
  fold times. split.
  - intros Hne. apply Z.eqb_neq in Hne. rewrite Hne.
    destruct (test (ia_valid attr) ATTR_SIZE),
             (test (ia_valid attr) ATTR_CTIME),
             (test (ia_valid attr) ATTR_MODE),
             (test (ia_valid attr) ATTR_UID),
             (test (ia_valid attr) ATTR_GID);
      cbn [pa_valid pa_atime pa_mtime with_pa_valid with_pa_size
           with_pa_ctime with_pa_mode with_pa_uid with_pa_gid zero_attr];
      repeat split; try reflexivity; try assumption;
      repeat (apply land_lor_zero; try assumption); reflexivity.
  - intros Heq. apply Z.eqb_eq in Heq. rewrite Heq.
    destruct (test (ia_valid attr) ATTR_SIZE),
             (test (ia_valid attr) ATTR_CTIME),
             (test (ia_valid attr) ATTR_MODE),
             (test (ia_valid attr) ATTR_UID),
             (test (ia_valid attr) ATTR_GID);
      cbn [pa_valid pa_atime pa_mtime with_pa_valid with_pa_size
           with_pa_ctime with_pa_mode with_pa_uid with_pa_gid
           with_pa_times zero_attr];
      repeat split; try reflexivity; intros; try discriminate;
      repeat first [apply land_lor_covers | apply land_lor_keeps].
Qed.

(** ** The path resolver *)

Local Arguments String.append : simpl nomatch.

Lemma strlen_app (a b : string) : strlen (a ++ b) = strlen a + strlen b.
Proof.
  unfold strlen. induction a as [|c a IH]; cbn [String.append String.length].
  - lia.
  - rewrite !Nat2Z.inj_succ. lia.
Qed.

Lemma strlen_cons (c : ascii) (s : string) :
  strlen (String c s) = 1 + strlen s.
Proof. unfold strlen. cbn [String.length]. lia. Qed.

Lemma string_app_assoc (a b c : string) : (a ++ b) ++ c = a ++ (b ++ c).
Proof. induction a as [|x a IH]; cbn; [reflexivity | now rewrite IH]. Qed.

Lemma substring_whole (s : string) :
  String.substring 0 (String.length s) s = s.
Proof. induction s as [|c s IH]; cbn; [reflexivity | now rewrite IH]. Qed.

Lemma slashed_app (a b : list string) :
  slashed (a ++ b)%list = slashed a ++ slashed b.
Proof.
  induction a as [|n a IH]; cbn [slashed app]; [reflexivity|].
  rewrite IH. cbn. now rewrite string_app_assoc.
Qed.

Lemma slashed_join (names : list string) :
  names <> [] -> slashed names = "/" ++ join_slash names.
Proof.
  induction names as [|n [|m names] IH]; intros H; [congruence| |].
  - cbn. clear. induction n; cbn; congruence.
  - cbn [slashed join_slash] in *. rewrite IH by discriminate. reflexivity.
Qed.

Lemma slashed_starts (names : list string) :
  starts_with_slash (slashed names) = negb (bool_decide (names = [])).
Proof. destruct names; reflexivity. Qed.

(** The ancestry loop never stops for want of turns. *)
Lemma walk_up_fuel (fuel : nat) : forall dc d p len text,
  (Z.to_nat len <= fuel)%nat ->
  walk_up fuel dc d p len text <> None.
Proof.
  induction fuel as [|f IH]; intros dc d p len text Hf; cbn [walk_up];
    destruct (dc !! d) as [de|]; try discriminate;
    destruct (IS_ROOT d de); try discriminate;
    destruct (len <? strlen (d_name de) + 1) eqn:Hl; try discriminate.
  - apply Z.ltb_ge in Hl. unfold strlen in Hl. exfalso. lia.
  - apply IH. apply Z.ltb_ge in Hl. unfold strlen in *. lia.
Qed.

(** What the ancestry loop leaves in the buffer when it reaches the root. *)
Lemma walk_up_names (fuel : nat) : forall dc d p len text below p' len' text',
  walk_up fuel dc d p len text = Some (Done (buf_at p', len', text')) ->
  exists names,
    ancestor_names (S fuel) dc d below = Some (names ++ below)%list
    /\ text' = slashed names ++ text
    /\ p' = p - strlen (slashed names)
    /\ len' = len - strlen (slashed names).
Proof.
  induction fuel as [|f IH]; intros dc d p len text below p' len' text';
    cbn [walk_up ancestor_names];
    destruct (dc !! d) as [de|]; try discriminate;
    destruct (IS_ROOT d de).
  1,3: intros H; injection H as <- <- <-; exists [];
       cbn; repeat split; try reflexivity; unfold strlen; cbn; lia.
  - destruct (len <? _); discriminate.
  - destruct (len <? _); [discriminate|]. intros H.
    apply (IH _ _ _ _ _ (d_name de :: below)) in H
      as (names & Ha & -> & -> & ->).
    exists (names ++ [d_name de])%list.
    rewrite <- app_assoc. cbn [app]. split; [exact Ha|].
    rewrite slashed_app. cbn [slashed].
    rewrite !string_app_assoc, !strlen_app. cbn [String.append].
    repeat split; try reflexivity;
      rewrite ?strlen_app; unfold strlen; cbn [String.length];
      rewrite ?Nat.add_0_r; lia.
Qed.

Lemma string_app_nil_r (a : string) : a ++ "" = a.
Proof. induction a as [|c a IH]; cbn; [reflexivity | now rewrite IH]. Qed.

Lemma prepend_text (off : Z) (text : string) (len : Z) (str : string)
    p' text' len' :
  prepend (buf_at off) text len str (strlen str) = Done (0, p', text', len') ->
  p' = buf_at (off - strlen str)
  /\ text' = str ++ text
  /\ len' = len - strlen str
  /\ (str <> "" -> 0 <= off - strlen str).
Proof.
  unfold prepend, memcpy, ptr_sub.
  destruct (len - strlen str <? 0); [discriminate|].
  destruct (strlen str =? 0) eqn:Hz.
  - intros H. injection H as <- <- <-.
    apply Z.eqb_eq in Hz. destruct str; [|discriminate Hz].
    repeat split. congruence.
  - destruct (off - strlen str <? 0) eqn:Hoff; [discriminate|].
    intros H. injection H as <- <- <-. apply Z.ltb_ge in Hoff.
    unfold strlen in *. rewrite Nat2Z.id, substring_whole. auto.
Qed.

Lemma prlfs_get_path_end_text sb off t len pl p text n :
  prlfs_get_path_end cfg sb (buf_at off) t len pl = Done (buf_at p, text, n) ->
  text = "/" ++ sbi_name sb ++ t
  /\ p = off - strlen (sbi_name sb) - 1
  /\ 0 <= p
  /\ n = strnlen text (PAGE_SIZE cfg - 1) + 1.
Proof.
  unfold prlfs_get_path_end.
  destruct (prepend (buf_at off) t len _ _) as [[[[r1 p1] t1] l1]|] eqn:H1;
    [|discriminate].
  pose proof H1 as H1'. apply prepend_ret in H1' as [->| ->];
    [|discriminate].
  apply prepend_text in H1 as (-> & -> & -> & _). cbn [Z.eqb].
  destruct (prepend _ _ _ "/" 1) as [[[[r2 p2] t2] l2]|] eqn:H2;
    [|discriminate].
  pose proof H2 as H2'. apply prepend_ret in H2' as [->| ->];
    [|discriminate].
  apply (prepend_text _ _ _ "/") in H2 as (-> & -> & -> & Hp).
  cbn [Z.eqb]. intros H. injection H as <- <- <-.
  specialize (Hp ltac:(discriminate)).
  change (strlen "/") with 1 in *. repeat split; try reflexivity; lia.
Qed.

Lemma prlfs_get_path_end_err_ptr sb e t len pl p text n :
  prlfs_get_path_end cfg sb (ERR_PTR e) t len pl <> Done (buf_at p, text, n).
Proof.
  unfold prlfs_get_path_end, prepend at 1, memcpy, ptr_sub.
  destruct (len - _ <? 0); [discriminate|].
  destruct (strlen (sbi_name sb) =? 0); [|discriminate]. cbn [Z.eqb].
  unfold prepend, memcpy, ptr_sub. destruct (_ <? 0); discriminate.
Qed.

(** When [prlfs_get_path] returns a pointer into the buffer, the text there
    is the path as the specification words it, whole: it starts at or after
    the first byte of the buffer, and ends with the NUL in its last byte. *)
Lemma prlfs_get_path_text sb dc d plen p text n :
  prlfs_get_path cfg sb dc d plen = Done (buf_at p, text, n) ->
  exists fuel names,
    ancestor_names fuel dc d [] = Some names
    /\ text = host_path sb names
    /\ n = strnlen text (PAGE_SIZE cfg - 1) + 1
    /\ 0 <= p
    /\ p + strlen text + 1 = plen.
Proof.
  assert (Hroot : forall off t len pl,
    prlfs_get_path_end cfg sb (buf_at off) t len pl = Done (buf_at p, text, n)
    -> forall names, t = (if bool_decide (names = []) then "/"
                          else slashed names) ->
    text = host_path sb names
    /\ n = strnlen text (PAGE_SIZE cfg - 1) + 1
    /\ 0 <= p
    /\ p + strlen text + 1 = off + strlen t + 1).
  { intros off t len pl H names Ht.
    apply prlfs_get_path_end_text in H as (-> & -> & Hp & ->).
    unfold host_path. split; [|split; [reflexivity|split; [exact Hp|]]].
    - subst t. destruct names as [|m names]; [reflexivity|].
      rewrite bool_decide_false by discriminate.
      now rewrite slashed_join by discriminate.
    - change ("/" ++ sbi_name sb ++ t) with (String "/" (sbi_name sb ++ t)).
      rewrite strlen_cons, strlen_app. lia. }
  unfold prlfs_get_path.
  destruct (LINUX_VERSION_CODE cfg <? KERNEL_VERSION 2 6 38).
  - destruct (dc !! d) as [de|]; [|discriminate].
    destruct (_ || _); [discriminate|].
    destruct (walk_up _ _ _ _ _ _) as [[[[[p0|e] l] t]|]|] eqn:Hw;
      try discriminate.
    2: { intros H. now apply prlfs_get_path_end_err_ptr in H. }
    apply (walk_up_names _ _ _ _ _ _ []) in Hw as (names & Ha & -> & -> & ->).
    rewrite app_nil_r in Ha. rewrite string_app_nil_r, slashed_starts.
    intros H. exists (S (Z.to_nat (plen - 1))), names.
    split; [exact Ha|]. destruct names as [|m names].
    + rewrite bool_decide_true in H by reflexivity. cbn [negb] in H.
      destruct (Hroot _ _ _ _ H [] eq_refl) as (? & ? & ? & Hlen).
      change (strlen ("/" ++ slashed [])) with 1 in Hlen.
      change (strlen (slashed [])) with 0 in Hlen. repeat split; auto; lia.
    + rewrite bool_decide_false in H by discriminate. cbn [negb] in H.
      destruct (Hroot _ _ _ _ H (m :: names)) as (? & ? & ? & Hlen).
      * now rewrite bool_decide_false by discriminate.
      * repeat split; auto; lia.
  - unfold dentry_path_raw. destruct (plen <? 1); cbn beta iota.
    { intros H. now apply prlfs_get_path_end_err_ptr in H. }
    destruct (walk_up _ _ _ _ _ _) as [[[[[p0|e] l] t]|]|] eqn:Hw;
      try discriminate.
    2: { intros H. now apply prlfs_get_path_end_err_ptr in H. }
    apply (walk_up_names _ _ _ _ _ _ []) in Hw as (names & Ha & -> & -> & ->).
    rewrite app_nil_r in Ha. rewrite string_app_nil_r, slashed_starts.
    intros H. exists (S (Z.to_nat plen)), names.
    split; [exact Ha|]. destruct names as [|m names].
    + rewrite bool_decide_true in H by reflexivity. cbn [negb] in H.
      destruct (_ <? 1).
      { now apply prlfs_get_path_end_err_ptr in H. }
      destruct (Hroot _ _ _ _ H [] eq_refl) as (? & ? & ? & Hlen).
      change (strlen ("/" ++ slashed [])) with 1 in Hlen.
      change (strlen (slashed [])) with 0 in Hlen. repeat split; auto; lia.
    + rewrite bool_decide_false in H by discriminate. cbn [negb] in H.
      destruct (Hroot _ _ _ _ H (m :: names)) as (? & ? & ? & Hlen).
      * now rewrite bool_decide_false by discriminate.
      * repeat split; auto; lia.
Qed.

End Claims.

(** * The statements at concrete kernels and worlds *)

Lemma small_world_tombstoned (ttl time : Z) :
  tombstoned prlfs_h_bits (small_world ttl time 1) 3.
Proof. exists (entry_x time 1). split; [reflexivity | discriminate]. Qed.

Lemma deep_world_tombstoned (leaf : string) :
  tombstoned prlfs_h_bits (deep_world 15 255 leaf) 17.
Proof. exists (entry_leaf 16 leaf). split; [reflexivity | discriminate]. Qed.

(** C5: a file sixteen directories deep whose path, with the share name
    before it, has 4097 characters.  With its NUL it does not fit the 4096
    bytes of the buffer, yet the resolver does not return -ENAMETOOLONG: on
    a 5.15 kernel [dentry_path_raw] fits its part into the buffer, [len]
    still counts the whole buffer, and [prepend] stores the share name
    before the first byte of the buffer.  When [dentry_path_raw] itself
    fails, or on a 2.6.32 kernel when the ancestry loop fails with more room
    left than the share name needs, [prepend] stores through the ERR_PTR. *)
Theorem prlfs_get_path_overflow :
  let w := deep_world 15 255 (letters 250) in
  let w' := deep_world 15 255 (letters 255) in
  (exists names,
      ancestor_names 18 (dcache w) 17 [] = Some names
      /\ strlen (host_path (sbi w) names) = 4097)
  /\ prlfs_get_path linux_5_15 (sbi w) (dcache w) 17 PATH_MAX = Fault
  /\ prlfs_get_path linux_5_15 (sbi w') (dcache w') 17 PATH_MAX = Fault
  /\ prlfs_get_path linux_2_6_32 (sbi w') (dcache w') 17 PATH_MAX = Fault
  /\ returned (prlfs_delete linux_5_15 env_accepts 17 w) = None.
Proof.
  cbv zeta. split.
  - eexists. split; vm_compute; reflexivity.
  - repeat split; vm_compute; reflexivity.
Qed.

(** C1, at a file that was unlinked on a 5.15 kernel. *)
Lemma tombstoned_attr_ops_stale_witness :
  let w := small_world 250 990 1 in
  tombstoned prlfs_h_bits w 3
  /\ __prlfs_getattr linux_5_15 prlfs_h_bits env_accepts 3 empty_stat w
     = Ret (- ESTALE, empty_stat) w
  /\ prlfs_setattr linux_5_15 prlfs_h_bits env_accepts 3 chmod_attr w
     = Ret (- ESTALE) (set_allocs 2 w).
Proof.
  cbv zeta.
  pose proof (tombstoned_attr_ops_stale linux_5_15 prlfs_h_bits env_accepts
                (small_world 250 990 1) 3 (small_world_tombstoned 250 990))
    as [Hget Hset].
  split; [apply small_world_tombstoned|]. split; [apply Hget|].
  destruct (Hset chmod_attr) as (_ & _ & _ & H & _).
  apply (H 4085 "/share/a/x" 11); vm_compute; reflexivity.
Defined.

(** C1 as stated fails: set-attributes through an entry that carries the
    unlinked mark returns -ENOMEM when its path buffer cannot be allocated,
    and -ENAMETOOLONG on a 2.6.32 kernel when the path has outgrown the
    buffer; neither is -ESTALE. *)
Lemma tombstoned_setattr_not_stale :
  tombstoned prlfs_h_bits (small_world 250 990 1) 3
  /\ returned (prlfs_setattr linux_5_15 prlfs_h_bits env_no_memory 3
                 chmod_attr (small_world 250 990 1)) = Some (- ENOMEM)
  /\ tombstoned prlfs_h_bits (deep_world 15 255 (letters 250)) 17
  /\ returned (prlfs_setattr linux_2_6_32 prlfs_h_bits env_accepts 17
                 chmod_attr (deep_world 15 255 (letters 250)))
     = Some (- ENAMETOOLONG)
  /\ - ENOMEM <> - ESTALE /\ - ENAMETOOLONG <> - ESTALE.
Proof.
  split; [apply small_world_tombstoned|].
  split; [vm_compute; reflexivity|].
  split; [apply deep_world_tombstoned|].
  repeat split; try (vm_compute; reflexivity); discriminate.
Qed.

(** C2, at a file that was unlinked before. *)
Lemma remove_again_asks_host_witness :
  let w := small_world 250 990 1 in
  let o := prlfs_unlink linux_5_15 prlfs_h_bits env_accepts 3 w in
  returned o = Some 0
  /\ host_log (final_world o) = [req_remove "/share/a/x" 11]
  /\ tombstoned prlfs_h_bits (final_world o) 3
  /\ prlfs_rmdir linux_5_15 prlfs_h_bits env_accepts 3 w = o.
Proof.
  cbv zeta.
  apply (remove_again_asks_host linux_5_15 prlfs_h_bits env_accepts
           (small_world 250 990 1) 3 4085 "/share/a/x" 11).
  - apply small_world_tombstoned.
  - reflexivity.
  - vm_compute. reflexivity.
Defined.

(** C2 as stated fails: with a host that accepts every request, two
    removes through the same entry both return 0, and each one has sent its
    remove request; the second is not answered with -ESTALE. *)
Lemma second_remove_succeeds :
  let remove := prlfs_unlink linux_5_15 prlfs_h_bits env_accepts 3 in
  let first := remove (small_world 250 990 0) in
  let second := remove (final_world first) in
  returned first = Some 0
  /\ tombstoned prlfs_h_bits (final_world first) 3
  /\ returned second = Some 0
  /\ host_log (final_world second)
     = [req_remove "/share/a/x" 11; req_remove "/share/a/x" 11].
Proof.
  cbv zeta. split; [vm_compute; reflexivity|]. split.
  - exists (entry_x 990 1). split; [vm_compute; reflexivity | discriminate].
  - split; vm_compute; reflexivity.
Qed.

(** C3, at the directory "a" when the host reports a regular file. *)
Lemma kind_mismatch_marks_bad_witness :
  let w := small_world 250 10 0 in
  let o := prlfs_i_revalidate linux_5_15 prlfs_h_bits env_accepts (Some 2%positive) w in
  returned o = Some (- EIO)
  /\ is_bad_inode
       (final_world
          (run_ops linux_5_15 prlfs_h_bits env_accepts
             [op_setattr 2 chmod_attr; op_tick 500; op_d_revalidate (Some 2%positive)]
             (final_world o))) 2
  /\ prlfs_i_revalidate linux_5_15 prlfs_h_bits env_accepts (Some 2%positive)
       (final_world o) = Ret 0 (final_world o).
Proof.
  cbv zeta.
  destruct (kind_mismatch_marks_bad linux_5_15 prlfs_h_bits env_accepts
              (small_world 250 10 0) 2 (entry_a 10) 2 dir_inode
              4087 "/share/a" 9)
    as (Hret & _ & _ & _ & Hbad & Hnext);
    try (vm_compute; reflexivity); try (vm_compute; discriminate).
  split; [exact Hret|]. split.
  - apply Hbad. intros ino attr size. repeat split.
  - apply Hnext; vm_compute; [discriminate | reflexivity].
Defined.

(** C3 as stated fails: after the revalidation that found a regular file
    where a directory was cached and returned -EIO, the next revalidation
    returns 0 without a request to the host, and so does one after the time
    to live has run out, which asks the host. *)
Lemma revalidate_after_mismatch_succeeds :
  let revalidate :=
    prlfs_i_revalidate linux_5_15 prlfs_h_bits env_accepts (Some 2%positive) in
  let first := revalidate (small_world 250 10 0) in
  let w := final_world first in
  returned first = Some (- EIO)
  /\ is_bad_inode w 2
  /\ revalidate w = Ret 0 w
  /\ returned (revalidate (set_jiffies 2000 w)) = Some 0
  /\ List.length (host_log (final_world (revalidate (set_jiffies 2000 w))))
     = 2%nat.
Proof.
  cbv zeta. split; [vm_compute; reflexivity|]. split.
  - exists (make_bad_inode 1700000000 dir_inode).
    split; vm_compute; reflexivity.
  - repeat split; vm_compute; reflexivity.
Qed.



(** C6, at a rename of the file "x" onto the directory entry "a". *)
Lemma rename_invalidates_freshness_witness :
  let w := small_world 250 990 1 in
  let o := __prlfs_rename linux_5_15 env_accepts 3 2 w in
  returned o = Some 0
  /\ host_log (final_world o) = [req_rename "/share/a/x" 11 "/share/a" 9]
  /\ d_time <$> dcache (final_world o) !! 3%positive = Some 0
  /\ d_time <$> dcache (final_world o) !! 2%positive = Some 0
  /\ d_fsdata <$> dcache (final_world o) !! 3%positive = Some 1
  /\ dcache (final_world (__prlfs_rename linux_5_15 env_no_memory 3 2 w))
     = dcache w.
Proof.
  cbv zeta.
  destruct (rename_invalidates_freshness linux_5_15 env_accepts
              (small_world 250 990 1) 3 2) as (Hreset & _ & Hword).
  destruct (Hreset (entry_x 990 1) (entry_a 990) 4085 4087
              "/share/a/x" "/share/a" 11 9)
    as (H1 & H2 & H3 & H4); try (vm_compute; reflexivity).
  split; [exact H1|]. split; [exact H2|]. split; [exact H3|].
  split; [exact H4|].
  split; [apply (Hword 3%positive (entry_x 990 1)); reflexivity|].
  destruct (rename_invalidates_freshness linux_5_15 env_no_memory
              (small_world 250 990 1) 3 2) as (_ & Hlocal & _).
  apply Hlocal. left. reflexivity.
Defined.

(** C6 as stated fails: a rename that cannot allocate its path buffer
    returns -ENOMEM, and on a 2.6.32 kernel a rename onto a path that does
    not fit the buffer returns -ENAMETOOLONG; both leave the timestamp of
    the source entry as it was, not at 0. *)
Lemma failed_rename_keeps_timestamps :
  let o := __prlfs_rename linux_5_15 env_no_memory 3 2
             (small_world 250 990 0) in
  let w := deep_world 15 255 (letters 250) in
  let o' := __prlfs_rename linux_2_6_32 env_accepts 2 17 w in
  returned o = Some (- ENOMEM)
  /\ d_time <$> dcache (final_world o) !! 3%positive = Some 990
  /\ returned o' = Some (- ENAMETOOLONG)
  /\ d_time <$> dcache (final_world o') !! 2%positive = Some 5
  /\ host_log (final_world o') = [].
Proof. cbv zeta. repeat split; vm_compute; reflexivity. Qed.

(** C7, at an unlinked file and a run of operations on it. *)
Lemma tombstone_never_cleared_witness :
  tombstoned prlfs_h_bits
    (final_world
       (run_ops linux_5_15 prlfs_h_bits env_accepts
          [op_lookup 3; op_create 3 420; op_rename 3 2 0; op_rename 2 3 0;
           op_setattr 3 chmod_attr; op_tick 600; op_getattr 3 empty_stat;
           op_d_revalidate (Some 3%positive); op_unlink 3; op_symlink 3 "t"]
          (small_world 250 990 1))) 3.
Proof.
  apply (tombstone_never_cleared linux_5_15 prlfs_h_bits env_accepts).
  apply small_world_tombstoned.
Defined.

(** C8, at a request that changes the owner and the size. *)
Lemma attr_to_pattr_uid_mask_witness :
  let attr :=
    {| ia_valid := Z.lor ATTR_SIZE ATTR_UID; ia_mode := 0; ia_uid := 1000;
       ia_gid := 0; ia_size := 42; ia_atime := 0; ia_mtime := 0;
       ia_ctime := 0 |} in
  pa_uid (snd (attr_to_pattr prlfs_h_bits attr)) = 1000
  /\ pa_valid (snd (attr_to_pattr prlfs_h_bits attr))
     = _PATTR_UID prlfs_h_bits.
Proof.
  cbv zeta. apply (attr_to_pattr_uid_mask prlfs_h_bits). reflexivity.
Defined.

(** C8 as stated fails: when owner, group and size are changed in one
    call, the group does not survive alongside the owner; the mask sent is
    the GID bit alone, and the UID bit is not in it. *)
Lemma attr_to_pattr_gid_replaces_uid :
  let pattr := snd (attr_to_pattr prlfs_h_bits chown_attr) in
  pa_valid pattr = _PATTR_GID prlfs_h_bits
  /\ test (pa_valid pattr) (_PATTR_UID prlfs_h_bits) = false
  /\ pa_valid pattr
     <> Z.lor (_PATTR_UID prlfs_h_bits) (_PATTR_GID prlfs_h_bits).
Proof. cbv zeta. repeat split. discriminate. Qed.

(** C9, at a rename with RENAME_NOREPLACE on a 5.15 kernel. *)
Lemma prlfs_rename_flags_einval_witness :
  prlfs_rename linux_5_15 env_accepts 3 2 1 (small_world 250 990 0)
  = Ret (- EINVAL) (small_world 250 990 0).
Proof.
  apply (prlfs_rename_flags_einval linux_5_15 env_accepts);
    vm_compute; discriminate.
Defined.

(** C10, at a request that changes the access time only. *)
Lemma attr_to_pattr_times_witness :
  let pattr := snd (attr_to_pattr prlfs_h_bits atime_attr) in
  Z.land (pa_valid pattr)
    (Z.lor (_PATTR_ATIME prlfs_h_bits) (_PATTR_MTIME prlfs_h_bits)) = 0
  /\ pa_atime pattr = 0 /\ pa_mtime pattr = 0.
Proof.
  cbv zeta.
  apply (attr_to_pattr_times prlfs_h_bits atime_attr).
  - repeat split.
  - vm_compute. discriminate.
Defined.

(** * Further properties of the code *)

Section Extras.

Variable cfg : kconfig.
Variable hdr : prlfs_h.
Variable env : environment.

Local Arguments String.append : simpl nomatch.

(** ** The path resolver *)

(** X1: whenever [prlfs_get_path] returns a pointer into its buffer, the
    text there is "/" + share name + "/" + the '/'-joined names from the
    root down to the dentry; it lies within the buffer and ends at its last
    byte, and [*plen] is its length with the NUL, capped at PAGE_SIZE. *)
Theorem prlfs_get_path_is_host_path sb dc d plen p text n :
  prlfs_get_path cfg sb dc d plen = Done (buf_at p, text, n) ->
  exists fuel names,
    ancestor_names fuel dc d [] = Some names
    /\ text = host_path sb names
    /\ n = strnlen text (PAGE_SIZE cfg - 1) + 1
    /\ 0 <= p
    /\ p + strlen text + 1 = plen.
Proof. apply prlfs_get_path_text. Qed.

(** X2: the only error that [prlfs_get_path] reports through its result is
    -ENAMETOOLONG. *)
Theorem prlfs_get_path_only_enametoolong sb dc d plen e text n :
  prlfs_get_path cfg sb dc d plen = Done (ERR_PTR e, text, n) ->
  e = - ENAMETOOLONG.
Proof. apply prlfs_get_path_err. Qed.

Lemma prepend_fits (off : Z) (text : string) (len : Z) (str : string) :
  0 <= len - strlen str ->
  0 <= off - strlen str ->
  prepend (buf_at off) text len str (strlen str)
  = Done (0, buf_at (off - strlen str), str ++ text, len - strlen str).
Proof.
  intros Hl Ho. unfold prepend, memcpy, ptr_sub.
  apply Z.ltb_ge in Hl, Ho. rewrite Hl, Ho.
  destruct (strlen str =? 0) eqn:Hz.
  - apply Z.eqb_eq in Hz. destruct str; [reflexivity | discriminate Hz].
  - unfold strlen. now rewrite Nat2Z.id, substring_whole.
Qed.

Lemma prlfs_get_path_end_fits sb off t len pl :
  0 <= off - strlen (sbi_name sb) - 1 ->
  off <= len ->
  prlfs_get_path_end cfg sb (buf_at off) t len pl
  = Done (buf_at (off - strlen (sbi_name sb) - 1),
          "/" ++ sbi_name sb ++ t,
          strnlen ("/" ++ sbi_name sb ++ t) (PAGE_SIZE cfg - 1) + 1).
Proof.
  intros Ho Hl. unfold prlfs_get_path_end.
  rewrite prepend_fits by lia. cbn [Z.eqb].
  rewrite (prepend_fits _ _ _ "/") by (change (strlen "/") with 1; lia).
  reflexivity.
Qed.

Lemma strlen_slash (s : string) : strlen ("/" ++ s) = 1 + strlen s.
Proof. apply strlen_cons. Qed.

(** The ancestry loop succeeds whenever the names fit. *)
Lemma walk_up_fits (fuelA : nat) : forall dc d below R,
  ancestor_names fuelA dc d below = Some R ->
  exists names,
    R = (names ++ below)%list
    /\ forall fuel p len text,
         strlen (slashed names) <= len ->
         (Z.to_nat len <= fuel)%nat ->
         walk_up fuel dc d p len text
         = Some (Done (buf_at (p - strlen (slashed names)),
                       len - strlen (slashed names),
                       slashed names ++ text)).
Proof.
  induction fuelA as [|f IH]; intros dc d below R; cbn [ancestor_names];
    [discriminate|].
  destruct (dc !! d) as [de|] eqn:Hd; [|discriminate].
  destruct (IS_ROOT d de) eqn:Hroot.
  - intros H. injection H as <-. exists []. split; [reflexivity|].
    intros fuel p len text _ _.
    destruct fuel; cbn [walk_up]; rewrite Hd, Hroot; cbn;
      now rewrite Z.sub_0_r, Z.sub_0_r.
  - intros H. apply IH in H as (names & -> & Hw).
    exists (names ++ [d_name de])%list. split.
    { now rewrite <- app_assoc. }
    intros fuel p len text Hlen Hfuel.
    rewrite slashed_app in *. cbn [slashed] in *.
    rewrite string_app_nil_r in *.
    rewrite strlen_app, strlen_slash in Hlen.
    assert (Hn : 0 <= strlen (slashed names))
      by (unfold strlen; lia).
    assert (Hm : 0 <= strlen (d_name de)) by (unfold strlen; lia).
    destruct fuel as [|fuel]; [lia|]. cbn [walk_up]. rewrite Hd, Hroot.
    assert (Hfit : (len <? strlen (d_name de) + 1) = false)
      by (apply Z.ltb_ge; lia).
    rewrite Hfit, Hw by lia.
    rewrite strlen_app, strlen_slash, !string_app_assoc.
    replace (p - strlen (d_name de) - 1 - strlen (slashed names))
      with (p - (strlen (slashed names) + (1 + strlen (d_name de)))) by lia.
    replace (len - (strlen (d_name de) + 1) - strlen (slashed names))
      with (len - (strlen (slashed names) + (1 + strlen (d_name de))))
      by lia.
    reflexivity.
Qed.

(** X3: [prlfs_get_path] is complete: when the dentry's own name is no
    longer than NAME_MAX and the composed path with its NUL fits the buffer,
    it returns that path, on every kernel version. *)
Theorem prlfs_get_path_complete sb dc d plen fuel names :
  ancestor_names fuel dc d [] = Some names ->
  (forall de, dc !! d = Some de -> strlen (d_name de) <= NAME_MAX) ->
  strlen (host_path sb names) + 1 <= plen ->
  prlfs_get_path cfg sb dc d plen
  = Done (buf_at (plen - 1 - strlen (host_path sb names)),
          host_path sb names,
          strnlen (host_path sb names) (PAGE_SIZE cfg - 1) + 1).
Proof.
  intros Ha Hname Hfit.
  assert (Hs : strlen (sbi_name sb) >= 0) by (unfold strlen; lia).
  assert (Hlen : strlen (host_path sb names)
                 = 1 + strlen (sbi_name sb)
                   + strlen (if bool_decide (names = []) then "/"
                             else slashed names)).
  { unfold host_path.
    change ("/" ++ sbi_name sb ++ "/" ++ join_slash names)
      with (String "/" (sbi_name sb ++ "/" ++ join_slash names)).
    rewrite strlen_cons, strlen_app. destruct names as [|m names].
    - rewrite bool_decide_true by reflexivity. cbn [join_slash].
      change ("/" ++ "") with "/". lia.
    - rewrite bool_decide_false by discriminate.
      rewrite slashed_join by discriminate. lia. }
  assert (Htext : "/" ++ sbi_name sb ++
                  (if bool_decide (names = []) then "/" else slashed names)
                  = host_path sb names).
  { unfold host_path. destruct names as [|m names]; [reflexivity|].
    rewrite bool_decide_false by discriminate.
    now rewrite slashed_join by discriminate. }
  assert (Hd : exists de, dc !! d = Some de).
  { destruct fuel; [discriminate|]. cbn in Ha.
    destruct (dc !! d); [eauto | discriminate]. }
  destruct Hd as (de & Hd). specialize (Hname de Hd).
  apply walk_up_fits in Ha as (names' & Hn & Hw).
  rewrite app_nil_r in Hn. subst names'.
  assert (Hsl : strlen (slashed names) >= 0) by (unfold strlen; lia).
  assert (Hsl' : strlen (slashed names)
                 <= strlen (if bool_decide (names = []) then "/"
                            else slashed names)).
  { destruct names.
    - rewrite bool_decide_true by reflexivity.
      change (strlen (slashed [])) with 0. change (strlen "/") with 1. lia.
    - rewrite bool_decide_false by discriminate. lia. }
  assert (Hdone : forall a b t n,
            a = b ->
            @Done (cptr * string * Z) (buf_at a, t, n) = Done (buf_at b, t, n))
    by (intros; subst; reflexivity).
  unfold prlfs_get_path.
  destruct (LINUX_VERSION_CODE cfg <? KERNEL_VERSION 2 6 38).
  - rewrite Hd.
    assert (H1 : (NAME_MAX <? strlen (d_name de)) = false)
      by (apply Z.ltb_ge; lia).
    assert (H2 : (plen <? 2) = false) by (apply Z.ltb_ge; lia).
    rewrite H1, H2. cbn [orb]. rewrite Hw by lia.
    rewrite string_app_nil_r, slashed_starts.
    destruct names as [|m names].
    + rewrite bool_decide_true in * by reflexivity. cbn [negb].
      change (strlen (slashed [])) with 0 in *.
      change (strlen "/") with 1 in *.
      rewrite prlfs_get_path_end_fits by lia.
      change ("/" ++ slashed []) with "/". rewrite Htext, Hlen.
      apply Hdone. lia.
    + rewrite bool_decide_false in * by discriminate. cbn [negb].
      rewrite prlfs_get_path_end_fits by lia.
      rewrite Htext, Hlen. apply Hdone. lia.
  - unfold dentry_path_raw.
    assert (H2 : (plen <? 1) = false) by (apply Z.ltb_ge; lia).
    rewrite H2, Hw by lia. rewrite string_app_nil_r, slashed_starts.
    destruct names as [|m names].
    + rewrite bool_decide_true in * by reflexivity. cbn [negb].
      change (strlen (slashed [])) with 0 in *.
      change (strlen "/") with 1 in *.
      assert (H3 : (plen - 1 - 0 <? 1) = false) by (apply Z.ltb_ge; lia).
      rewrite H3, prlfs_get_path_end_fits by lia.
      change ("/" ++ slashed []) with "/". rewrite Htext, Hlen.
      apply Hdone. lia.
    + rewrite bool_decide_false in * by discriminate. cbn [negb].
      rewrite prlfs_get_path_end_fits by lia.
      rewrite Htext, Hlen. apply Hdone. lia.
Qed.

Lemma walk_up_same_names (dc dc' : gmap positive dentry) (fuel : nat) :
  same_names dc dc' ->
  forall d p len text,
    walk_up fuel dc d p len text = walk_up fuel dc' d p len text.
Proof.
  intros Hs. induction fuel as [|f IH]; intros d p len text; cbn [walk_up];
    specialize (Hs d);
    destruct (dc !! d) as [de|], (dc' !! d) as [de'|]; try discriminate;
    try reflexivity;
    cbn in Hs; injection Hs as Hn Hp; unfold IS_ROOT; rewrite Hn, Hp;
    try reflexivity.
  destruct (Pos.eqb d (d_parent de')); [reflexivity|].
  destruct (len <? _); [reflexivity|]. apply IH.
Qed.

Lemma prlfs_get_path_same_names sb (dc dc' : gmap positive dentry) d plen :
  same_names dc dc' ->
  prlfs_get_path cfg sb dc d plen = prlfs_get_path cfg sb dc' d plen.
Proof.
  intros Hs. unfold prlfs_get_path, dentry_path_raw.
  rewrite !(walk_up_same_names dc dc' _ Hs).
  specialize (Hs d).
  destruct (dc !! d) as [de|], (dc' !! d) as [de'|]; try discriminate;
    try reflexivity.
  cbn in Hs. injection Hs as Hn Hp. now rewrite Hn.
Qed.

(** X4: no operation of the module changes the name or the parent of a
    dentry, or the share name: after any sequence of operations every
    dentry resolves to the same path, or fails to resolve in the same way,
    as before. *)
Theorem run_ops_keep_paths (l : list op) (w : world) (d : dptr) (plen : Z) :
  let w' := final_world (run_ops cfg hdr env l w) in
  prlfs_get_path cfg (sbi w') (dcache w') d plen
  = prlfs_get_path cfg (sbi w) (dcache w) d plen.
Proof.
  cbv zeta.
  assert (H : sbi (final_world (run_ops cfg hdr env l w)) = sbi w
              /\ same_names (dcache w)
                   (dcache (final_world (run_ops cfg hdr env l w)))).
  { apply (preserves_run_ops cfg hdr env
             (fun w' => sbi w' = sbi w /\ same_names (dcache w) (dcache w'))
             (fun f => forall de, d_name (f de) = d_name de
                                  /\ d_parent (f de) = d_parent de)
             (fun _ => True));
      try (intros; exact I); try (intros; assumption);
      try (intros; split; reflexivity).
    - intros f d' de' w' Hf Hd' (Hsb & Hs). split; [exact Hsb|].
      intros x. cbn [dcache set_dcache]. rewrite (Hs x).
      destruct (decide (d' = x)) as [->|Hne].
      + rewrite lookup_insert_eq, Hd'. cbn.
        now destruct (Hf de') as (-> & ->).
      + now rewrite lookup_insert_ne.
    - split; [reflexivity | intros x; reflexivity]. }
  destruct H as (-> & Hs). symmetry. now apply prlfs_get_path_same_names.
Qed.

(** ** Round trips to the host *)

Lemma sends_quiet {A} (m : kernel A) :
  (forall w, host_log (final_world (m w)) = host_log w) ->
  sends_at_most 0 m.
Proof. intros H w. exists []. split; [apply H | reflexivity]. Qed.

Lemma sends_weaken {A} (n n' : nat) (m : kernel A) :
  (n <= n')%nat -> sends_at_most n m -> sends_at_most n' m.
Proof.
  intros Hn H w. destruct (H w) as (l & Hl & Hlen). exists l.
  split; [exact Hl | lia].
Qed.

Lemma sends_bind {A B} (n1 n2 : nat) (m : kernel A) (k : A -> kernel B) :
  sends_at_most n1 m ->
  (forall a, sends_at_most n2 (k a)) ->
  sends_at_most (n1 + n2) (bind m k).
Proof.
  intros Hm Hk w. unfold bind. destruct (Hm w) as (l1 & H1 & Hl1).
  destruct (m w) as [a w1|w1]; cbn [final_world] in *.
  - destruct (Hk a w1) as (l2 & H2 & Hl2). exists (l2 ++ l1)%list.
    rewrite H2, H1, app_assoc, length_app. split; [reflexivity | lia].
  - exists l1. split; [exact H1 | lia].
Qed.

Lemma sends_host_request (r : host_req) :
  sends_at_most 1 (host_request env r).
Proof. intros w. exists [r]. split; reflexivity. Qed.

Lemma sends_get_inode mode : sends_at_most 0 (prlfs_get_inode env mode).
Proof.
  apply sends_quiet. intros w. unfold prlfs_get_inode, bind, kmalloc, ret.
  cbn [allocs set_allocs].
  destruct (kmalloc_ok env (allocs w)); reflexivity.
Qed.

Ltac quiet_step :=
  match goal with
  | |- sends_at_most 0 (ret _) => apply sends_quiet; reflexivity
  | |- sends_at_most 0 oops => apply sends_quiet; reflexivity
  | |- sends_at_most 0 get_world => apply sends_quiet; reflexivity
  | |- sends_at_most 0 (kmalloc _) => apply sends_quiet; reflexivity
  | |- sends_at_most 0 (kmalloc_prlfs_attr _) =>
      apply sends_quiet; reflexivity
  | |- sends_at_most 0 (read_dentry ?d) =>
      apply sends_quiet; intros w; unfold read_dentry;
      destruct (dcache w !! d); reflexivity
  | |- sends_at_most 0 (read_inode ?i) =>
      apply sends_quiet; intros w; unfold read_inode;
      destruct (icache w !! i); reflexivity
  | |- sends_at_most 0 (modify_dentry ?d _) =>
      apply sends_quiet; intros w; unfold modify_dentry;
      destruct (dcache w !! d); reflexivity
  | |- sends_at_most 0 (modify_inode ?i _) =>
      apply sends_quiet; intros w; unfold modify_inode;
      destruct (icache w !! i); reflexivity
  | |- sends_at_most 0 (get_path _ ?d) =>
      apply sends_quiet; intros w; unfold get_path;
      destruct (prlfs_get_path _ _ _ d _); reflexivity
  | |- sends_at_most 0 (prlfs_get_inode _ _) => apply sends_get_inode
  | |- sends_at_most 0 (bind _ _) => apply (sends_bind 0 0); [|intros]
  | |- sends_at_most 0 (if ?b then _ else _) => destruct b
  | |- sends_at_most 0 (match ?x with _ => _ end) => destruct x
  end.

Ltac quiet := repeat quiet_step.

Ltac one_request :=
  lazymatch goal with
  | |- sends_at_most 1 (host_request _ _) => apply sends_host_request
  | |- sends_at_most 1 (bind _ _) =>
      first [ solve [apply (sends_bind 0 1); [solve [quiet] | intros; one_request]]
            | solve [apply (sends_bind 1 0); [one_request | intros; solve [quiet]]] ]
  | |- sends_at_most 1 (if ?b then _ else _) => destruct b; one_request
  | |- sends_at_most 1 (match ?x with _ => _ end) => destruct x; one_request
  | |- sends_at_most 1 _ =>
      apply (sends_weaken 0 1); [lia | solve [quiet]]
  end.

Lemma sends_mknod d mode : sends_at_most 0 (prlfs_mknod env d mode).
Proof. unfold prlfs_mknod. quiet. Qed.

Lemma sends_inode_setattr i attr :
  sends_at_most 0 (prlfs_inode_setattr cfg env i attr).
Proof. unfold prlfs_inode_setattr. quiet. Qed.

Lemma sends_i_revalidate d :
  sends_at_most 1 (prlfs_i_revalidate cfg hdr env d).
Proof.
  unfold prlfs_i_revalidate, do_prlfs_getattr, PRLFS_STD_INODE. one_request.
Qed.

Lemma sends_run_op (o : op) : sends_at_most 1 (run_op cfg hdr env o).
Proof.
  destruct o; cbn [run_op].
  - unfold prlfs_lookup, do_prlfs_getattr, PRLFS_STD_INODE. one_request.
  - unfold prlfs_create, prlfs_inode_open, PRLFS_STD_INODE.
    apply (sends_bind 1 0); [one_request | intros r].
    destruct (r =? 0); [apply sends_mknod | quiet].
  - unfold prlfs_mkdir, prlfs_inode_open, PRLFS_STD_INODE.
    apply (sends_bind 1 0); [one_request | intros r].
    destruct (r =? 0); [apply sends_mknod | quiet].
  - unfold prlfs_symlink, PRLFS_STD_INODE.
    apply (sends_bind 0 1); [quiet | intros buf].
    destruct (negb buf); [one_request|].
    apply (sends_bind 0 1); [quiet | intros [[[p|e] text] n]]; [|one_request].
    apply (sends_bind 1 0); [one_request | intros r].
    destruct (hr_ret r =? 0); [apply sends_mknod | quiet].
  - unfold prlfs_unlink, prlfs_delete, PRLFS_STD_INODE. one_request.
  - unfold prlfs_rmdir, prlfs_delete, PRLFS_STD_INODE. one_request.
  - unfold prlfs_rename, __prlfs_rename, PRLFS_STD_INODE.
    destruct (_ && _); one_request.
  - unfold prlfs_setattr, PRLFS_STD_INODE.
    apply (sends_bind 0 1); [quiet | intros buf].
    destruct (negb buf); [one_request|].
    apply (sends_bind 0 1); [quiet | intros [[[p|e] text] n]]; [|one_request].
    apply (sends_bind 0 1); [quiet | intros pattr].
    destruct (negb pattr); [one_request|].
    destruct (attr_to_pattr hdr attr) as [r pa]. destruct (r <? 0); [one_request|].
    apply (sends_bind 0 1); [quiet | intros de].
    destruct (negb _); [one_request|].
    apply (sends_bind 1 0); [one_request | intros h].
    apply (sends_bind 0 0); [|intros; quiet].
    destruct (hr_ret h =? 0); [apply sends_inode_setattr | quiet].
  - unfold prlfs_getattr, __prlfs_getattr.
    apply (sends_bind 1 0); [|intros [r st]; quiet].
    apply (sends_bind 0 1); [quiet | intros de].
    destruct (negb _); [one_request|].
    apply (sends_bind 1 0); [apply sends_i_revalidate | intros r].
    quiet.
  - unfold prlfs_d_revalidate.
    apply (sends_bind 1 0); [apply sends_i_revalidate | intros; quiet].
  - apply (sends_weaken 0 1); [lia|]. apply sends_quiet. reflexivity.
Qed.

(** X5: an operation sends at most one request to the host and never
    removes one from the log: no operation retries a request.  A sequence
    of operations sends at most as many requests as it has operations. *)
Theorem run_ops_send_at_most_one_each :
  (forall o : op, sends_at_most 1 (run_op cfg hdr env o))
  /\ (forall l : list op,
        sends_at_most (List.length l) (run_ops cfg hdr env l)).
Proof.
  split; [apply sends_run_op|]. intros l.
  induction l as [|o l IH]; cbn [run_ops List.length].
  - apply sends_quiet. reflexivity.
  - apply (sends_bind 1 (List.length l)); [apply sends_run_op | intros; exact IH].
Qed.

(** ** Lookup *)

Ltac red_world :=
  cbv beta iota;
  cbn [allocs set_allocs host_log set_host_log dcache set_dcache icache
       set_icache sbi jiffies set_jiffies last_ino set_last_ino current_time
       current_cred fst snd negb final_world returned].

Ltac red_world_in H :=
  cbv beta iota in H;
  cbn [allocs set_allocs host_log set_host_log dcache set_dcache icache
       set_icache sbi jiffies set_jiffies last_ino set_last_ino current_time
       current_cred fst snd negb final_world returned] in H.

Ltac world_eq :=
  unfold set_dcache, set_icache, set_host_log, set_allocs, set_jiffies,
    set_last_ino;
  cbn [allocs host_log dcache icache sbi jiffies last_ino current_time
       current_cred];
  rewrite ?insert_insert_eq; reflexivity.

(** X6: when the host answers a lookup with -ENOENT, the lookup succeeds
    with a negative entry: no inode is attached, no inode is created, and
    the entry is stamped with the current time.  The stamp buys nothing: a
    revalidation of an entry without inode reports it invalid at once,
    without asking the host and whatever the time to live. *)
Theorem lookup_enoent_negative_entry (w : world) (d : dptr) (de : dentry)
    (p : Z) (text : string) (buflen : Z) :
  kmalloc_ok env (allocs w) = true ->
  kmalloc_ok env (S (allocs w)) = true ->
  prlfs_get_path cfg (sbi w) (dcache w) d PATH_MAX
    = Done (buf_at p, text, buflen) ->
  dcache w !! d = Some de ->
  let req := req_attr text buflen
               (init_buffer_descriptor cfg hdr (PATTR_STRUCT_SIZE hdr) 1 0)
               (kmalloc_attr env (allocs w)) in
  hr_ret (host env (List.length (host_log w)) req) = - ENOENT ->
  let w' := set_dcache
              (insert d (with_d_inode None (with_d_time (jiffies w) de)))
              (set_host_log (req :: host_log w)
                 (set_allocs (S (S (allocs w))) w)) in
  prlfs_lookup cfg hdr env d w = Ret 0 w'
  /\ icache w' = icache w
  /\ prlfs_d_revalidate cfg hdr env (Some d) w' = Ret 0 w'.
Proof.
  intros Hk1 Hk2 Hp Hd req Hr w'. split; [|split; [reflexivity|]].
  - unfold prlfs_lookup, bind at 1, kmalloc_prlfs_attr. rewrite Hk1.
    red_world. unfold bind at 1.
    rewrite (do_prlfs_getattr_resolved cfg hdr env (set_allocs (S (allocs w)) w) d _ p text buflen Hk2 Hp).
    red_world. fold req. rewrite Hr.
    change (- ENOENT <? 0) with true.
    rewrite Z.eqb_refl. red_world. cbn [andb].
    unfold bind, ret, get_world, modify_dentry. red_world.
    rewrite Hd. red_world. rewrite lookup_insert_eq. red_world.
    subst w'. world_eq.
  - unfold prlfs_d_revalidate, prlfs_i_revalidate, bind, read_dentry.
    subst w'. red_world. rewrite lookup_insert_eq. reflexivity.
Qed.

Lemma bind_Ret {A B} (m : kernel A) (k : A -> kernel B) (w : world) (b : B)
    (w' : world) :
  bind m k w = Ret b w' ->
  exists a w1, m w = Ret a w1 /\ k a w1 = Ret b w'.
Proof.
  unfold bind. destruct (m w) as [a w1|w1]; [|congruence].
  intros H. exists a, w1. split; [reflexivity | exact H].
Qed.

Ltac inv_bind H :=
  let a := fresh "a" in
  let w := fresh "w" in
  let Hm := fresh "Hm" in
  apply bind_Ret in H; destruct H as (a & w & Hm & H).

(** X7: a lookup that fails leaves every dentry and every inode as it
    was, and it never fails with -ENOENT: that answer of the host is turned
    into a successful lookup of a negative entry. *)
Theorem lookup_error_leaves_caches (w : world) (d : dptr) (r : Z)
    (w' : world) :
  prlfs_lookup cfg hdr env d w = Ret r w' ->
  r < 0 ->
  r <> - ENOENT /\ dcache w' = dcache w /\ icache w' = icache w.
Proof.
  intros H Hneg. unfold prlfs_lookup, bind at 1, kmalloc_prlfs_attr in H.
  destruct (kmalloc_ok env (allocs w)); red_world_in H.
  2:{ injection H as <- <-. repeat split. unfold ENOMEM, ENOENT. lia. }
  inv_bind H. destruct a as [r0 attr].
  assert (Hw : dcache w0 = dcache w /\ icache w0 = icache w).
  { unfold do_prlfs_getattr in Hm. rewrite PRLFS_STD_INODE_eq in Hm.
    cbv zeta in Hm. red_world_in Hm.
    destruct (kmalloc_ok env (S (allocs w)));
      [destruct (prlfs_get_path cfg (sbi w) (dcache w) d PATH_MAX)
         as [[[[p|e] text] buflen]|]|];
      try discriminate Hm; injection Hm as _ _ <-; split; reflexivity. }
  destruct ((r0 <? 0) && negb (r0 =? - ENOENT)) eqn:Hc.
  - injection H as <- <-. apply andb_prop in Hc as [_ Hne].
    apply negb_true_iff, Z.eqb_neq in Hne. tauto.
  - exfalso. inv_bind H. destruct a as [r1 inode].
    assert (Hr1 : 0 <= r1).
    { destruct (r0 <? 0) eqn:Hlt.
      - injection Hm0 as <- _ _. lia.
      - apply Z.ltb_ge in Hlt. inv_bind Hm0.
        destruct a as [i|].
        + do 2 inv_bind Hm0. injection Hm0 as <- _ _. exact Hlt.
        + injection Hm0 as <- _ _. exact Hlt. }
    do 3 inv_bind H. injection H as <- _. lia.
Qed.

Lemma modify_dentry_Ret (d : dptr) (f : dentry -> dentry) (w : world)
    (u : unit) (w' : world) :
  modify_dentry d f w = Ret u w' ->
  exists de, dcache w !! d = Some de /\ w' = set_dcache (insert d (f de)) w.
Proof.
  unfold modify_dentry. destruct (dcache w !! d) as [de|]; [|congruence].
  intros H. injection H as _ <-. now exists de.
Qed.

Lemma modify_inode_Ret (i : iptr) (f : inode -> inode) (w : world)
    (u : unit) (w' : world) :
  modify_inode i f w = Ret u w' ->
  exists ino, icache w !! i = Some ino
              /\ w' = set_icache (insert i (f ino)) w.
Proof.
  unfold modify_inode. destruct (icache w !! i) as [ino|]; [|congruence].
  intros H. injection H as _ <-. now exists ino.
Qed.

Lemma read_dentry_Ret (d : dptr) (w : world) (de : dentry) (w' : world) :
  read_dentry d w = Ret de w' -> dcache w !! d = Some de /\ w' = w.
Proof.
  unfold read_dentry. destruct (dcache w !! d); [|congruence].
  intros H. injection H as <- <-. now split.
Qed.

Lemma read_inode_Ret (i : iptr) (w : world) (ino : inode) (w' : world) :
  read_inode i w = Ret ino w' -> icache w !! i = Some ino /\ w' = w.
Proof.
  unfold read_inode. destruct (icache w !! i); [|congruence].
  intros H. injection H as <- <-. now split.
Qed.

(** What [PRLFS_STD_INODE] with one request in its body leaves behind:
    nothing but the allocation count and the log differ. *)
Lemma do_prlfs_getattr_Ret (d : dptr) (attr : prlfs_attr) (w : world)
    (ra : Z * prlfs_attr) (w' : world) :
  do_prlfs_getattr cfg hdr env d attr w = Ret ra w' ->
  only_bookkeeping w w'.
Proof.
  unfold do_prlfs_getattr. rewrite PRLFS_STD_INODE_eq. cbv zeta.
  destruct (kmalloc_ok env (allocs w));
    [destruct (prlfs_get_path cfg (sbi w) (dcache w) d PATH_MAX)
       as [[[[p|e] text] buflen]|]|];
    intros H; try discriminate H; injection H as _ <-;
    repeat split; reflexivity.
Qed.

Lemma prlfs_get_inode_Ret (mode : Z) (w : world) (o : option iptr)
    (w' : world) :
  prlfs_get_inode env mode w = Ret o w' ->
  dcache w' = dcache w /\ sbi w' = sbi w /\ jiffies w' = jiffies w
  /\ match o with
     | Some i => icache w !! i = None
                 /\ exists ino, icache w' = <[i := ino]> (icache w)
     | None => icache w' = icache w
     end.
Proof.
  unfold prlfs_get_inode, bind, kmalloc, ret.
  destruct (kmalloc_ok env (allocs w)); cbn [negb];
    intros H; injection H as <- <-; cbn; repeat split.
  - apply not_elem_of_dom, is_fresh.
  - eexists. reflexivity.
Qed.

Lemma lookup_success_shape (w : world) (d : dptr) (r : Z) (w' : world) :
  prlfs_lookup cfg hdr env d w = Ret r w' ->
  0 <= r ->
  jiffies w' = jiffies w /\ sbi w' = sbi w
  /\ exists de', dcache w' !! d = Some de'
       /\ d_time de' = jiffies w
       /\ forall i, d_inode de' = Some i ->
                    exists ino, icache w' !! i = Some ino.
Proof.
  intros H Hr. unfold prlfs_lookup, bind at 1, kmalloc_prlfs_attr in H.
  destruct (kmalloc_ok env (allocs w)); red_world_in H.
  2:{ injection H as <- _. unfold ENOMEM in Hr. lia. }
  inv_bind H. destruct a as [r0 attr].
  apply do_prlfs_getattr_Ret in Hm.
  destruct Hm as (Hdc & Hic & Hsb & Hj & _). red_world_in Hdc.
  red_world_in Hic. red_world_in Hsb. red_world_in Hj.
  destruct ((r0 <? 0) && negb (r0 =? - ENOENT)) eqn:Hc.
  { injection H as <- _. apply andb_prop in Hc as [Hlt _].
    apply Z.ltb_lt in Hlt. lia. }
  inv_bind H. destruct a as [r1 inode].
  assert (Hw1 : jiffies w1 = jiffies w /\ sbi w1 = sbi w
                /\ dcache w1 = dcache w
                /\ forall i, inode = Some i ->
                             exists ino, icache w1 !! i = Some ino).
  { destruct (r0 <? 0).
    - injection Hm as _ <- <-. repeat split; try assumption. congruence.
    - inv_bind Hm. destruct a as [i|].
      + apply prlfs_get_inode_Ret in Hm0.
        destruct Hm0 as (Hdc2 & Hsb2 & Hj2 & _ & ino & Hic2).
        inv_bind Hm. injection Hm0 as <- <-. inv_bind Hm.
        apply modify_inode_Ret in Hm0 as (ino' & Hi' & ->).
        injection Hm as _ <- <-. red_world.
        repeat split; try congruence.
        intros i' Hi. injection Hi as <-. rewrite lookup_insert_eq. eauto.
      + apply prlfs_get_inode_Ret in Hm0.
        destruct Hm0 as (Hdc2 & Hsb2 & Hj2 & _).
        injection Hm as _ <- <-. repeat split; congruence. }
  destruct Hw1 as (Hj1 & Hsb1 & Hdc1 & Hi1).
  inv_bind H. injection Hm0 as <- <-. inv_bind H.
  apply modify_dentry_Ret in Hm0 as (de1 & Hd1 & ->). inv_bind H.
  apply modify_dentry_Ret in Hm0 as (de2 & Hd2 & ->).
  injection H as _ <-. red_world. red_world_in Hd2.
  rewrite lookup_insert_eq in Hd2. injection Hd2 as <-.
  repeat split; try assumption.
  eexists. rewrite lookup_insert_eq. split; [reflexivity|].
  split; [exact Hj1|]. exact Hi1.
Qed.

(** ** Remove *)

Lemma prlfs_delete_Ret (d : dptr) (w : world) (r : Z) (w' : world) :
  prlfs_delete cfg env d w = Ret r w' -> only_bookkeeping w w'.
Proof.
  unfold prlfs_delete. rewrite PRLFS_STD_INODE_eq. cbv zeta.
  destruct (kmalloc_ok env (allocs w));
    [destruct (prlfs_get_path cfg (sbi w) (dcache w) d PATH_MAX)
       as [[[[p|e] text] buflen]|]|];
    intros H; try discriminate H; injection H as _ <-;
    repeat split; reflexivity.
Qed.

Lemma remove_outcome (w : world) (d : dptr) (r : Z) (w' : world) :
  to_int (PRL_DFL_UNLINKED hdr) <> 0 ->
  prlfs_unlink cfg hdr env d w = Ret r w' ->
  icache w' = icache w
  /\ (r <> 0 -> dcache w' = dcache w)
  /\ (r = 0 ->
      tombstoned hdr w' d
      /\ forall stat,
           __prlfs_getattr cfg hdr env d stat w' = Ret (- ESTALE, stat) w').
Proof.
  intros Hbit H. unfold prlfs_unlink in H. inv_bind H.
  apply prlfs_delete_Ret in Hm. destruct Hm as (Hdc & Hic & _).
  destruct (a =? 0) eqn:Ha.
  - apply Z.eqb_eq in Ha. subst a. inv_bind H.
    apply modify_dentry_Ret in Hm as (de & Hde & ->).
    injection H as <- <-. red_world.
    split; [exact Hic|]. split; [congruence|]. intros _.
    assert (Hc : check_dentry hdr
                   (with_d_fsdata
                      (Z.lor (prlfs_dfl de) (PRL_DFL_UNLINKED hdr)) de) <> 0).
    { unfold check_dentry, prlfs_dfl. cbn [d_fsdata with_d_fsdata].
      rewrite land_lor_mask. exact Hbit. }
    split.
    + eexists. red_world. rewrite lookup_insert_eq. split; [reflexivity|].
      exact Hc.
    + intros stat. unfold __prlfs_getattr, bind, read_dentry. red_world.
      rewrite lookup_insert_eq. apply Z.eqb_neq in Hc. rewrite Hc.
      reflexivity.
  - apply Z.eqb_neq in Ha. injection H as <- <-.
    split; [exact Hic|]. split; [intros _; exact Hdc | congruence].
Qed.

(** X9: unlink and rmdir set the unlinked mark exactly when the host
    reports success.  After a remove that returned 0 the entry carries the
    mark, so a get-attributes through it returns -ESTALE without asking the
    host; after a remove that returned anything else no dentry has changed.
    No remove touches an inode.  (The bit of the mark must lie in the low
    32 bits, which [check_dentry] keeps.) *)
Theorem remove_marks_iff_host_ok (w : world) (d : dptr) (r : Z)
    (w' : world) :
  to_int (PRL_DFL_UNLINKED hdr) <> 0 ->
  prlfs_unlink cfg hdr env d w = Ret r w'
  \/ prlfs_rmdir cfg hdr env d w = Ret r w' ->
  icache w' = icache w
  /\ (r <> 0 -> dcache w' = dcache w)
  /\ (r = 0 ->
      tombstoned hdr w' d
      /\ forall stat,
           __prlfs_getattr cfg hdr env d stat w' = Ret (- ESTALE, stat) w').
Proof.
  intros Hbit [H|H]; exact (remove_outcome w d r w' Hbit H).
Qed.

(** ** Create, mkdir and symlink *)

Lemma prlfs_inode_open_Ret (d : dptr) (mode : Z) (w : world) (r : Z)
    (w' : world) :
  prlfs_inode_open cfg env d mode w = Ret r w' -> only_bookkeeping w w'.
Proof.
  unfold prlfs_inode_open. rewrite PRLFS_STD_INODE_eq. cbv zeta.
  destruct (kmalloc_ok env (allocs w));
    [destruct (prlfs_get_path cfg (sbi w) (dcache w) d PATH_MAX)
       as [[[[p|e] text] buflen]|]|];
    intros H; try discriminate H; injection H as _ <-;
    repeat split; reflexivity.
Qed.

Lemma prlfs_mknod_makes_node (d : dptr) (mode : Z) :
  makes_node (prlfs_mknod env d mode) d mode.
Proof.
  intros w r w' H. unfold prlfs_mknod in H. inv_bind H.
  apply modify_dentry_Ret in Hm as (de & Hde & ->). inv_bind H.
  destruct a0 as [i|].
  - inv_bind H. injection H as <- <-.
    apply modify_dentry_Ret in Hm0 as (de' & Hde' & ->).
    split; [intros _ | congruence].
    unfold prlfs_get_inode, bind, kmalloc, ret in Hm. red_world_in Hm.
    destruct (kmalloc_ok env (allocs w)); cbn [negb] in Hm; [|congruence].
    injection Hm as <- <-. red_world_in Hde'. red_world.
    rewrite lookup_insert_eq in Hde'. injection Hde' as <-.
    exists de, (fresh (dom (icache w))). eexists.
    split; [exact Hde|]. split; [apply not_elem_of_dom, is_fresh|].
    split; [now rewrite insert_insert_eq|].
    split; [reflexivity|]. split; [reflexivity|]. split; [reflexivity|].
    unfold kind_of. cbn [i_op].
    repeat split; intros Hk; rewrite Hk; reflexivity.
  - injection H as <- <-. split; [intros Habs; unfold ENOSPC in Habs; lia | intros _].
    apply prlfs_get_inode_Ret in Hm as (Hdc & _ & _ & Hic).
    red_world_in Hdc. red_world_in Hic. split; [exact Hic|].
    intros x. rewrite Hdc. destruct (decide (d = x)) as [<-|Hne].
    + rewrite lookup_insert_eq, Hde. reflexivity.
    + now rewrite lookup_insert_ne.
Qed.

Lemma makes_node_after {A} (m : kernel A) (k : A -> kernel Z) (d : dptr)
    (mode : Z) :
  (forall w a w', m w = Ret a w' -> only_bookkeeping w w') ->
  (forall a, makes_node (k a) d mode
             \/ exists r, r <> 0 /\ k a = ret r) ->
  makes_node (bind m k) d mode.
Proof.
  intros Hm Hk w r w' H. inv_bind H.
  destruct (Hm _ _ _ Hm0) as (Hdc & Hic & _).
  destruct (Hk a) as [Hn|(r' & Hr' & Hret)].
  - rewrite <- Hdc, <- Hic. exact (Hn _ _ _ H).
  - rewrite Hret in H. injection H as <- <-. split; [congruence|].
    intros _. split; [exact Hic | intros x; now rewrite Hdc].
Qed.

(** X10: create, mkdir and symlink attach an inode only when the host
    accepted the request and the inode could be allocated.  When they
    return 0, the entry has a newly allocated inode of the requested mode
    (with the file-type bit of the operation) and of size 0, with the
    operations of a directory, a regular file or a symlink when that is its
    kind; no other entry or inode has changed, and the entry's stamp is 0,
    so that the first get-attributes asks the host.  When they return an error, no inode was
    created and no entry points to another inode than before, also when
    the host had already made the file (-ENOSPC).  For a [mode] without
    file-type bits the kind is that of the operation. *)
Theorem create_mkdir_symlink_make_node (d : dptr) (mode : Z)
    (symname : string) :
  makes_node (prlfs_create cfg env d mode) d (Z.lor mode S_IFREG)
  /\ makes_node (prlfs_mkdir cfg env d mode) d (Z.lor mode S_IFDIR)
  /\ makes_node (prlfs_symlink cfg env d symname) d S_IFLNK
  /\ (kind_of mode = 0 ->
      kind_of (Z.lor mode S_IFREG) = S_IFREG
      /\ kind_of (Z.lor mode S_IFDIR) = S_IFDIR)
  /\ kind_of S_IFLNK = S_IFLNK.
Proof.
  split; [|split; [|split; [|split; [|reflexivity]]]];
    [| | |unfold kind_of; intros Hk;
          rewrite !Z.land_lor_distr_l, Hk; split; reflexivity].
  - unfold prlfs_create. apply makes_node_after.
    + apply prlfs_inode_open_Ret.
    + intros r. destruct (r =? 0) eqn:Hr.
      * left. apply prlfs_mknod_makes_node.
      * right. exists r. split; [now apply Z.eqb_neq | reflexivity].
  - unfold prlfs_mkdir. apply makes_node_after.
    + apply prlfs_inode_open_Ret.
    + intros r. destruct (r =? 0) eqn:Hr.
      * left. apply prlfs_mknod_makes_node.
      * right. exists r. split; [now apply Z.eqb_neq | reflexivity].
  - intros w r w' H. unfold prlfs_symlink in H.
    rewrite PRLFS_STD_INODE_eq in H. cbv zeta in H.
    assert (Hfail : forall e n, e <> 0 ->
              Ret e (set_allocs n w) = Ret r w' ->
              (r = 0 -> exists de i ino,
                 dcache w !! d = Some de /\ icache w !! i = None
                 /\ dcache w'
                    = <[d := with_d_inode (Some i) (with_d_time 0 de)]>
                        (dcache w)
                 /\ icache w' = <[i := ino]> (icache w)
                 /\ i_mode ino = umode_t S_IFLNK /\ i_size ino = 0
                 /\ (kind_of S_IFLNK = S_IFDIR -> i_op ino = prlfs_dir_iops)
                 /\ (kind_of S_IFLNK = S_IFREG
                     -> i_op ino = prlfs_file_iops)
                 /\ (kind_of S_IFLNK = S_IFLNK
                     -> i_op ino = prlfs_symlink_iops))
              /\ (r <> 0 -> icache w' = icache w
                  /\ forall x, d_inode <$> dcache w' !! x
                               = d_inode <$> dcache w !! x)).
    { intros e n He Heq. injection Heq as <- <-.
      split; [congruence | intros _; split; reflexivity]. }
    destruct (kmalloc_ok env (allocs w));
      [|apply (Hfail (- ENOMEM) (S (allocs w))); [unfold ENOMEM; lia | exact H]].
    destruct (prlfs_get_path cfg (sbi w) (dcache w) d PATH_MAX)
      as [[[[p|e] text] buflen]|] eqn:Hp; [| |discriminate H].
    + inv_bind H. injection Hm as <- <-.
      destruct (hr_ret _ =? 0) eqn:Hr in H.
      * exact (prlfs_mknod_makes_node d S_IFLNK _ _ _ H).
      * apply Z.eqb_neq in Hr. injection H as <- <-.
        split; [congruence | intros _; split; reflexivity].
    + apply (Hfail e (S (allocs w))); [|exact H].
      apply prlfs_get_path_err in Hp. subst e. unfold ENAMETOOLONG. lia.
Qed.

(** ** Set-attributes *)

(** X11: a set-attributes that reaches the host (buffers allocated, path
    resolved, no unlinked mark) sends exactly one request: the translated
    attributes in a buffer that the host may not write to (write flag 0).
    Whatever the host answers, the
    entry's stamp is reset, so that the next get-attributes asks the host
    again; when the host refuses, its status is returned and no inode has
    changed. *)
Theorem setattr_sends_and_invalidates (w : world) (d : dptr) (attr : iattr)
    (de : dentry) (p : Z) (text : string) (buflen : Z) (r : Z) (w' : world) :
  kmalloc_ok env (allocs w) = true ->
  kmalloc_ok env (S (allocs w)) = true ->
  prlfs_get_path cfg (sbi w) (dcache w) d PATH_MAX
    = Done (buf_at p, text, buflen) ->
  dcache w !! d = Some de ->
  check_dentry hdr de = 0 ->
  prlfs_setattr cfg hdr env d attr w = Ret r w' ->
  let req := req_attr text buflen
               (init_buffer_descriptor cfg hdr (PATTR_STRUCT_SIZE hdr) 0 0)
               (snd (attr_to_pattr hdr attr)) in
  let status := hr_ret (host env (List.length (host_log w)) req) in
  host_log w' = req :: host_log w
  /\ bd_write (init_buffer_descriptor cfg hdr (PATTR_STRUCT_SIZE hdr) 0 0) = 0
  /\ (exists de', dcache w' !! d = Some de' /\ d_time de' = 0
                  /\ forall now, within_ttl cfg now de' = false)
  /\ (status <> 0 -> r = status /\ icache w' = icache w).
Proof.
  intros Hk1 Hk2 Hp Hd Hc H req status.
  unfold prlfs_setattr in H. rewrite PRLFS_STD_INODE_eq, Hk1, Hp in H.
  cbv zeta in H. unfold bind at 1, kmalloc in H. red_world_in H.
  rewrite Hk2 in H. red_world_in H.
  destruct (attr_to_pattr hdr attr) as [r0 pattr] eqn:Hat.
  pose proof (attr_to_pattr_ret hdr attr) as Hr0. rewrite Hat in Hr0.
  cbn [fst] in Hr0. subst r0. cbn [Z.ltb Z.compare] in H.
  unfold bind at 1, read_dentry in H. red_world_in H. rewrite Hd, Hc in H.
  cbn [Z.eqb negb] in H. unfold bind at 1, host_request in H.
  red_world_in H. cbn [snd] in req. fold req in H. fold status in H.
  split; [|split; [reflexivity|]].
  - inv_bind H. inv_bind H. apply modify_dentry_Ret in Hm0 as (de1 & _ & ->).
    injection H as _ <-. red_world.
    destruct (status =? 0).
    + unfold prlfs_inode_setattr in Hm. destruct (d_inode de) as [i|];
        [|discriminate Hm].
      inv_bind Hm. apply read_inode_Ret in Hm0 as (_ & ->).
      repeat match type of Hm with
             | context [if ?b then _ else _] => destruct b
             end;
        try (inv_bind Hm; apply modify_inode_Ret in Hm0 as (? & _ & ->));
        injection Hm as _ <-; reflexivity.
    + injection Hm as _ <-. reflexivity.
  - inv_bind H. inv_bind H.
    apply modify_dentry_Ret in Hm0 as (de1 & Hd1 & ->).
    injection H as Hr <-. red_world. split.
    + eexists. rewrite lookup_insert_eq. split; [reflexivity|].
      split; [reflexivity|]. intros now. reflexivity.
    + intros Hs. apply Z.eqb_neq in Hs. rewrite Hs in Hm.
      injection Hm as <- <-. split; [symmetry; exact Hr | reflexivity].
Qed.

(** ** Revalidation *)

Lemma ulong_zero : ulong cfg 0 = 0.
Proof.
  unfold ulong. apply Z.mod_0_l.
  unfold BITS_PER_LONG. destruct (CONFIG_64BIT cfg); lia.
Qed.

(** X12: a revalidation that fails with anything but -EIO (no entry, no
    inode, no memory, a path that does not resolve, an error of the host)
    leaves every dentry and every inode as it was: the cached attributes
    and the stamp survive a failed refresh. *)
Theorem revalidate_error_leaves_caches (d : option dptr) (w : world)
    (r : Z) (w' : world) :
  prlfs_i_revalidate cfg hdr env d w = Ret r w' ->
  r < 0 ->
  r <> - EIO ->
  dcache w' = dcache w /\ icache w' = icache w.
Proof.
  intros H Hneg Hio. unfold prlfs_i_revalidate in H.
  destruct d as [d|]; [|injection H as _ <-; now split].
  inv_bind H. apply read_dentry_Ret in Hm as (Hd & ->).
  destruct (d_inode a) as [inode|]; [|injection H as _ <-; now split].
  inv_bind H. injection Hm as <- <-.
  destruct (within_ttl cfg w a); [injection H as _ <-; now split|].
  inv_bind H. unfold kmalloc_prlfs_attr in Hm. injection Hm as <- <-.
  destruct (kmalloc_ok env (allocs w)); [|injection H as _ <-; now split].
  inv_bind H. destruct a0 as [r0 attr].
  apply do_prlfs_getattr_Ret in Hm as (Hdc & Hic & _).
  red_world_in Hdc. red_world_in Hic.
  destruct (r0 <? 0) eqn:Hr0; [injection H as _ <-; now split|].
  exfalso. apply Z.ltb_ge in Hr0.
  inv_bind H. inv_bind H. inv_bind H. inv_bind H. injection H as <- _.
  destruct (test _ _).
  - inv_bind Hm1. injection Hm1 as <- _. congruence.
  - inv_bind Hm1. injection Hm1 as <- _. lia.
Qed.

(** X13: a revalidation that succeeded makes the entry fresh: a second
    revalidation at the same clock value returns 0 in an unchanged state,
    so without a request, whether the first one was answered from the cache
    or by the host (the time to live is not 0; a stamp of 0 reads as
    unknown, so the clock value 0 is excepted). *)
Theorem revalidate_twice_asks_once (d : dptr) (w : world) (r : Z)
    (w' : world) :
  prlfs_i_revalidate cfg hdr env (Some d) w = Ret r w' ->
  0 <= r ->
  jiffies w <> 0 ->
  0 < sbi_ttl (sbi w) ->
  prlfs_i_revalidate cfg hdr env (Some d) w' = Ret 0 w'.
Proof.
  intros H Hr Hj Httl. pose proof H as H0.
  unfold prlfs_i_revalidate in H.
  inv_bind H. apply read_dentry_Ret in Hm as (Hd & ->).
  destruct (d_inode a) as [inode|] eqn:Hi;
    [|injection H as <- _; unfold ENOENT in Hr; lia].
  inv_bind H. injection Hm as <- <-.
  destruct (within_ttl cfg w a) eqn:Hfresh.
  { injection H as _ <-.
    exact (prlfs_i_revalidate_fresh cfg hdr env w d a inode Hd Hi Hfresh). }
  inv_bind H. unfold kmalloc_prlfs_attr in Hm. injection Hm as <- <-.
  destruct (kmalloc_ok env (allocs w));
    [|injection H as <- _; unfold ENOMEM in Hr; lia].
  inv_bind H. destruct a0 as [r0 attr].
  apply do_prlfs_getattr_Ret in Hm as (Hdc & Hic & Hsb & Hjw & _).
  red_world_in Hdc. red_world_in Hic. red_world_in Hsb. red_world_in Hjw.
  destruct (r0 <? 0) eqn:Hr0.
  { injection H as <- _. apply Z.ltb_lt in Hr0. lia. }
  inv_bind H. apply read_inode_Ret in Hm as (_ & ->).
  inv_bind H. injection Hm as <- <-. inv_bind H. inv_bind H.
  apply modify_dentry_Ret in Hm0 as (de1 & Hd1 & ->).
  injection H as _ <-.
  assert (Hw1 : dcache w1 !! d = Some a /\ sbi w1 = sbi w
                /\ jiffies w1 = jiffies w0).
  { destruct (test _ _); inv_bind Hm;
      apply modify_inode_Ret in Hm0 as (? & _ & ->);
      injection Hm as _ <-; red_world; repeat split; congruence. }
  destruct Hw1 as (Hd2 & Hsb1 & Hj1).
  rewrite Hd1 in Hd2. injection Hd2 as ->.
  apply (prlfs_i_revalidate_fresh cfg hdr env _ d
           (with_d_time (jiffies w0) a) inode).
  - red_world. now rewrite lookup_insert_eq.
  - exact Hi.
  - unfold within_ttl. red_world. cbn [d_time with_d_time].
    rewrite Hj1, Z.sub_diag, ulong_zero, Hjw, Hsb1.
    apply Z.eqb_neq in Hj. rewrite Hj.
    apply Z.ltb_lt in Httl. rewrite Httl. reflexivity.
Qed.

(** ** Time and kind *)

(** X14: the freshness test is safe against the wrap-around of the clock:
    an entry stamped at a nonzero clock value is fresh [n] ticks later
    exactly when [n] is below the time to live, also when the counter of
    jiffies has wrapped in between ([n] below the range of the counter). *)
Theorem freshness_survives_wraparound (w : world) (de : dentry) (n : Z) :
  d_time de = jiffies w ->
  jiffies w <> 0 ->
  0 <= n < 2 ^ BITS_PER_LONG cfg ->
  within_ttl cfg (final_world (run_op cfg hdr env (op_tick n) w)) de
  = (n <? sbi_ttl (sbi w)).
Proof.
  intros Ht Hj Hn. cbn [run_op final_world]. unfold within_ttl.
  red_world. rewrite Ht. apply Z.eqb_neq in Hj. rewrite Hj. cbn [negb andb].
  unfold ulong. rewrite Zminus_mod_idemp_l.
  replace (jiffies w + n - jiffies w) with n by lia.
  now rewrite Z.mod_small.
Qed.

Lemma kind_of_change (m x : Z) :
  kind_of (Z.lor (Z.land m S_IFMT) (Z.land x 4095)) = kind_of m.
Proof.
  unfold kind_of. rewrite Z.land_lor_distr_l, <- !Z.land_assoc.
  rewrite Z.land_diag. change (Z.land 4095 S_IFMT) with 0.
  now rewrite Z.land_0_r, Z.lor_0_r.
Qed.

Lemma change_attributes_kind (sb : prlfs_sb_info) (i : inode)
    (attr : prlfs_attr) :
  kind_of (i_mode (prlfs_change_attributes cfg hdr sb i attr))
  = kind_of (i_mode i).
Proof.
  unfold prlfs_change_attributes. cbn [i_mode].
  destruct (test _ _); [apply kind_of_change | reflexivity].
Qed.

(** X15: the attributes that the host reports never change what a node is:
    [prlfs_change_attributes] keeps the file-type bits of the mode, the
    operations table and the private data, and it is idempotent: applying
    the same reply twice gives what applying it once gives. *)
Theorem change_attributes_keeps_kind (sb : prlfs_sb_info) (i : inode)
    (attr : prlfs_attr) :
  let i' := prlfs_change_attributes cfg hdr sb i attr in
  kind_of (i_mode i') = kind_of (i_mode i)
  /\ i_op i' = i_op i
  /\ i_pfd i' = i_pfd i
  /\ prlfs_change_attributes cfg hdr sb i' attr = i'.
Proof.
  cbv zeta. split; [|split; [reflexivity|split; [reflexivity|]]].
  - apply change_attributes_kind.
  - unfold prlfs_change_attributes.
    cbn [i_mode i_size i_blocks i_atime i_mtime i_ctime i_uid i_gid i_ino
         i_op i_pfd].
    f_equal;
      repeat match goal with
             | |- context [if ?b then _ else _] => destruct b
             end; try reflexivity.
    f_equal. exact (kind_of_change (i_mode i) (pa_mode attr)).
Qed.

(** Where set-attributes leaves the inodes: as they were, or with the
    inode of the entry passed through the kernel's helpers. *)
Lemma setattr_icache (d : dptr) (attr : iattr) (w : world) :
  let w' := final_world (prlfs_setattr cfg hdr env d attr w) in
  icache w' = icache w
  \/ exists de j x x',
       dcache w !! d = Some de /\ d_inode de = Some j
       /\ icache w !! j = Some x
       /\ icache w' = <[j := x']> (icache w)
       /\ (x' = snd (inode_setattr env x attr)
           \/ x' = setattr_copy env x attr
           \/ x' = setattr_copy env
                     (truncate_setsize env x (ia_size attr)) attr).
Proof.
  cbv zeta.
  remember (prlfs_setattr cfg hdr env d attr w) as out eqn:Hout.
  unfold prlfs_setattr in Hout. rewrite PRLFS_STD_INODE_eq in Hout.
  cbv zeta in Hout.
  destruct (kmalloc_ok env (allocs w)); [|subst out; left; reflexivity].
  destruct (prlfs_get_path cfg (sbi w) (dcache w) d PATH_MAX)
    as [[[[p|e] text] buflen]|]; try (subst out; left; reflexivity).
  unfold bind at 1, kmalloc in Hout. red_world_in Hout.
  destruct (kmalloc_ok env (S (allocs w))); red_world_in Hout;
    [|subst out; left; reflexivity].
  destruct (attr_to_pattr hdr attr) as [r0 pattr] eqn:Hat.
  pose proof (attr_to_pattr_ret hdr attr) as Hr0. rewrite Hat in Hr0.
  cbn [fst] in Hr0. subst r0. cbn [Z.ltb Z.compare] in Hout.
  unfold bind at 1, read_dentry in Hout. red_world_in Hout.
  destruct (dcache w !! d) as [de|] eqn:Hd; [|subst out; left; reflexivity].
  destruct (check_dentry hdr de =? 0); cbn [negb] in Hout;
    [|subst out; left; reflexivity].
  unfold bind at 1, host_request in Hout. red_world_in Hout.
  destruct (hr_ret _ =? 0).
  - unfold prlfs_inode_setattr in Hout.
    destruct (d_inode de) as [j|] eqn:Hj; [|subst out; left; reflexivity].
    unfold bind, read_inode, modify_inode, modify_dentry, ret in Hout.
    red_world_in Hout.
    destruct (icache w !! j) as [x|] eqn:Hx; [|subst out; left; reflexivity].
    destruct (LINUX_VERSION_CODE cfg <? KERNEL_VERSION 2 6 36).
    + red_world_in Hout. rewrite Hx in Hout. red_world_in Hout.
      rewrite Hd in Hout. subst out. red_world. right.
      exists de, j, x, (snd (inode_setattr env x attr)). auto 10.
    + destruct (test (ia_valid attr) ATTR_SIZE
                && negb (ia_size attr =? i_size x)).
      * destruct (negb (inode_newsize_ok env x (ia_size attr) =? 0)).
        -- red_world_in Hout. rewrite Hd in Hout. subst out. left.
           reflexivity.
        -- red_world_in Hout. rewrite Hx in Hout. red_world_in Hout.
           rewrite Hd in Hout. subst out. red_world. right.
           exists de, j, x,
             (setattr_copy env (truncate_setsize env x (ia_size attr)) attr).
           auto 10.
      * red_world_in Hout. rewrite Hx in Hout. red_world_in Hout.
        rewrite Hd in Hout. subst out. red_world. right.
        exists de, j, x, (setattr_copy env x attr). auto 10.
  - unfold bind, modify_dentry, ret in Hout. red_world_in Hout.
    rewrite Hd in Hout. subst out. left. reflexivity.
Qed.

(** One operation keeps the kind of the inode [i], when its request
    fits. *)
Lemma run_op_keeps_kind (o : op) (w : world) (i : iptr) (k : Z) :
  kernel_keeps_kind env ->
  kernel_keeps_i_op env ->
  vfs_request_fits w o = true ->
  (exists x, icache w !! i = Some x
             /\ (kind_of (i_mode x) = k \/ i_op x = bad_inode_ops)) ->
  exists x, icache (final_world (run_op cfg hdr env o w)) !! i = Some x
            /\ (kind_of (i_mode x) = k \/ i_op x = bad_inode_ops).
Proof.
  intros Hkind Hop Hfit HQ.
  set (env0 := {| host := host env; kmalloc_ok := kmalloc_ok env;
                  kmalloc_attr := kmalloc_attr env;
                  inode_newsize_ok := inode_newsize_ok env;
                  truncate_setsize := fun x _ => x;
                  setattr_copy := fun x _ => x;
                  inode_setattr := fun x _ => (0, x) |}).
  assert (Hother : exists x,
             icache (final_world (run_op cfg hdr env0 o w)) !! i = Some x
             /\ (kind_of (i_mode x) = k \/ i_op x = bad_inode_ops)).
  { revert HQ.
    apply (preserves_run_op cfg hdr env0
             (fun w' => exists x,
                  icache w' !! i = Some x
                  /\ (kind_of (i_mode x) = k \/ i_op x = bad_inode_ops))
             (fun _ => True)
             (fun f => forall x,
                  (kind_of (i_mode (f x)) = kind_of (i_mode x)
                   \/ i_op (f x) = bad_inode_ops)
                  /\ (i_op x = bad_inode_ops -> i_op (f x) = bad_inode_ops)));
      try (intros; exact I); try (intros; assumption).
    - intros f i' x w' Hf Hi' (y & Hy & Hk). red_world.
      destruct (decide (i' = i)) as [->|Hne].
      + rewrite lookup_insert_eq. eexists. split; [reflexivity|].
        rewrite Hy in Hi'. injection Hi' as <-.
        destruct (Hf y) as ([Hf1|Hf1] & Hf2); [|now right].
        destruct Hk as [Hk|Hk]; [left; congruence | right; auto].
      + rewrite lookup_insert_ne by exact Hne. eauto.
    - intros i' x w' Hi' (y & Hy & Hk). red_world.
      rewrite lookup_insert_ne by congruence. eauto.
    - intros now x. split; [now right | reflexivity].
    - intros sb attr x. split; [left | intros Hb; exact Hb].
      apply change_attributes_kind.
    - intros attr x. split; [now left | intros Hb; exact Hb].
    - intros attr x. split; [now left | intros Hb; exact Hb].
    - intros attr size x. split; [now left | intros Hb; exact Hb]. }
  destruct o as [d|d mode|d mode|d symname|d|d|od nd flags|d attr|d stat|d|n];
    try exact Hother.
  clear Hother env0. cbn [run_op]. cbn [vfs_request_fits] in Hfit.
  destruct HQ as (y & Hy & Hk).
  destruct (setattr_icache d attr w)
    as [Hsame | (de & j & x & x' & Hd & Hj & Hx & Hins & Hx')];
    [rewrite Hsame; eauto|].
  rewrite Hins.
  rewrite Hd, Hj, Hx in Hfit.
  destruct (decide (j = i)) as [->|Hne];
    [|rewrite lookup_insert_ne by exact Hne; eauto].
  rewrite lookup_insert_eq. exists x'. split; [reflexivity|].
  rewrite Hy in Hx. injection Hx as <-.
  destruct (Hkind y attr 0) as (Hhelp & _).
  destruct (Hhelp Hfit) as (Hk1 & Hk2).
  destruct (Hop y attr 0) as (Ho1 & Ho2 & _).
  destruct (Hkind y attr (ia_size attr)) as (_ & Hk3).
  destruct (Hop y attr (ia_size attr)) as (_ & _ & Ho3).
  assert (Hfit' : mode_fits (truncate_setsize env y (ia_size attr)) attr
                  = true).
  { unfold mode_fits in *. now rewrite Hk3. }
  destruct (Hkind (truncate_setsize env y (ia_size attr)) attr 0)
    as (Hhelp' & _).
  destruct (Hhelp' Hfit') as (_ & Hk4).
  destruct (Hop (truncate_setsize env y (ia_size attr)) attr 0)
    as (_ & Ho4 & _).
  destruct Hx' as [-> | [-> | ->]];
    (destruct Hk as [Hk|Hk]; [left; congruence | right; congruence]).
Qed.

(** X16: what a node is stays fixed for its life.  The kernel's
    [setattr_copy] and [inode_setattr] store the mode of a request whole,
    file-type bits and all; they keep the type of an inode because the VFS
    hands down requests with the inode's own type bits.  With helpers that
    keep the type bits under such requests and keep the operations table,
    and a run of operations whose set-attributes requests are such, an
    inode has after the run the file-type bits it had before, unless it has
    been made bad. *)
Theorem node_kind_is_stable (l : list op) (w : world) (i : iptr)
    (ino : inode) :
  kernel_keeps_kind env ->
  kernel_keeps_i_op env ->
  vfs_requests_fit cfg hdr env l w = true ->
  icache w !! i = Some ino ->
  exists ino',
    icache (final_world (run_ops cfg hdr env l w)) !! i = Some ino'
    /\ (kind_of (i_mode ino') = kind_of (i_mode ino)
        \/ i_op ino' = bad_inode_ops).
Proof.
  intros Hkind Hop Hfit Hi.
  assert (HQ : exists x, icache w !! i = Some x
                         /\ (kind_of (i_mode x) = kind_of (i_mode ino)
                             \/ i_op x = bad_inode_ops))
    by (exists ino; split; [exact Hi | now left]).
  clear Hi. revert w Hfit HQ.
  induction l as [|o l IH]; intros w Hfit HQ; cbn [run_ops].
  - exact HQ.
  - cbn [vfs_requests_fit] in Hfit. apply andb_prop in Hfit as [Ho Hl].
    pose proof (run_op_keeps_kind o w i _ Hkind Hop Ho HQ) as Hstep.
    unfold bind. destruct (run_op cfg hdr env o w) as [r w'|w'].
    + apply IH; assumption.
    + exact Hstep.
Qed.

(** ** Mount options *)

Lemma isdigit_range (c : ascii) :
  isdigit c = true -> 0 <= Z.of_N (N_of_ascii c) - 48 <= 9.
Proof. unfold isdigit. intros H. apply andb_prop in H as [H1 H2]. lia. Qed.

Lemma decimal_value_ge (s : string) : forall acc,
  all_digits s = true -> 0 <= acc -> acc <= decimal_value s acc.
Proof.
  induction s as [|c s IH]; intros acc Hs Hacc; cbn [decimal_value]; [lia|].
  cbn [all_digits] in Hs. apply andb_prop in Hs as [Hc Hs].
  pose proof (isdigit_range c Hc).
  specialize (IH (acc * 10 + (Z.of_N (N_of_ascii c) - 48)) Hs). lia.
Qed.

Lemma strtoui_digits_ok (s : string) : forall acc,
  all_digits s = true -> 0 <= acc -> decimal_value s acc < 2 ^ 32 ->
  strtoui_digits s acc = (0, decimal_value s acc).
Proof.
  induction s as [|c s IH]; intros acc Hs Hacc Hv;
    cbn [decimal_value strtoui_digits]; [reflexivity|].
  cbn [all_digits] in Hs. apply andb_prop in Hs as [Hc Hs]. rewrite Hc.
  pose proof (isdigit_range c Hc) as Hd. cbn [decimal_value] in Hv.
  pose proof (decimal_value_ge s _ Hs
                ltac:(instantiate (1 := acc * 10 + (Z.of_N (N_of_ascii c) - 48)); lia))
    as Hge.
  unfold u32. rewrite Z.mod_small by lia.
  destruct (Z.ltb_spec (acc * 10 + (Z.of_N (N_of_ascii c) - 48)) acc); [lia|].
  apply IH; [exact Hs | lia | exact Hv].
Qed.

Lemma strtoui_digits_bad (s : string) : forall acc,
  all_digits s = false -> fst (strtoui_digits s acc) = - EINVAL.
Proof.
  induction s as [|c s IH]; intros acc Hs; [discriminate Hs|].
  cbn [all_digits] in Hs. cbn [strtoui_digits].
  destruct (isdigit c); [|reflexivity].
  destruct (_ <? _); [reflexivity|]. apply IH. exact Hs.
Qed.

Lemma strtoui_digits_status (s : string) : forall acc,
  fst (strtoui_digits s acc) = 0 \/ fst (strtoui_digits s acc) = - EINVAL.
Proof.
  induction s as [|c s IH]; intros acc; cbn [strtoui_digits]; [now left|].
  destruct (isdigit c); [|now right].
  destruct (_ <? _); [now right | apply IH].
Qed.

(** X17: [prlfs_strtoui] reads decimal numbers: a non-empty string of
    digits whose value fits an unsigned int gives 0 and that value (leading
    zeros allowed); a string with a character that is no digit gives
    -EINVAL and leaves [*result] as it was. *)
Theorem prlfs_strtoui_reads_decimal (s : string) (result : Z) :
  s <> EmptyString ->
  (all_digits s = true -> decimal_value s 0 < 2 ^ 32 ->
   prlfs_strtoui (Some s) result = (0, decimal_value s 0))
  /\ (all_digits s = false ->
      prlfs_strtoui (Some s) result = (- EINVAL, result)).
Proof.
  intros Hne. destruct s as [|c s]; [congruence|]. split.
  - intros Hs Hv. unfold prlfs_strtoui.
    rewrite (strtoui_digits_ok _ 0 Hs ltac:(lia) Hv). reflexivity.
  - intros Hs. unfold prlfs_strtoui.
    pose proof (strtoui_digits_bad _ 0 Hs) as Hb.
    destruct (strtoui_digits (String c s) 0) as [r ui]. cbn [fst] in Hb.
    subst r. reflexivity.
Qed.

Lemma strtoui_digits_app (s : string) (c : ascii) : forall acc v,
  strtoui_digits s acc = (0, v) ->
  isdigit c = true ->
  strtoui_digits (s ++ String c EmptyString) acc
  = let v' := u32 (v * 10 + (Z.of_N (N_of_ascii c) - 48)) in
    if v' <? v then (- EINVAL, v) else (0, v').
Proof.
  induction s as [|x s IH]; intros acc v Hs Hc.
  - cbn in Hs. injection Hs as <-. cbn [String.append strtoui_digits].
    rewrite Hc. cbv zeta. destruct (_ <? _); reflexivity.
  - cbn [String.append strtoui_digits] in *.
    destruct (isdigit x); [|discriminate Hs].
    destruct (_ <? _); [discriminate Hs|]. now apply IH.
Qed.

(** X18: the overflow test of [prlfs_strtoui] looks at one step only.  A
    further digit [c] after digits of value [v] is refused when
    [v * 10 + c] reduced modulo 2^32 is below [v]; otherwise the reduced
    value is accepted as the result, also when [v * 10 + c] itself does not
    fit an unsigned int. *)
Theorem prlfs_strtoui_one_more_digit (s : string) (c : ascii) (result : Z) :
  all_digits s = true ->
  isdigit c = true ->
  decimal_value s 0 < 2 ^ 32 ->
  let v := decimal_value s 0 in
  let v' := u32 (v * 10 + (Z.of_N (N_of_ascii c) - 48)) in
  prlfs_strtoui (Some (s ++ String c EmptyString)) result
  = if v' <? v then (- EINVAL, result) else (0, v').
Proof.
  intros Hs Hc Hv v v'.
  pose proof (strtoui_digits_app s c 0 v
                (strtoui_digits_ok s 0 Hs ltac:(lia) Hv) Hc) as H.
  cbv zeta in H. fold v' in H. unfold prlfs_strtoui.
  destruct (s ++ String c EmptyString) as [|x t] eqn:Happ.
  { destruct s; discriminate Happ. }
  rewrite H. destruct (v' <? v); reflexivity.
Qed.

Lemma substring_length (s : string) : forall n,
  String.length (String.substring 0 n s) = Nat.min n (String.length s).
Proof.
  induction s as [|c s IH]; intros [|n]; cbn; try reflexivity.
  now rewrite IH.
Qed.

Lemma strlen_strncpy (src : string) (n : Z) :
  strlen (strncpy src n) = Z.min (Z.max 0 n) (strlen src).
Proof. unfold strlen, strncpy. rewrite substring_length. lia. Qed.

Lemma prlfs_strtoui_status (cp : option string) (result : Z) :
  fst (prlfs_strtoui cp result) = 0
  \/ fst (prlfs_strtoui cp result) = - EINVAL.
Proof.
  unfold prlfs_strtoui. destruct cp as [[|c s]|]; try now right.
  pose proof (strtoui_digits_status (String c s) 0) as H.
  destruct (strtoui_digits (String c s) 0) as [r ui]. cbn [fst] in H.
  destruct H as [->| ->]; [now left | now right].
Qed.

(** What one option keeps: the status is 0 or -EINVAL, and the two strings
    stay within their arrays. *)
Lemma parse_mount_option_keeps (opt : string) (s : prlfs_sb_info) :
  strlen (sbi_nls s) <= Z.max 0 (LOCALE_NAME_LEN hdr - 1) ->
  strlen (sbi_name s) <= Z.max 0 (SB_NAME_SIZE hdr) ->
  let rs := parse_mount_option hdr opt s in
  (fst rs = 0 \/ fst rs = - EINVAL)
  /\ strlen (sbi_nls (snd rs)) <= Z.max 0 (LOCALE_NAME_LEN hdr - 1)
  /\ strlen (sbi_name (snd rs)) <= Z.max 0 (SB_NAME_SIZE hdr).
Proof.
  intros Hnls Hname. cbv zeta. unfold parse_mount_option.
  destruct (strchr_eq opt) as [o v].
  set (val := match v with Some EmptyString => None | _ => v end).
  repeat match goal with
         | |- context [if ?b then _ else _] => destruct b
         end;
    repeat match goal with
           | |- context [prlfs_strtoui ?a ?b] =>
               pose proof (prlfs_strtoui_status a b);
               destruct (prlfs_strtoui a b)
           end;
    cbn [fst snd sbi_nls sbi_name with_sbi_ttl with_sbi_ids with_sbi_flags
         with_sbi_strings] in *;
    rewrite ?strlen_strncpy;
    repeat split; try assumption; try (now left); try (now right); lia.
Qed.

Lemma parse_mount_loop_keeps (opts : list string) : forall r s,
  r = 0 \/ r = - EINVAL ->
  strlen (sbi_nls s) <= Z.max 0 (LOCALE_NAME_LEN hdr - 1) ->
  strlen (sbi_name s) <= Z.max 0 (SB_NAME_SIZE hdr) ->
  let rs := parse_mount_loop hdr opts r s in
  (fst rs = 0 \/ fst rs = - EINVAL)
  /\ strlen (sbi_nls (snd rs)) <= Z.max 0 (LOCALE_NAME_LEN hdr - 1)
  /\ strlen (sbi_name (snd rs)) <= Z.max 0 (SB_NAME_SIZE hdr).
Proof.
  induction opts as [|opt opts IH]; intros r s Hr Hnls Hname; cbv zeta;
    cbn [parse_mount_loop]; [now repeat split|].
  destruct (negb (r =? 0)); [now repeat split|].
  destruct (String.eqb opt EmptyString); [now apply IH|].
  pose proof (parse_mount_option_keeps opt s Hnls Hname) as H.
  cbv zeta in H. destruct (parse_mount_option hdr opt s) as [r' s'].
  cbn [fst snd] in H. destruct H as (H1 & H2 & H3). now apply IH.
Qed.

(** X19: mount options, parsed into the zeroed structure as
    [prlfs_fill_super] does, give 0 or -EINVAL and nothing else.  The
    locale name stays shorter than LOCALE_NAME_LEN, so it keeps its NUL;
    the share name never exceeds its array. *)
Theorem parse_mount_options_status (current : cred)
    (options : option string) :
  0 < LOCALE_NAME_LEN hdr ->
  0 <= SB_NAME_SIZE hdr ->
  let rs := prlfs_parse_mount_options cfg hdr current options zero_sbi in
  (fst rs = 0 \/ fst rs = - EINVAL)
  /\ strlen (sbi_nls (snd rs)) < LOCALE_NAME_LEN hdr
  /\ strlen (sbi_name (snd rs)) <= SB_NAME_SIZE hdr.
Proof.
  intros Hl Hs. cbv zeta. unfold prlfs_parse_mount_options.
  destruct options as [options|].
  - pose proof (parse_mount_loop_keeps (strsep_commas options) 0
                  (with_sbi_ttl (HZ cfg)
                     (with_sbi_ids (cr_uid current) (cr_gid current)
                        zero_sbi))
                  (or_introl eq_refl)) as H.
    cbv zeta in H. cbn [sbi_nls sbi_name with_sbi_ttl with_sbi_ids zero_sbi]
      in H.
    change (strlen "") with 0 in H.
    destruct H as (H1 & H2 & H3); [lia | lia |].
    split; [exact H1 | lia].
  - cbn. change (strlen "") with 0. split; [now left | lia].
Qed.

Lemma strsep_commas_first (a b : string) :
  has_char ","%char a = false ->
  strsep_commas (a ++ "," ++ b) = a :: strsep_commas b.
Proof.
  induction a as [|x a IH]; intros Ha; [reflexivity|].
  cbn [has_char] in Ha. apply orb_false_elim in Ha as [Hx Ha].
  cbn [String.append strsep_commas]. rewrite Hx.
  cbn [String.append] in IH. now rewrite (IH Ha).
Qed.

Lemma strsep_commas_only (a : string) :
  has_char ","%char a = false -> strsep_commas a = [a].
Proof.
  induction a as [|x a IH]; intros Ha; [reflexivity|].
  cbn [has_char] in Ha. apply orb_false_elim in Ha as [Hx Ha].
  cbn [strsep_commas]. rewrite Hx. now rewrite (IH Ha).
Qed.

Lemma after_last_slash_base (s : string) :
  has_char "/"%char (default s (after_last_slash s)) = false.
Proof.
  assert (H : match after_last_slash s with
              | Some t => has_char "/"%char t = false
              | None => has_char "/"%char s = false
              end).
  { induction s as [|c s IH]; [reflexivity|]. cbn [after_last_slash].
    destruct (after_last_slash s) as [t|]; [exact IH|].
    cbn [has_char]. destruct (Ascii.eqb c "/"); [exact IH|].
    exact IH. }
  destruct (after_last_slash s); exact H.
Qed.

Lemma parse_sf_option (b : string) (s : prlfs_sb_info) :
  parse_mount_option hdr ("sf=" ++ b) s
  = match b with
    | EmptyString => (- EINVAL, s)
    | _ => (0, with_sbi_strings (strncpy b (SB_NAME_SIZE hdr)) (sbi_nls s) s)
    end.
Proof. destruct b; reflexivity. Qed.

(** X20: a mount names the share after the device.  [extend_mount_data]
    puts [sf=] and the base name of the device (what follows its last '/')
    before the caller's options, so the parser first sets the share name to
    that base name, cut to the size of its array, and then reads the
    caller's options, which may name another share.  A device whose base
    name is empty makes the parser fail with -EINVAL before it reads any
    option.  (The base name holds no ','.) *)
Theorem mount_names_share_after_device (current : cred) (dev_name : string)
    (data : option string) (s : prlfs_sb_info) (w : world) :
  kmalloc_ok env (allocs w) = true ->
  let base := default dev_name (after_last_slash dev_name) in
  has_char ","%char base = false ->
  has_char "/"%char base = false
  /\ exists ext,
       extend_mount_data env data dev_name w
       = Ret (Some ext) (set_allocs (S (allocs w)) w)
       /\ let s0 := with_sbi_ttl (HZ cfg)
                      (with_sbi_ids (cr_uid current) (cr_gid current) s) in
          prlfs_parse_mount_options cfg hdr current (Some ext) s
          = match base with
            | EmptyString => (- EINVAL, s0)
            | _ =>
                parse_mount_loop hdr
                  match data with
                  | Some data => strsep_commas data
                  | None => []
                  end 0
                  (with_sbi_strings (strncpy base (SB_NAME_SIZE hdr))
                     (sbi_nls s0) s0)
            end.
Proof.
  intros Hk base Hcomma. split; [apply after_last_slash_base|].
  eexists. split.
  - unfold extend_mount_data, bind, kmalloc, ret. rewrite Hk. reflexivity.
  - cbv zeta. fold base. unfold prlfs_parse_mount_options.
    assert (Hc : has_char ","%char ("sf=" ++ base) = false) by exact Hcomma.
    destruct data as [data|].
    + rewrite <- string_app_assoc, strsep_commas_first by exact Hc.
      cbn [parse_mount_loop Z.eqb negb].
      replace (String.eqb ("sf=" ++ base) EmptyString) with false
        by reflexivity.
      rewrite parse_sf_option. destruct base; [|reflexivity].
      cbn [parse_mount_loop]. now destruct (strsep_commas data).
    + rewrite string_app_nil_r, strsep_commas_only by exact Hc.
      cbn [parse_mount_loop Z.eqb negb].
      replace (String.eqb ("sf=" ++ base) EmptyString) with false
        by reflexivity.
      rewrite parse_sf_option. destruct base; reflexivity.
Qed.

(** ** Permission and remount *)

Lemma land7_range (x : Z) : 0 <= Z.land x 7 < 8.
Proof.
  change 7 with (Z.ones 3). rewrite Z.land_ones by lia.
  apply Z.mod_pos_bound. lia.
Qed.

Lemma land7_subset (a b : Z) :
  Z.land a (Z.lnot b) = 0 ->
  Z.land (Z.land a 7) (Z.lnot (Z.land b 7)) = 0.
Proof.
  intros H. apply Z.bits_inj'. intros n Hn.
  assert (Hb : Z.testbit (Z.land a (Z.lnot b)) n = false)
    by (rewrite H; apply Z.bits_0).
  rewrite Z.land_spec, Z.lnot_spec in Hb by exact Hn.
  rewrite !Z.land_spec, Z.lnot_spec, Z.land_spec, Z.bits_0 by exact Hn.
  destruct (Z.testbit a n), (Z.testbit b n), (Z.testbit 7 n);
    cbn in *; congruence.
Qed.

Lemma small_cases (x : Z) :
  0 <= x < 8 ->
  x = 0 \/ x = 1 \/ x = 2 \/ x = 3 \/ x = 4 \/ x = 5 \/ x = 6 \/ x = 7.
Proof. lia. Qed.

(** X21: in share mode access is downward closed: when
    [__prlfs_permission] grants a mask, it grants every mask that asks for
    no access outside it, whatever the capabilities of the caller and the
    owner stored in the inode. *)
Theorem permission_is_monotone (capable : Z -> bool) (i : inode)
    (mask mask' : Z) :
  Z.land mask' (Z.lnot mask) = 0 ->
  __prlfs_permission capable i mask = 0 ->
  __prlfs_permission capable i mask' = 0.
Proof.
  intros Hsub. apply land7_subset in Hsub. unfold __prlfs_permission.
  cbv zeta. change (Z.lor MAY_READ (Z.lor MAY_WRITE MAY_EXEC)) with 7.
  set (t := Z.land (if prlfs_uid_valid (i_uid i) then _ else _) 7).
  pose proof (land7_range mask) as Hm.
  pose proof (land7_range mask') as Hm'.
  assert (Ht : 0 <= t < 8) by apply land7_range.
  revert Hsub. generalize dependent (Z.land mask 7).
  generalize dependent (Z.land mask' 7). clearbody t.
  intros m' Hm' m Hm.
  destruct (S_ISDIR (i_mode i)), (capable CAP_DAC_OVERRIDE),
    (capable CAP_DAC_READ_SEARCH);
    apply small_cases in Ht, Hm, Hm';
    repeat match goal with H : _ \/ _ |- _ => destruct H as [->|H] end;
    subst; intros Hsub H; first [reflexivity | discriminate Hsub | discriminate H].
Qed.

(** X22: a remount keeps the sync flag whatever it decides: MS_SYNCHRONOUS
    is set in the flags handed back and no other flag is changed.  It
    returns 0 or -EINVAL, and it returns 0 only if mandatory locking is not
    asked for and a read-only share stays read-only. *)
Theorem remount_keeps_sync (readonly flags : Z) :
  let r := fst (prlfs_remount readonly flags) in
  let flags' := snd (prlfs_remount readonly flags) in
  test flags' MS_SYNCHRONOUS = true
  /\ Z.land flags' (Z.lnot MS_SYNCHRONOUS)
     = Z.land flags (Z.lnot MS_SYNCHRONOUS)
  /\ (r = 0 \/ r = - EINVAL)
  /\ (r = 0 <->
      test flags MS_MANDLOCK = false
      /\ (readonly = 0 \/ test flags MS_RDONLY = true)).
Proof.
  cbv zeta. unfold prlfs_remount. cbn [fst snd]. split; [|split; [|split]].
  - unfold test. rewrite land_lor_mask. reflexivity.
  - rewrite Z.land_lor_distr_l, Z.land_lnot_diag, Z.lor_0_r. reflexivity.
  - destruct (_ || _); [now right | now left].
  - destruct (test flags MS_RDONLY), (test flags MS_MANDLOCK),
      (Z.eqb_spec readonly 0); cbn [negb andb orb]; unfold EINVAL;
      intuition (try congruence; try lia).
Qed.

(** ** Get-attributes and failing allocations *)

Lemma prlfs_i_revalidate_Ret (d : dptr) (w : world) (r : Z) (w' : world) :
  prlfs_i_revalidate cfg hdr env (Some d) w = Ret r w' ->
  sbi w' = sbi w /\ current_cred w' = current_cred w
  /\ forall x, d_inode <$> dcache w' !! x = d_inode <$> dcache w !! x.
Proof.
  intros H.
  assert (Hp : preserves
                 (fun w' => sbi w' = sbi w
                            /\ current_cred w' = current_cred w
                            /\ forall x, d_inode <$> dcache w' !! x
                                         = d_inode <$> dcache w !! x)
                 (prlfs_i_revalidate cfg hdr env (Some d))).
  { apply (preserves_i_revalidate cfg hdr env _
             (fun f => forall de, d_inode (f de) = d_inode de)
             (fun _ => True));
      try (intros; exact I); try (intros; assumption);
      try (intros; reflexivity).
    intros f d' de' w1 Hf Hd' (Hsb & Hcr & Hs).
    split; [exact Hsb|]. split; [exact Hcr|].
    intros x. red_world. rewrite <- (Hs x).
    destruct (decide (d' = x)) as [->|Hne].
    - rewrite lookup_insert_eq, Hd'. cbn. now rewrite Hf.
    - now rewrite lookup_insert_ne. }
  specialize (Hp w). rewrite H in Hp. apply Hp. repeat split; reflexivity.
Qed.

(** X23: get-attributes reports what the cache holds.  When it fails, the
    caller's [stat] is handed back untouched; when it succeeds, [stat] is
    filled from the inode of the entry as the revalidation left it: in
    share mode with the caller's ids as owner and group unless the inode
    has none (nobody, nogroup), otherwise with the inode's own. *)
Theorem getattr_reports_cache (d : dptr) (stat : kstat) (w : world)
    (r : Z) (st : kstat) (w' : world) :
  __prlfs_getattr cfg hdr env d stat w = Ret (r, st) w' ->
  (r < 0 -> st = stat)
  /\ (0 <= r ->
      exists de i ino,
        dcache w' !! d = Some de /\ d_inode de = Some i
        /\ icache w' !! i = Some ino
        /\ st = fill_stat w' ino
        /\ st_size st = i_size ino /\ st_mode st = i_mode ino
        /\ st_uid st = (if negb (sbi_share (sbi w) =? 0)
                           && prlfs_uid_valid (i_uid ino)
                        then cr_fsuid (current_cred w) else i_uid ino)
        /\ st_gid st = (if negb (sbi_share (sbi w) =? 0)
                           && prlfs_gid_valid (i_gid ino)
                        then cr_fsgid (current_cred w) else i_gid ino)).
Proof.
  intros H. unfold __prlfs_getattr in H.
  apply bind_Ret in H as (de & w0 & Hm & H).
  apply read_dentry_Ret in Hm as (Hd & ->).
  destruct (negb (check_dentry hdr de =? 0)).
  { injection H as <- <- <-. split; [reflexivity | unfold ESTALE; lia]. }
  apply bind_Ret in H as (r0 & w1 & Hm & H).
  destruct (r0 <? 0) eqn:Hneg.
  { injection H as <- <- <-. apply Z.ltb_lt in Hneg.
    split; [reflexivity | lia]. }
  apply Z.ltb_ge in Hneg.
  destruct (prlfs_i_revalidate_Ret _ _ _ _ Hm) as (Hsb & Hcr & Hs).
  destruct (d_inode de) as [i|] eqn:Hi; [|discriminate H].
  apply bind_Ret in H as (ino & w2 & Hm0 & H).
  apply read_inode_Ret in Hm0 as (Hino & ->).
  apply bind_Ret in H as (w3 & w4 & Hm0 & H).
  injection Hm0 as <- <-. injection H as <- <- <-.
  split; [lia | intros _].
  specialize (Hs d). rewrite Hd in Hs. cbn in Hs.
  destruct (dcache w1 !! d) as [de'|] eqn:Hd'; [|discriminate Hs].
  cbn in Hs. injection Hs as Hs.
  exists de', i, ino. split; [reflexivity|]. split; [congruence|].
  split; [exact Hino|]. split; [reflexivity|].
  unfold fill_stat. rewrite Hsb, Hcr.
  destruct (negb (sbi_share (sbi w) =? 0)); cbn [andb];
    [|repeat split; reflexivity].
  cbn [generic_fillattr with_st_uid with_st_gid st_uid st_gid].
  destruct (prlfs_uid_valid (i_uid ino));
    cbn [generic_fillattr with_st_uid with_st_gid st_uid st_gid];
    destruct (prlfs_gid_valid (i_gid ino)); repeat split; reflexivity.
Qed.

(** X24: when memory runs out, nothing happens behind the caller's back:
    if the next allocation fails, none of the operations sends a request
    to the host or changes a dentry or an inode, and those that need a
    buffer before anything else (lookup, create, mkdir, symlink, unlink,
    rmdir, set-attributes) return -ENOMEM. *)
Theorem no_memory_no_effect (o : op) (w : world) :
  kmalloc_ok env (allocs w) = false ->
  let out := run_op cfg hdr env o w in
  host_log (final_world out) = host_log w
  /\ dcache (final_world out) = dcache w
  /\ icache (final_world out) = icache w
  /\ match o with
     | op_rename _ _ _ | op_getattr _ _ | op_d_revalidate _ | op_tick _ =>
         True
     | _ => out = Ret (- ENOMEM) (set_allocs (S (allocs w)) w)
     end.
Proof.
  intros Hk. cbv zeta.
  assert (Hstd : forall d out body,
            PRLFS_STD_INODE cfg env d out body w
            = out (- ENOMEM) (set_allocs (S (allocs w)) w) :> outcome Z).
  { intros d out body. rewrite PRLFS_STD_INODE_eq, Hk. reflexivity. }
  assert (Hreval : forall d,
            match prlfs_i_revalidate cfg hdr env d w with
            | Ret r w1 =>
                host_log w1 = host_log w /\ dcache w1 = dcache w
                /\ icache w1 = icache w
            | Oops w1 => w1 = w
            end).
  { intros [d|]; unfold prlfs_i_revalidate; [|now repeat split].
    unfold bind at 1, read_dentry.
    destruct (dcache w !! d) as [de|]; [|reflexivity].
    destruct (d_inode de) as [i|]; [|now repeat split].
    unfold bind at 1, get_world.
    destruct (within_ttl cfg w de); [now repeat split|].
    unfold bind at 1, kmalloc_prlfs_attr. rewrite Hk. now repeat split. }
  remember (run_op cfg hdr env o w) as out eqn:Hout.
  destruct o as [d|d mode|d mode|d symname|d|d|od nd flags|d attr|d stat
                 |d|n]; cbn [run_op] in Hout.
  - unfold prlfs_lookup, bind at 1, kmalloc_prlfs_attr in Hout.
    rewrite Hk in Hout. subst out. repeat split.
  - unfold prlfs_create, bind, prlfs_inode_open in Hout.
    rewrite Hstd in Hout. subst out. repeat split.
  - unfold prlfs_mkdir, bind, prlfs_inode_open in Hout.
    rewrite Hstd in Hout. subst out. repeat split.
  - unfold prlfs_symlink in Hout. rewrite Hstd in Hout. subst out.
    repeat split.
  - unfold prlfs_unlink, bind, prlfs_delete in Hout.
    rewrite Hstd in Hout. subst out. repeat split.
  - unfold prlfs_rmdir, bind, prlfs_delete in Hout.
    rewrite Hstd in Hout. subst out. repeat split.
  - unfold prlfs_rename, __prlfs_rename in Hout. destruct (_ && _);
      [|rewrite Hstd in Hout]; subst out; repeat split.
  - unfold prlfs_setattr in Hout. rewrite Hstd in Hout. subst out.
    repeat split.
  - unfold prlfs_getattr, __prlfs_getattr, bind, read_dentry in Hout.
    destruct (dcache w !! d) as [de|] eqn:Hd;
      [|subst out; repeat split].
    destruct (negb (check_dentry hdr de =? 0)); [subst out; repeat split|].
    pose proof (Hreval (Some d)) as Hr.
    destruct (prlfs_i_revalidate cfg hdr env (Some d) w) as [r w1|w1];
      [destruct Hr as (H1 & H2 & H3) | subst w1 out; repeat split].
    destruct (r <? 0); [subst out; repeat split; assumption|].
    destruct (d_inode de) as [i|]; [|subst out; repeat split; assumption].
    unfold read_inode, get_world, ret in Hout.
    destruct (icache w1 !! i); subst out; repeat split; assumption.
  - unfold prlfs_d_revalidate, bind in Hout.
    pose proof (Hreval d) as Hr.
    destruct (prlfs_i_revalidate cfg hdr env d w) as [r w1|w1];
      [destruct Hr as (H1 & H2 & H3) | subst w1];
      subst out; repeat split; assumption.
  - subst out. repeat split.
Qed.

(** ** Mount options as shown and as read *)

Lemma digit_char (n : Z) :
  0 <= n ->
  let c := ascii_of_N (Z.to_N (48 + n mod 10)) in
  isdigit c = true /\ Z.of_N (N_of_ascii c) - 48 = n mod 10
  /\ Ascii.eqb c ","%char = false.
Proof.
  intros Hn. cbv zeta.
  assert (Hm : 0 <= n mod 10 < 10) by (apply Z.mod_pos_bound; lia).
  assert (Hc : n mod 10 = 0 \/ n mod 10 = 1 \/ n mod 10 = 2 \/ n mod 10 = 3
               \/ n mod 10 = 4 \/ n mod 10 = 5 \/ n mod 10 = 6
               \/ n mod 10 = 7 \/ n mod 10 = 8 \/ n mod 10 = 9) by lia.
  destruct Hc as [Hc|[Hc|[Hc|[Hc|[Hc|[Hc|[Hc|[Hc|[Hc|Hc]]]]]]]]];
    rewrite Hc; repeat split.
Qed.

Lemma print_digits_spec (fuel : nat) : forall n acc,
  0 <= n < 10 ^ Z.of_nat fuel ->
  all_digits acc = true ->
  has_char ","%char acc = false ->
  all_digits (print_digits fuel n acc) = true
  /\ has_char ","%char (print_digits fuel n acc) = false
  /\ decimal_value (print_digits fuel n acc) 0 = decimal_value acc n.
Proof.
  induction fuel as [|fuel IH]; intros n acc Hn Ha Hc.
  - cbn in Hn. assert (n = 0) by lia. subst n. now repeat split.
  - cbn [print_digits].
    destruct (digit_char n ltac:(lia)) as (Hd & Hv & Hcomma).
    cbv zeta in Hd, Hv, Hcomma.
    set (c := ascii_of_N (Z.to_N (48 + n mod 10))) in *.
    assert (Hacc : all_digits (String c acc) = true
                   /\ has_char ","%char (String c acc) = false
                   /\ decimal_value (String c acc) (n / 10)
                      = decimal_value acc n).
    { cbn [all_digits has_char decimal_value]. rewrite Hd, Hcomma, Hv.
      repeat split; try assumption.
      f_equal. pose proof (Z.div_mod n 10 ltac:(lia)). lia. }
    destruct Hacc as (H1 & H2 & H3).
    destruct (Z.eqb_spec (n / 10) 0) as [Hz|Hz].
    + repeat split; try assumption. cbn [decimal_value].
      cbn [decimal_value] in H3. rewrite Hz in H3. exact H3.
    + destruct (IH (n / 10) (String c acc)) as (I1 & I2 & I3);
        try assumption.
      * split; [apply Z.div_pos; lia|].
        apply Z.div_lt_upper_bound; [lia|].
        rewrite Nat2Z.inj_succ, Z.pow_succ_r in Hn by lia. lia.
      * repeat split; try assumption. now rewrite I3.
Qed.

Lemma print_digits_nonempty (fuel : nat) (n : Z) (acc : string) :
  fuel <> O -> print_digits fuel n acc <> EmptyString.
Proof.
  revert n acc. induction fuel as [|fuel IH]; intros n acc Hf; [congruence|].
  cbn [print_digits]. destruct (n / 10 =? 0); [discriminate|].
  destruct fuel as [|fuel']; [discriminate|]. apply IH. discriminate.
Qed.

Lemma prlfs_strtoui_digits (s : string) (result : Z) :
  s <> EmptyString -> all_digits s = true -> decimal_value s 0 < 2 ^ 32 ->
  prlfs_strtoui (Some s) result = (0, decimal_value s 0).
Proof.
  intros Hne Hs Hv. destruct s as [|c s]; [congruence|].
  unfold prlfs_strtoui.
  rewrite (strtoui_digits_ok _ 0 Hs ltac:(lia) Hv). reflexivity.
Qed.

Lemma print_u_read (n : Z) :
  0 <= n < 2 ^ 32 ->
  (exists c t, print_u n = String c t)
  /\ has_char ","%char (print_u n) = false
  /\ forall result, prlfs_strtoui (Some (print_u n)) result = (0, n).
Proof.
  intros Hn.
  destruct (print_digits_spec 10 n EmptyString) as (H1 & H2 & H3);
    [change (10 ^ Z.of_nat 10) with 10000000000; lia
    | reflexivity | reflexivity |].
  cbn [decimal_value] in H3.
  pose proof (print_digits_nonempty 10 n EmptyString ltac:(discriminate))
    as Hne.
  fold (print_u n) in *. split; [|split; [exact H2|]].
  - destruct (print_u n) as [|c t]; [congruence | eauto].
  - intros result. rewrite <- H3 at 2.
    apply prlfs_strtoui_digits; [exact Hne | exact H1 | rewrite H3; lia].
Qed.

Lemma strsep_commas_cons (s : string) :
  exists t ts, strsep_commas s = t :: ts.
Proof.
  induction s as [|c s (t & ts & IH)]; cbn [strsep_commas]; [eauto|].
  destruct (Ascii.eqb c ","); [eauto|]. rewrite IH. eauto.
Qed.

(** The tokens of a string that ends with one more option. *)
Lemma strsep_commas_app (s a : string) :
  strsep_commas (s ++ "," ++ a) = (strsep_commas s ++ strsep_commas a)%list.
Proof.
  induction s as [|c s IH]; [reflexivity|].
  cbn [String.append strsep_commas]. cbn [String.append] in IH.
  destruct (Ascii.eqb c ","); [now rewrite IH|].
  rewrite IH. destruct (strsep_commas_cons s) as (t & ts & ->). reflexivity.
Qed.

Lemma parse_mount_loop_stops (opts : list string) (r : Z)
    (s : prlfs_sb_info) :
  r <> 0 -> parse_mount_loop hdr opts r s = (r, s).
Proof.
  intros Hr. apply Z.eqb_neq in Hr.
  destruct opts; cbn [parse_mount_loop]; [reflexivity|]. now rewrite Hr.
Qed.

Lemma parse_mount_loop_app (l1 : list string) : forall l2 r s,
  parse_mount_loop hdr (l1 ++ l2) r s
  = parse_mount_loop hdr l2 (fst (parse_mount_loop hdr l1 r s))
      (snd (parse_mount_loop hdr l1 r s)).
Proof.
  induction l1 as [|opt l1 IH]; intros l2 r s; [reflexivity|].
  cbn [app parse_mount_loop].
  destruct (Z.eqb_spec r 0) as [Hr|Hr]; cbn [negb fst snd].
  - destruct (String.eqb opt EmptyString); [apply IH|].
    destruct (parse_mount_option hdr opt s) as [r' s']. apply IH.
  - now rewrite parse_mount_loop_stops.
Qed.

Lemma parse_one_option (tok : string) (s : prlfs_sb_info) :
  has_char ","%char tok = false ->
  tok <> EmptyString ->
  parse_mount_loop hdr (strsep_commas tok) 0 s = parse_mount_option hdr tok s.
Proof.
  intros Hc Hne. rewrite strsep_commas_only by exact Hc.
  cbn [parse_mount_loop Z.eqb negb].
  apply String.eqb_neq in Hne. rewrite Hne.
  now destruct (parse_mount_option hdr tok s).
Qed.

Lemma parse_ttl_option (c : ascii) (t : string) (n : Z) (s : prlfs_sb_info) :
  prlfs_strtoui (Some (String c t)) (sbi_ttl s) = (0, n) ->
  parse_mount_option hdr ("ttl=" ++ String c t) s = (0, with_sbi_ttl n s).
Proof.
  intros H. unfold parse_mount_option.
  change (strchr_eq ("ttl=" ++ String c t)) with ("ttl", Some (String c t)).
  cbv beta iota. change (String.eqb "ttl" "ttl") with true. cbn [andb].
  now rewrite H.
Qed.

Lemma parse_uid_option (c : ascii) (t : string) (n : Z) (s : prlfs_sb_info) :
  prlfs_strtoui (Some (String c t)) (u32 (-1)) = (0, n) ->
  parse_mount_option hdr ("uid=" ++ String c t) s
  = (0, with_sbi_ids n (sbi_gid s) s).
Proof.
  intros H. unfold parse_mount_option.
  change (strchr_eq ("uid=" ++ String c t)) with ("uid", Some (String c t)).
  cbv beta iota. change (String.eqb "uid" "ttl") with false.
  change (String.eqb "uid" "uid") with true. cbn [andb].
  now rewrite H.
Qed.

Lemma parse_gid_option (c : ascii) (t : string) (n : Z) (s : prlfs_sb_info) :
  prlfs_strtoui (Some (String c t)) (u32 (-1)) = (0, n) ->
  parse_mount_option hdr ("gid=" ++ String c t) s
  = (0, with_sbi_ids (sbi_uid s) n s).
Proof.
  intros H. unfold parse_mount_option.
  change (strchr_eq ("gid=" ++ String c t)) with ("gid", Some (String c t)).
  cbv beta iota. change (String.eqb "gid" "ttl") with false.
  change (String.eqb "gid" "uid") with false.
  change (String.eqb "gid" "gid") with true. cbn [andb].
  now rewrite H.
Qed.

Lemma parse_nls_option (c : ascii) (t : string) (s : prlfs_sb_info) :
  parse_mount_option hdr ("nls=" ++ String c t) s
  = (0, with_sbi_strings (sbi_name s)
          (strncpy (String c t) (LOCALE_NAME_LEN hdr - 1)) s).
Proof. reflexivity. Qed.

Lemma strncpy_whole (src : string) (n : Z) :
  strlen src <= n -> strncpy src n = src.
Proof.
  intros H. unfold strncpy, strlen in *.
  assert (Hn : (String.length src <= Z.to_nat n)%nat) by lia.
  clear H. revert Hn. generalize (Z.to_nat n). clear n.
  induction src as [|c src IH]; intros [|n] Hn; cbn in *;
    try reflexivity; try lia.
  f_equal. apply IH. lia.
Qed.

Lemma parse_empty_first (s : prlfs_sb_info) :
  parse_mount_loop hdr (strsep_commas EmptyString) 0 s = (0, s).
Proof. reflexivity. Qed.

(** X25: the options that [prlfs_show_options] writes read back.  Parsed
    as the options of a mount by a caller [current], its output gives 0 and
    the time to live and the locale name that were shown; a share mount
    reads back as a share mount (and then not as plain, also if it was
    both), a plain mount as plain, and otherwise the owner and the group
    that were shown are read back.  What is not shown (share and plain
    mounts show no owner, no mount shows the share name or the host_inodes
    flag) is what a mount without the option has.  (The locale name holds
    no ',' and fits its array.) *)
Theorem show_options_read_back (current : cred) (sb : prlfs_sb_info) :
  0 <= sbi_ttl sb < 2 ^ 32 ->
  0 <= sbi_uid sb < 2 ^ 32 ->
  0 <= sbi_gid sb < 2 ^ 32 ->
  has_char ","%char (sbi_nls sb) = false ->
  strlen (sbi_nls sb) < LOCALE_NAME_LEN hdr ->
  let share := negb (sbi_share sb =? 0) in
  let plain := negb (sbi_plain sb =? 0) in
  prlfs_parse_mount_options cfg hdr current
    (Some (prlfs_show_options sb EmptyString)) zero_sbi
  = (0, {| sbi_name := EmptyString;
           sbi_ttl := sbi_ttl sb;
           sbi_uid := if share || plain then cr_uid current else sbi_uid sb;
           sbi_gid := if share || plain then cr_gid current else sbi_gid sb;
           sbi_share := if share then 1 else 0;
           sbi_plain := if share then 0 else if plain then 1 else 0;
           sbi_host_inodes := 0;
           sbi_nls := sbi_nls sb |}).
Proof.
  intros Httl Huid Hgid Hcomma Hlen share plain.
  destruct (print_u_read (sbi_ttl sb) Httl) as ((ct & tt & Ht) & Hct & Hrt).
  destruct (print_u_read (sbi_uid sb) Huid) as ((cu & tu & Hu) & Hcu & Hru).
  destruct (print_u_read (sbi_gid sb) Hgid) as ((cg & tg & Hg) & Hcg & Hrg).
  unfold prlfs_parse_mount_options, prlfs_show_options. cbv zeta.
  rewrite Ht, Hu, Hg in *.
  set (s0 := with_sbi_ttl (HZ cfg)
               (with_sbi_ids (cr_uid current) (cr_gid current) zero_sbi)).
  change ("" ++ ",ttl=" ++ String ct tt)
    with ("" ++ "," ++ ("ttl=" ++ String ct tt)).
  assert (Hfirst : parse_mount_loop hdr
                     (strsep_commas ("" ++ "," ++ ("ttl=" ++ String ct tt)))
                     0 s0
                   = (0, with_sbi_ttl (sbi_ttl sb) s0)).
  { rewrite strsep_commas_app, parse_mount_loop_app, parse_empty_first.
    cbn [fst snd]. rewrite parse_one_option by (exact Hct || discriminate).
    apply parse_ttl_option, Hrt. }
  set (seq1 := "" ++ "," ++ ("ttl=" ++ String ct tt)) in *.
  set (s1 := with_sbi_ttl (sbi_ttl sb) s0) in *.
  assert (Hsecond :
            parse_mount_loop hdr
              (strsep_commas
                 match sbi_nls sb with
                 | EmptyString => seq1
                 | String a s => seq1 ++ ",nls=" ++ String a s
                 end) 0 s0
            = (0, with_sbi_strings EmptyString (sbi_nls sb) s1)).
  { destruct (sbi_nls sb) as [|cn tn] eqn:Hn; [rewrite Hfirst; reflexivity|].
    change (",nls=" ++ String cn tn) with ("," ++ ("nls=" ++ String cn tn)).
    rewrite strsep_commas_app, parse_mount_loop_app, Hfirst. cbn [fst snd].
    rewrite parse_one_option by (exact Hcomma || discriminate).
    rewrite parse_nls_option, strncpy_whole by lia. reflexivity. }
  set (seq2 := match sbi_nls sb with
               | EmptyString => seq1
               | String a s => seq1 ++ ",nls=" ++ String a s
               end) in *.
  set (s2 := with_sbi_strings EmptyString (sbi_nls sb) s1) in *.
  unfold share, plain.
  destruct (negb (sbi_share sb =? 0));
    [|destruct (negb (sbi_plain sb =? 0))]; cbn [orb].
  - change ",share" with ("," ++ "share").
    rewrite strsep_commas_app, parse_mount_loop_app, Hsecond. reflexivity.
  - change ",plain" with ("," ++ "plain").
    rewrite strsep_commas_app, parse_mount_loop_app, Hsecond. reflexivity.
  - change (",uid=" ++ String cu tu) with ("," ++ ("uid=" ++ String cu tu)).
    change (",gid=" ++ String cg tg) with ("," ++ ("gid=" ++ String cg tg)).
    rewrite !strsep_commas_app, !parse_mount_loop_app, Hsecond.
    cbn [fst snd].
    rewrite parse_one_option by (exact Hcu || discriminate).
    rewrite (parse_uid_option _ _ _ _ (Hru _)). cbn [fst snd].
    rewrite parse_one_option by (exact Hcg || discriminate).
    rewrite (parse_gid_option _ _ _ _ (Hrg _)). reflexivity.
Qed.

(** ** The privileged caller in share mode *)

Lemma test_low_bit (x : Z) : test (Z.land x 7) 1 = test x 1.
Proof.
  unfold test. rewrite <- Z.land_assoc. change (Z.land 7 1) with 1.
  reflexivity.
Qed.

(** X26: in share mode a caller with CAP_DAC_OVERRIDE is refused one thing
    only: to execute what is no directory and has no execute bit in the
    permission triple that applies (the owner's when the inode has an
    owner, else the group's when it has a group, else the others').
    Reading and writing are always granted to it. *)
Theorem permission_with_dac_override (capable : Z -> bool) (i : inode)
    (mask : Z) :
  capable CAP_DAC_OVERRIDE = true ->
  let triple := if prlfs_uid_valid (i_uid i) then Z.shiftr (i_mode i) 6
                else if prlfs_gid_valid (i_gid i) then Z.shiftr (i_mode i) 3
                else i_mode i in
  __prlfs_permission capable i mask
  = if test mask MAY_EXEC && negb (S_ISDIR (i_mode i))
       && negb (test triple MAY_EXEC)
    then - EACCES else 0.
Proof.
  intros Hcap triple. unfold __prlfs_permission. cbv zeta. fold triple.
  rewrite Hcap.
  change (Z.lor MAY_READ (Z.lor MAY_WRITE MAY_EXEC)) with 7.
  change MAY_EXEC with 1.
  rewrite <- (test_low_bit mask), <- (test_low_bit triple).
  pose proof (land7_range mask) as Hm.
  pose proof (land7_range triple) as Ht.
  generalize dependent (Z.land mask 7). generalize dependent (Z.land triple 7).
  intros t Ht m Hm.
  destruct (S_ISDIR (i_mode i)), (capable CAP_DAC_READ_SEARCH);
    apply small_cases in Ht, Hm;
    repeat match goal with H : _ \/ _ |- _ => destruct H as [->|H] end;
    subst; reflexivity.
Qed.

(** ** The kind of a node that a lookup finds *)

Lemma kind_of_umode_t (m : Z) : kind_of (umode_t m) = kind_of m.
Proof.
  unfold kind_of, umode_t. rewrite <- Z.land_ones by lia.
  rewrite <- Z.land_assoc. reflexivity.
Qed.

Lemma do_prlfs_getattr_asked (d : dptr) (attr : prlfs_attr) (w : world)
    (r : Z) (a : prlfs_attr) (w' : world) :
  do_prlfs_getattr cfg hdr env d attr w = Ret (r, a) w' ->
  0 <= r ->
  only_bookkeeping w w'
  /\ exists req,
       host_log w' = req :: host_log w
       /\ r = hr_ret (host env (List.length (host_log w)) req)
       /\ a = hr_attr (host env (List.length (host_log w)) req).
Proof.
  intros H Hr. split; [exact (do_prlfs_getattr_Ret _ _ _ _ _ H)|].
  unfold do_prlfs_getattr in H. rewrite PRLFS_STD_INODE_eq in H.
  cbv zeta in H.
  destruct (kmalloc_ok env (allocs w));
    [|injection H as <- _ _; unfold ENOMEM in Hr; lia].
  destruct (prlfs_get_path cfg (sbi w) (dcache w) d PATH_MAX)
    as [[[[p|e] text] buflen]|] eqn:Hp; [| |discriminate H].
  - injection H as <- <- <-. eexists. repeat split.
  - injection H as <- _ _. apply prlfs_get_path_err in Hp. subst e.
    unfold ENAMETOOLONG in Hr. lia.
Qed.

Lemma lookup_tail (d : dptr) (r1 : Z) (inode : option iptr) (w1 : world)
    (r : Z) (w' : world) :
  (w <- get_world ;;
   modify_dentry d (with_d_time (jiffies w)) ;;;
   modify_dentry d (with_d_inode inode) ;;; ret r1) w1 = Ret r w' ->
  r = r1 /\ icache w' = icache w1 /\ host_log w' = host_log w1
  /\ exists de, dcache w' !! d = Some de /\ d_inode de = inode.
Proof.
  intros H. apply bind_Ret in H as (w0 & w2 & Hm & H).
  injection Hm as <- <-.
  apply bind_Ret in H as (u1 & w3 & Hm & H).
  apply modify_dentry_Ret in Hm as (de1 & Hd1 & ->).
  apply bind_Ret in H as (u2 & w4 & Hm & H).
  apply modify_dentry_Ret in Hm as (de2 & Hd2 & ->).
  injection H as <- <-. red_world. repeat split.
  eexists. rewrite lookup_insert_eq. split; reflexivity.
Qed.

(** X27: the kind of a node is the one the host reported when the node was
    looked up.  After a successful lookup that attached an inode, that
    inode is a new one, the lookup has sent one request, and the file-type
    bits of the inode's mode are those of the mode in the host's reply to
    it. *)
Theorem lookup_kind_from_host (w : world) (d : dptr) (r : Z) (w' : world)
    (de' : dentry) (i : iptr) (ino : inode) :
  prlfs_lookup cfg hdr env d w = Ret r w' ->
  0 <= r ->
  dcache w' !! d = Some de' ->
  d_inode de' = Some i ->
  icache w' !! i = Some ino ->
  icache w !! i = None
  /\ exists req,
       host_log w' = req :: host_log w
       /\ r = hr_ret (host env (List.length (host_log w)) req)
       /\ kind_of (i_mode ino)
          = kind_of (pa_mode (hr_attr (host env (List.length (host_log w))
                                         req))).
Proof.
  intros H Hr Hd' Hi Hino.
  unfold prlfs_lookup, bind at 1, kmalloc_prlfs_attr in H.
  destruct (kmalloc_ok env (allocs w)); red_world_in H;
    [|injection H as <- _; unfold ENOMEM in Hr; lia].
  apply bind_Ret in H as ([r0 attr] & w1 & Hget & H).
  destruct ((r0 <? 0) && negb (r0 =? - ENOENT)) eqn:Hc.
  { injection H as <- _. apply andb_prop in Hc as [Hlt _].
    apply Z.ltb_lt in Hlt. lia. }
  apply bind_Ret in H as ([r1 inode] & w2 & Hnew & H).
  apply lookup_tail in H as (-> & Hic' & Hlog' & de & Hde & Hinode).
  rewrite Hd' in Hde. injection Hde as <-. rewrite Hi in Hinode.
  subst inode. destruct (r0 <? 0) eqn:Hlt; [discriminate Hnew|].
  apply Z.ltb_ge in Hlt.
  apply do_prlfs_getattr_asked in Hget as (Hbk & req & Hlog & Hr0 & Hattr);
    [|exact Hlt].
  destruct Hbk as (_ & Hic1 & _). red_world_in Hic1. red_world_in Hlog.
  apply bind_Ret in Hnew as (o & w3 & Hgi & Hnew).
  destruct o as [i'|]; [|discriminate Hnew].
  apply bind_Ret in Hnew as (w4 & w5 & Hm & Hnew). injection Hm as <- <-.
  apply bind_Ret in Hnew as (u & w6 & Hm & Hnew).
  apply modify_inode_Ret in Hm as (ino0 & Hino0 & ->).
  injection Hnew as <- <- <-.
  assert (Hfresh : icache w1 !! i' = None
                   /\ host_log w3 = host_log w1
                   /\ i_mode ino0 = umode_t (pa_mode attr)).
  { unfold prlfs_get_inode, bind, kmalloc, ret in Hgi.
    destruct (kmalloc_ok env (allocs w1)); cbn [negb] in Hgi;
      [|discriminate Hgi].
    injection Hgi as <- <-. red_world_in Hino0.
    rewrite lookup_insert_eq in Hino0. injection Hino0 as <-.
    split; [apply not_elem_of_dom, is_fresh|]. split; reflexivity. }
  destruct Hfresh as (Hnone & Hlog3 & Hmode).
  rewrite Hic' in Hino. red_world_in Hino.
  rewrite lookup_insert_eq in Hino. injection Hino as <-.
  split; [congruence|]. exists req.
  rewrite Hlog'. red_world. rewrite Hlog3, Hlog.
  split; [reflexivity|]. split; [exact Hr0|].
  rewrite change_attributes_kind, Hmode, kind_of_umode_t, Hattr.
  reflexivity.
Qed.

(** What [__prlfs_getattr] reports of an inode beside owner and group. *)
Lemma fill_stat_fields (w : world) (ino : inode) :
  st_mode (fill_stat w ino) = i_mode ino
  /\ st_size (fill_stat w ino) = i_size ino
  /\ st_atime (fill_stat w ino) = i_atime ino
  /\ st_mtime (fill_stat w ino) = i_mtime ino
  /\ st_ctime (fill_stat w ino) = i_ctime ino.
Proof.
  unfold fill_stat.
  destruct (negb (sbi_share (sbi w) =? 0)); [|repeat split; reflexivity].
  cbn [generic_fillattr with_st_uid with_st_gid st_uid st_gid].
  destruct (prlfs_uid_valid (i_uid ino));
    cbn [generic_fillattr with_st_uid with_st_gid st_uid st_gid];
    destruct (prlfs_gid_valid (i_gid ino)); repeat split; reflexivity.
Qed.

(** The inode that a successful lookup attaches: a new inode of the mode
    in the host's reply, stamped with the current time, with the reply
    applied to it. *)
Lemma lookup_installs_reply (w : world) (d : dptr) (r : Z) (w' : world)
    (de' : dentry) (i : iptr) (ino : inode) :
  prlfs_lookup cfg hdr env d w = Ret r w' ->
  0 <= r ->
  dcache w' !! d = Some de' ->
  d_inode de' = Some i ->
  icache w' !! i = Some ino ->
  exists req ino0,
    host_log w' = req :: host_log w
    /\ r = hr_ret (host env (List.length (host_log w)) req)
    /\ ino = prlfs_change_attributes cfg hdr (sbi w) ino0
               (hr_attr (host env (List.length (host_log w)) req))
    /\ i_mode ino0
       = umode_t (pa_mode (hr_attr (host env (List.length (host_log w))
                                      req)))
    /\ i_size ino0 = 0
    /\ i_atime ino0 = current_time w
    /\ i_mtime ino0 = current_time w
    /\ i_ctime ino0 = current_time w.
Proof.
  intros H Hr Hd' Hi Hino.
  unfold prlfs_lookup, bind at 1, kmalloc_prlfs_attr in H.
  destruct (kmalloc_ok env (allocs w)); red_world_in H;
    [|injection H as <- _; unfold ENOMEM in Hr; lia].
  apply bind_Ret in H as ([r0 attr] & w1 & Hget & H).
  destruct ((r0 <? 0) && negb (r0 =? - ENOENT)) eqn:Hc.
  { injection H as <- _. apply andb_prop in Hc as [Hlt _].
    apply Z.ltb_lt in Hlt. lia. }
  apply bind_Ret in H as ([r1 inode] & w2 & Hnew & H).
  apply lookup_tail in H as (-> & Hic' & Hlog' & de & Hde & Hinode).
  rewrite Hd' in Hde. injection Hde as <-. rewrite Hi in Hinode.
  subst inode. destruct (r0 <? 0) eqn:Hlt; [discriminate Hnew|].
  apply Z.ltb_ge in Hlt.
  apply do_prlfs_getattr_asked in Hget as (Hbk & req & Hlog & Hr0 & Hattr);
    [|exact Hlt].
  destruct Hbk as (_ & _ & Hsb1 & _ & Hct1 & _).
  red_world_in Hsb1. red_world_in Hct1. red_world_in Hlog.
  apply bind_Ret in Hnew as (o & w3 & Hgi & Hnew).
  destruct o as [i'|]; [|discriminate Hnew].
  apply bind_Ret in Hnew as (w4 & w5 & Hm & Hnew). injection Hm as <- <-.
  apply bind_Ret in Hnew as (u & w6 & Hm & Hnew).
  apply modify_inode_Ret in Hm as (ino0 & Hino0 & ->).
  injection Hnew as <- <- <-.
  assert (Hfresh : host_log w3 = host_log w1 /\ sbi w3 = sbi w1
                   /\ i_mode ino0 = umode_t (pa_mode attr)
                   /\ i_size ino0 = 0
                   /\ i_atime ino0 = current_time w1
                   /\ i_mtime ino0 = current_time w1
                   /\ i_ctime ino0 = current_time w1).
  { unfold prlfs_get_inode, bind, kmalloc, ret in Hgi.
    destruct (kmalloc_ok env (allocs w1)); cbn [negb] in Hgi;
      [|discriminate Hgi].
    injection Hgi as <- <-. red_world_in Hino0.
    rewrite lookup_insert_eq in Hino0. injection Hino0 as <-.
    repeat split. }
  destruct Hfresh as (Hlog3 & Hsb3 & Hmode & Hsize & Hat & Hmt & Hctm).
  rewrite Hic' in Hino. red_world_in Hino.
  rewrite lookup_insert_eq in Hino. injection Hino as <-.
  red_world_in Hattr. red_world_in Hr0. subst attr.
  rewrite Hct1 in Hat, Hmt, Hctm.
  exists req, ino0. rewrite Hlog'. red_world. rewrite Hlog3, Hlog.
  split; [reflexivity|]. split; [exact Hr0|].
  rewrite Hsb3, Hsb1. repeat split; assumption.
Qed.

(** X8: the attributes that a successful lookup fetched are used.  The
    lookup sends one request; the inode it attaches holds what the host's
    reply says of size, mode and times where the reply marks them valid
    (the mode with the file-type bits of the reply's mode), and otherwise
    what a new inode has: size 0, the reply's mode as it is, the current
    time.  A get-attributes on the entry straight after the lookup (the
    clock has not advanced, the time to live is not 0, the entry carries no
    unlinked mark) returns 0 with exactly these values in [stat], in an
    unchanged state, and so without a second request to the host.  The
    clock value 0 is the exception: a stamp of 0 reads as unknown. *)
Theorem lookup_then_getattr_from_cache (w : world) (d : dptr) (r : Z)
    (w' : world) (de' : dentry) (i : iptr) :
  prlfs_lookup cfg hdr env d w = Ret r w' ->
  0 <= r ->
  dcache w' !! d = Some de' ->
  d_inode de' = Some i ->
  check_dentry hdr de' = 0 ->
  jiffies w <> 0 ->
  0 < sbi_ttl (sbi w) ->
  exists req st,
    host_log w' = req :: host_log w
    /\ r = hr_ret (host env (List.length (host_log w)) req)
    /\ (forall stat,
          __prlfs_getattr cfg hdr env d stat w' = Ret (0, st) w')
    /\ let a := hr_attr (host env (List.length (host_log w)) req) in
       st_size st = (if test (pa_valid a) (_PATTR_SIZE hdr)
                     then pa_size a else 0)
       /\ st_mode st = (if test (pa_valid a) (_PATTR_MODE hdr)
                        then Z.lor (Z.land (umode_t (pa_mode a)) S_IFMT)
                                   (Z.land (pa_mode a) 4095)
                        else umode_t (pa_mode a))
       /\ st_atime st = (if test (pa_valid a) (_PATTR_ATIME hdr)
                         then pa_atime a else current_time w)
       /\ st_mtime st = (if test (pa_valid a) (_PATTR_MTIME hdr)
                         then pa_mtime a else current_time w)
       /\ st_ctime st = (if test (pa_valid a) (_PATTR_CTIME hdr)
                         then pa_ctime a else current_time w).
Proof.
  intros H Hr Hd' Hi Hc Hj Httl.
  destruct (lookup_success_shape _ _ _ _ H Hr)
    as (Hj' & Hsb' & de & Hde & Ht & Hino).
  rewrite Hd' in Hde. injection Hde as <-.
  destruct (Hino i Hi) as (ino & Hic).
  destruct (lookup_installs_reply _ _ _ _ _ _ _ H Hr Hd' Hi Hic)
    as (req & ino0 & Hlog & Hret & Hinst & Hm0 & Hs0 & Ha0 & Hmt0 & Hc0).
  exists req, (fill_stat w' ino).
  split; [exact Hlog|]. split; [exact Hret|]. split.
  - intros stat. unfold __prlfs_getattr, bind at 1, read_dentry.
    rewrite Hd', Hc. cbn [Z.eqb negb]. unfold bind at 1.
    rewrite (prlfs_i_revalidate_fresh cfg hdr env w' d de' i Hd' Hi).
    + cbn [Z.ltb Z.compare]. rewrite Hi.
      unfold bind, read_inode, get_world. rewrite Hic. reflexivity.
    + unfold within_ttl. rewrite Ht, Hj', Hsb', Z.sub_diag.
      apply Z.eqb_neq in Hj. rewrite Hj. unfold ulong.
      rewrite Z.mod_0_l
        by (unfold BITS_PER_LONG; destruct (CONFIG_64BIT cfg); lia).
      apply Z.ltb_lt in Httl. rewrite Httl. reflexivity.
  - cbv zeta.
    destruct (fill_stat_fields w' ino) as (-> & -> & -> & -> & ->).
    rewrite Hinst. unfold prlfs_change_attributes.
    cbn [i_mode i_size i_atime i_mtime i_ctime].
    rewrite Hm0, Hs0, Ha0, Hmt0, Hc0. repeat split.
Qed.

End Extras.

(** * The further properties at concrete kernels and worlds *)

(** X1, at the file "x" below the directory "a" of the share. *)
Lemma prlfs_get_path_is_host_path_witness :
  let dc := dcache (small_world 250 990 0) in
  prlfs_get_path linux_5_15 (share_sbi 250) dc 3 PATH_MAX
  = Done (buf_at 4085, "/share/a/x", 11)
  /\ exists fuel names,
       ancestor_names fuel dc 3 [] = Some names
       /\ "/share/a/x" = host_path (share_sbi 250) names
       /\ 11 = strnlen "/share/a/x" (PAGE_SIZE linux_5_15 - 1) + 1
       /\ 0 <= 4085
       /\ 4085 + strlen "/share/a/x" + 1 = PATH_MAX.
Proof.
  cbv zeta. split; [vm_compute; reflexivity|].
  apply (prlfs_get_path_is_host_path linux_5_15 (share_sbi 250)
           (dcache (small_world 250 990 0)) 3 PATH_MAX 4085 "/share/a/x" 11).
  vm_compute. reflexivity.
Defined.

(** X2, on a 2.6.32 kernel at a path that does not fit the buffer. *)
Lemma prlfs_get_path_only_enametoolong_witness :
  let w := deep_world 15 255 (letters 250) in
  exists text n,
    prlfs_get_path linux_2_6_32 (sbi w) (dcache w) 17 PATH_MAX
    = Done (ERR_PTR (- ENAMETOOLONG), text, n).
Proof.
  cbv zeta.
  destruct (prlfs_get_path linux_2_6_32 (sbi (deep_world 15 255 (letters 250)))
              (dcache (deep_world 15 255 (letters 250))) 17 PATH_MAX)
    as [[[[p|e] text] n]|] eqn:H; try (vm_compute in H; discriminate H).
  exists text, n.
  rewrite (prlfs_get_path_only_enametoolong linux_2_6_32 _ _ _ _ _ _ _ H).
  reflexivity.
Defined.

(** X3, at the same file. *)
Lemma prlfs_get_path_complete_witness :
  let dc := dcache (small_world 250 990 0) in
  ancestor_names 3 dc 3 [] = Some ["a"; "x"]
  /\ strlen (host_path (share_sbi 250) ["a"; "x"]) + 1 <= PATH_MAX
  /\ prlfs_get_path linux_5_15 (share_sbi 250) dc 3 PATH_MAX
     = Done (buf_at 4085, "/share/a/x", 11).
Proof.
  cbv zeta. split; [vm_compute; reflexivity|].
  split; [vm_compute; discriminate|].
  pose proof (prlfs_get_path_complete linux_5_15 (share_sbi 250)
                (dcache (small_world 250 990 0)) 3 PATH_MAX 3 ["a"; "x"])
    as H.
  rewrite H.
  - vm_compute. reflexivity.
  - vm_compute. reflexivity.
  - intros de Hde. vm_compute in Hde. injection Hde as <-.
    vm_compute. discriminate.
  - vm_compute. discriminate.
Defined.

(** X6, at a host that knows no file. *)
Lemma lookup_enoent_negative_entry_witness :
  let w := small_world 250 0 0 in
  let w' := final_world (prlfs_lookup linux_5_15 prlfs_h_bits env_enoent 3 w) in
  prlfs_lookup linux_5_15 prlfs_h_bits env_enoent 3 w = Ret 0 w'
  /\ d_inode <$> dcache w' !! 3%positive = Some None
  /\ icache w' = icache w
  /\ prlfs_d_revalidate linux_5_15 prlfs_h_bits env_enoent (Some 3%positive) w'
     = Ret 0 w'.
Proof.
  cbv zeta.
  pose proof (lookup_enoent_negative_entry linux_5_15 prlfs_h_bits env_enoent
                (small_world 250 0 0) 3 (entry_x 0 0) 4085 "/share/a/x" 11
                eq_refl eq_refl) as H.
  cbv zeta in H. destruct H as (H1 & H2 & H3);
    try (vm_compute; reflexivity).
  rewrite H1. cbn [final_world].
  split; [reflexivity|]. split; [vm_compute; reflexivity|].
  split; [exact H2 | exact H3].
Defined.

(** X7, at a host that fails every request. *)
Lemma lookup_error_leaves_caches_witness :
  let w := small_world 250 0 0 in
  let out := prlfs_lookup linux_5_15 prlfs_h_bits env_refuses 3 w in
  returned out = Some (- EIO)
  /\ dcache (final_world out) = dcache w
  /\ icache (final_world out) = icache w.
Proof.
  cbv zeta. split; [vm_compute; reflexivity|].
  apply (lookup_error_leaves_caches linux_5_15 prlfs_h_bits env_refuses
           (small_world 250 0 0) 3 (- EIO)).
  - vm_compute. reflexivity.
  - vm_compute. reflexivity.
Defined.

(** X8, at a host that reports a regular file of mode 0644 and marks
    nothing but the mode valid. *)
Lemma lookup_then_getattr_from_cache_witness :
  let w := small_world 250 0 0 in
  let w' := final_world (prlfs_lookup linux_5_15 prlfs_h_bits env_accepts 3 w) in
  prlfs_lookup linux_5_15 prlfs_h_bits env_accepts 3 w = Ret 0 w'
  /\ exists req st,
       host_log w' = [req]
       /\ __prlfs_getattr linux_5_15 prlfs_h_bits env_accepts 3 empty_stat w'
          = Ret (0, st) w'
       /\ st_size st = 0
       /\ st_mode st = Z.lor S_IFREG 420
       /\ st_mtime st = 1700000000.
Proof.
  cbv zeta. split; [vm_compute; reflexivity|].
  destruct (lookup_then_getattr_from_cache linux_5_15 prlfs_h_bits env_accepts
              (small_world 250 0 0) 3 0
              (final_world
                 (prlfs_lookup linux_5_15 prlfs_h_bits env_accepts 3
                    (small_world 250 0 0)))
              (with_d_inode (Some 4%positive) (entry_x 1000 0)) 4)
    as (req & st & Hlog & _ & Hget & Hfields);
    try (vm_compute; reflexivity); try (vm_compute; discriminate).
  cbv zeta in Hfields.
  destruct Hfields as (Hsize & Hmode & _ & Hmtime & _).
  exists req, st. split; [exact Hlog|]. split; [apply Hget|].
  split; [exact Hsize|]. split; [exact Hmode | exact Hmtime].
Defined.

(** X9, at a host that accepts the removal. *)
Lemma remove_marks_iff_host_ok_witness :
  let w := small_world 250 990 0 in
  let w' := final_world (prlfs_unlink linux_5_15 prlfs_h_bits env_accepts 3 w) in
  prlfs_unlink linux_5_15 prlfs_h_bits env_accepts 3 w = Ret 0 w'
  /\ icache w' = icache w
  /\ tombstoned prlfs_h_bits w' 3
  /\ __prlfs_getattr linux_5_15 prlfs_h_bits env_accepts 3 empty_stat w'
     = Ret (- ESTALE, empty_stat) w'.
Proof.
  cbv zeta.
  assert (H : prlfs_unlink linux_5_15 prlfs_h_bits env_accepts 3
                (small_world 250 990 0)
              = Ret 0 (final_world
                         (prlfs_unlink linux_5_15 prlfs_h_bits env_accepts 3
                            (small_world 250 990 0))))
    by (vm_compute; reflexivity).
  destruct (remove_marks_iff_host_ok linux_5_15 prlfs_h_bits env_accepts
              _ _ _ _ ltac:(vm_compute; discriminate) (or_introl H))
    as (Hic & _ & Hmark).
  destruct (Hmark eq_refl) as (Ht & Hget).
  split; [exact H|]. split; [exact Hic|]. split; [exact Ht | apply Hget].
Defined.

(** X11, at a host that refuses the change. *)
Lemma setattr_sends_and_invalidates_witness :
  let w := small_world 250 990 0 in
  let out := prlfs_setattr linux_5_15 prlfs_h_bits env_refuses 3 chmod_attr w in
  returned out = Some (- EIO)
  /\ host_log (final_world out)
     = [req_attr "/share/a/x" 11
          (init_buffer_descriptor linux_5_15 prlfs_h_bits 56 0 0)
          (snd (attr_to_pattr prlfs_h_bits chmod_attr))]
  /\ (exists de', dcache (final_world out) !! 3%positive = Some de'
                  /\ d_time de' = 0)
  /\ icache (final_world out) = icache w.
Proof.
  cbv zeta.
  pose proof (setattr_sends_and_invalidates linux_5_15 prlfs_h_bits
                env_refuses (small_world 250 990 0) 3 chmod_attr
                (entry_x 990 0) 4085 "/share/a/x" 11 (- EIO)
                (final_world
                   (prlfs_setattr linux_5_15 prlfs_h_bits env_refuses 3
                      chmod_attr (small_world 250 990 0)))) as H.
  cbv zeta in H.
  destruct H as (Hlog & _ & (de' & Hde' & Ht & _) & Hrefused);
    try (vm_compute; reflexivity).
  split; [vm_compute; reflexivity|]. split; [exact Hlog|].
  split; [exists de'; split; assumption|].
  apply Hrefused. vm_compute. discriminate.
Defined.

(** X12, at a stale entry and a host that knows no file. *)
Lemma revalidate_error_leaves_caches_witness :
  let w := small_world 250 0 0 in
  let out := prlfs_i_revalidate linux_5_15 prlfs_h_bits env_enoent
               (Some 3%positive) w in
  returned out = Some (- ENOENT)
  /\ dcache (final_world out) = dcache w
  /\ icache (final_world out) = icache w.
Proof.
  cbv zeta. split; [vm_compute; reflexivity|].
  apply (revalidate_error_leaves_caches linux_5_15 prlfs_h_bits env_enoent
           (Some 3%positive) (small_world 250 0 0) (- ENOENT)).
  - vm_compute. reflexivity.
  - vm_compute. reflexivity.
  - vm_compute. discriminate.
Defined.

(** X13, at a stale entry and a host that reports a regular file. *)
Lemma revalidate_twice_asks_once_witness :
  let w := small_world 250 0 0 in
  let w' := final_world
              (prlfs_i_revalidate linux_5_15 prlfs_h_bits env_accepts
                 (Some 3%positive) w) in
  prlfs_i_revalidate linux_5_15 prlfs_h_bits env_accepts (Some 3%positive) w
  = Ret 0 w'
  /\ List.length (host_log w') = 1%nat
  /\ prlfs_i_revalidate linux_5_15 prlfs_h_bits env_accepts (Some 3%positive) w'
     = Ret 0 w'.
Proof.
  cbv zeta. split; [vm_compute; reflexivity|].
  split; [vm_compute; reflexivity|].
  apply (revalidate_twice_asks_once linux_5_15 prlfs_h_bits env_accepts 3
           (small_world 250 0 0) 0).
  - vm_compute. reflexivity.
  - vm_compute. discriminate.
  - vm_compute. discriminate.
  - vm_compute. reflexivity.
Defined.

(** X14, on a 32-bit kernel five ticks before the counter wraps. *)
Lemma freshness_survives_wraparound_witness :
  let w := set_jiffies (2 ^ 32 - 5) (small_world 250 0 0) in
  let w' := final_world
              (run_op linux_2_6_32 prlfs_h_bits env_accepts (op_tick 10) w) in
  jiffies w' = 5
  /\ within_ttl linux_2_6_32 w' (entry_x (2 ^ 32 - 5) 0) = true.
Proof.
  cbv zeta. split; [vm_compute; reflexivity|].
  rewrite (freshness_survives_wraparound linux_2_6_32 prlfs_h_bits
             env_accepts).
  - vm_compute. reflexivity.
  - vm_compute. reflexivity.
  - vm_compute. discriminate.
  - vm_compute. split; [discriminate | reflexivity].
Defined.

(** X16, under helpers that store the mode of a request whole, through a
    sequence of operations on the file "x" that starts with a chmod. *)
Lemma node_kind_is_stable_witness :
  kernel_keeps_kind env_kernel
  /\ kernel_keeps_i_op env_kernel
  /\ i_mode (setattr_copy env_kernel file_inode chmod_file_attr)
     = Z.lor S_IFREG 384
  /\ vfs_requests_fit linux_5_15 prlfs_h_bits env_kernel
       [op_setattr 3 chmod_file_attr; op_tick 600; op_getattr 3 empty_stat;
        op_rename 3 2 0; op_lookup 3] (small_world 250 990 0) = true
  /\ exists ino',
       icache
         (final_world
            (run_ops linux_5_15 prlfs_h_bits env_kernel
               [op_setattr 3 chmod_file_attr; op_tick 600;
                op_getattr 3 empty_stat; op_rename 3 2 0; op_lookup 3]
               (small_world 250 990 0))) !! 3%positive = Some ino'
       /\ (kind_of (i_mode ino') = kind_of (i_mode file_inode)
           \/ i_op ino' = bad_inode_ops).
Proof.
  assert (H1 : kernel_keeps_kind env_kernel).
  { intros ino attr size. split; [|reflexivity].
    unfold mode_fits. cbn [env_kernel inode_setattr setattr_copy snd].
    unfold kernel_setattr_copy. cbn [i_mode].
    destruct (test (ia_valid attr) ATTR_MODE); cbn [negb orb]; intros H.
    - apply Z.eqb_eq in H. split; exact H.
    - split; [destruct (test (ia_valid attr) ATTR_SIZE)|]; reflexivity. }
  assert (H2 : kernel_keeps_i_op env_kernel).
  { intros ino attr size. cbn [env_kernel inode_setattr setattr_copy snd].
    destruct (test (ia_valid attr) ATTR_SIZE); repeat split. }
  split; [exact H1|]. split; [exact H2|]. split; [reflexivity|].
  split; [vm_compute; reflexivity|].
  apply (node_kind_is_stable linux_5_15 prlfs_h_bits env_kernel _
           (small_world 250 990 0) 3 file_inode H1 H2);
    vm_compute; reflexivity.
Defined.

(** X17, at a number and at a string that is none. *)
Lemma prlfs_strtoui_reads_decimal_witness :
  prlfs_strtoui (Some "0250") 7 = (0, 250)
  /\ prlfs_strtoui (Some "25o") 7 = (- EINVAL, 7).
Proof.
  split.
  - apply (prlfs_strtoui_reads_decimal "0250" 7); [discriminate | |];
      vm_compute; reflexivity.
  - apply (prlfs_strtoui_reads_decimal "25o" 7); [discriminate|].
    vm_compute. reflexivity.
Defined.

(** X18: 5000000000 is read as 705032704. *)
Lemma prlfs_strtoui_one_more_digit_witness :
  2 ^ 32 <= decimal_value "5000000000" 0
  /\ prlfs_strtoui (Some "5000000000") 7 = (0, 705032704).
Proof.
  split; [vm_compute; discriminate|].
  pose proof (prlfs_strtoui_one_more_digit "500000000" "0" 7
                eq_refl eq_refl eq_refl) as H.
  cbv zeta in H. etransitivity; [exact H|]. vm_compute. reflexivity.
Defined.

(** X19, at three options. *)
Lemma parse_mount_options_status_witness :
  let rs := prlfs_parse_mount_options linux_5_15 prlfs_h_bits root_cred
              (Some "ttl=5,nls=utf8,share") zero_sbi in
  (fst rs = 0 \/ fst rs = - EINVAL)
  /\ strlen (sbi_nls (snd rs)) < 40
  /\ strlen (sbi_name (snd rs)) <= 256.
Proof.
  apply (parse_mount_options_status linux_5_15 prlfs_h_bits root_cred
           (Some "ttl=5,nls=utf8,share")); vm_compute;
    [reflexivity | discriminate].
Defined.

(** X20, at a device given by a path and one option of the caller. *)
Lemma mount_names_share_after_device_witness :
  let w := small_world 250 0 0 in
  extend_mount_data env_accepts (Some "ttl=5") "/media/psf/Home" w
  = Ret (Some "sf=Home,ttl=5") (set_allocs 1 w)
  /\ prlfs_parse_mount_options linux_5_15 prlfs_h_bits root_cred
       (Some "sf=Home,ttl=5") zero_sbi
     = (0, with_sbi_strings "Home" ""
             (with_sbi_ttl 5 (with_sbi_ids 0 0 zero_sbi))).
Proof.
  cbv zeta.
  pose proof (mount_names_share_after_device linux_5_15 prlfs_h_bits
                env_accepts root_cred "/media/psf/Home" (Some "ttl=5")
                zero_sbi (small_world 250 0 0) eq_refl) as H.
  cbv zeta in H. destruct H as (_ & ext & Hext & Hparse);
    [vm_compute; reflexivity|].
  assert (Hx : ext = "sf=Home,ttl=5").
  { vm_compute in Hext. now injection Hext as <-. }
  subst ext. split; [vm_compute; reflexivity|].
  rewrite Hparse. vm_compute. reflexivity.
Defined.

(** X21, for a caller without capabilities at a file of mode 0640. *)
Lemma permission_is_monotone_witness :
  let i := {| i_mode := Z.lor S_IFREG 416; i_size := 0; i_blocks := 0;
              i_atime := 0; i_mtime := 0; i_ctime := 0; i_uid := 0;
              i_gid := 0; i_ino := 8; i_op := prlfs_file_iops;
              i_pfd := 0 |} in
  __prlfs_permission (fun _ => false) i (Z.lor MAY_READ MAY_WRITE) = 0
  /\ __prlfs_permission (fun _ => false) i MAY_READ = 0
  /\ __prlfs_permission (fun _ => false) i MAY_EXEC = - EACCES.
Proof.
  cbv zeta. split; [vm_compute; reflexivity|].
  split; [|vm_compute; reflexivity].
  apply (permission_is_monotone (fun _ => false) _
           (Z.lor MAY_READ MAY_WRITE) MAY_READ); vm_compute; reflexivity.
Defined.

(** X23, at an entry that is fresh. *)
Lemma getattr_reports_cache_witness :
  let w := small_world 250 990 0 in
  __prlfs_getattr linux_5_15 prlfs_h_bits env_accepts 3 empty_stat w
  = Ret (0, fill_stat w file_inode) w
  /\ exists de i ino,
       dcache w !! 3%positive = Some de /\ d_inode de = Some i
       /\ icache w !! i = Some ino
       /\ fill_stat w file_inode = fill_stat w ino.
Proof.
  cbv zeta.
  assert (H : __prlfs_getattr linux_5_15 prlfs_h_bits env_accepts 3
                empty_stat (small_world 250 990 0)
              = Ret (0, fill_stat (small_world 250 990 0) file_inode)
                  (small_world 250 990 0))
    by (vm_compute; reflexivity).
  split; [exact H|].
  destruct (getattr_reports_cache linux_5_15 prlfs_h_bits env_accepts
              _ _ _ _ _ _ H) as (_ & Hok).
  destruct (Hok ltac:(vm_compute; discriminate))
    as (de & i & ino & H1 & H2 & H3 & H4 & _).
  exists de, i, ino. repeat split; assumption.
Defined.

(** X24, at an unlink without memory. *)
Lemma no_memory_no_effect_witness :
  let w := small_world 250 990 0 in
  let out := run_op linux_5_15 prlfs_h_bits env_no_memory (op_unlink 3) w in
  host_log (final_world out) = host_log w
  /\ dcache (final_world out) = dcache w
  /\ icache (final_world out) = icache w
  /\ out = Ret (- ENOMEM) (set_allocs 1 w).
Proof.
  cbv zeta.
  exact (no_memory_no_effect linux_5_15 prlfs_h_bits env_no_memory
           (op_unlink 3) (small_world 250 990 0) eq_refl).
Defined.

(** X25, at a mount with a locale and an owner of its own. *)
Lemma show_options_read_back_witness :
  let sb := {| sbi_name := "Home"; sbi_ttl := 250; sbi_uid := 501;
               sbi_gid := 20; sbi_share := 0; sbi_plain := 0;
               sbi_host_inodes := 0; sbi_nls := "utf8" |} in
  prlfs_show_options sb "" = ",ttl=250,nls=utf8,uid=501,gid=20"
  /\ prlfs_parse_mount_options linux_5_15 prlfs_h_bits root_cred
       (Some ",ttl=250,nls=utf8,uid=501,gid=20") zero_sbi
     = (0, {| sbi_name := ""; sbi_ttl := 250; sbi_uid := 501; sbi_gid := 20;
              sbi_share := 0; sbi_plain := 0; sbi_host_inodes := 0;
              sbi_nls := "utf8" |}).
Proof.
  cbv zeta. split; [vm_compute; reflexivity|].
  pose proof (show_options_read_back linux_5_15 prlfs_h_bits root_cred
                {| sbi_name := "Home"; sbi_ttl := 250; sbi_uid := 501;
                   sbi_gid := 20; sbi_share := 0; sbi_plain := 0;
                   sbi_host_inodes := 0; sbi_nls := "utf8" |}) as H.
  cbv zeta in H. etransitivity; [|apply H].
  - vm_compute. reflexivity.
  - vm_compute. split; [discriminate | reflexivity].
  - vm_compute. split; [discriminate | reflexivity].
  - vm_compute. split; [discriminate | reflexivity].
  - vm_compute. reflexivity.
  - vm_compute. reflexivity.
Defined.

(** X26, for a caller with CAP_DAC_OVERRIDE only at a file of mode 0644. *)
Lemma permission_with_dac_override_witness :
  let capable := fun c => c =? CAP_DAC_OVERRIDE in
  __prlfs_permission capable file_inode MAY_EXEC = - EACCES
  /\ __prlfs_permission capable file_inode (Z.lor MAY_READ MAY_WRITE) = 0
  /\ __prlfs_permission capable dir_inode
       (Z.lor MAY_EXEC MAY_WRITE) = 0.
Proof.
  cbv zeta.
  rewrite !(permission_with_dac_override (fun c => c =? CAP_DAC_OVERRIDE))
    by reflexivity.
  repeat split.
Defined.

(** X27, at a host that reports a regular file. *)
Lemma lookup_kind_from_host_witness :
  let w := small_world 250 0 0 in
  let w' := final_world (prlfs_lookup linux_5_15 prlfs_h_bits env_accepts 3 w) in
  prlfs_lookup linux_5_15 prlfs_h_bits env_accepts 3 w = Ret 0 w'
  /\ d_inode <$> dcache w' !! 3%positive = Some (Some 4%positive)
  /\ icache w !! 4%positive = None
  /\ exists ino req,
       icache w' !! 4%positive = Some ino
       /\ host_log w' = req :: host_log w
       /\ kind_of (i_mode ino) = S_IFREG.
Proof.
  cbv zeta.
  assert (H : prlfs_lookup linux_5_15 prlfs_h_bits env_accepts 3
                (small_world 250 0 0)
              = Ret 0 (final_world
                         (prlfs_lookup linux_5_15 prlfs_h_bits env_accepts 3
                            (small_world 250 0 0))))
    by (vm_compute; reflexivity).
  split; [exact H|]. split; [vm_compute; reflexivity|].
  destruct (icache (final_world
                      (prlfs_lookup linux_5_15 prlfs_h_bits env_accepts 3
                         (small_world 250 0 0))) !! 4%positive)
    as [ino|] eqn:Hino; [|vm_compute in Hino; discriminate Hino].
  destruct (lookup_kind_from_host linux_5_15 prlfs_h_bits env_accepts
              _ _ _ _ (with_d_inode (Some 4%positive) (entry_x 1000 0)) 4 ino
              H)
    as (Hnew & req & Hlog & _ & Hkind);
    try (vm_compute; reflexivity); try (vm_compute; discriminate);
    try exact Hino.
  split; [exact Hnew|]. exists ino, req.
  split; [reflexivity|]. split; [exact Hlog|].
  rewrite Hkind. reflexivity.
Defined.
